(** * Student Attendance & Marks Management System (src/app.py)

    A shallow embedding of the Flask application's request handlers over an
    explicit model of its SQLite store, and the properties the specification
    states about them.

    Modelling conventions
    - Python [str] is [string]: a sequence of code points below 256, compared
      code point by code point (Python's [<], [>], SQLite's BINARY collation).
    - SQLite INTEGER columns are [Z]; TEXT columns are [string]; the REAL
      column [marks] is a [pyfloat].
    - A table is the list of its rows in rowid order.  AUTOINCREMENT keys are
      drawn from a per-table sequence that only grows.
    - Library functions the handlers call ([str.strip], [re.match],
      [datetime.strptime], [date.weekday], [float], [int], [min], [max]) are
      modelled after CPython's behaviour on such strings. *)

From Stdlib Require Import ZArith List String Ascii Bool Lia QArith Permutation.
From Stdlib Require Import DecimalString Lqa.
From Stdlib Require DecimalZ Sorted.
Import ListNotations.
Local Open Scope Z_scope.
Local Open Scope list_scope.

(* ================================================================= *)
(** ** Python strings *)

Definition ord (c : ascii) : Z := Z.of_N (N_of_ascii c).

(** [str.isspace] on a single code point below 256. *)
Definition isspace (c : ascii) : bool :=
  let n := ord c in
  ((9 <=? n) && (n <=? 13)) || ((28 <=? n) && (n <=? 32))
  || (n =? 133) || (n =? 160).

Fixpoint lstrip (s : string) : string :=
  match s with
  | EmptyString => EmptyString
  | String c s' => if isspace c then lstrip s' else s
  end.

Fixpoint rstrip (s : string) : string :=
  match s with
  | EmptyString => EmptyString
  | String c s' =>
      match rstrip s' with
      | EmptyString => if isspace c then EmptyString else String c EmptyString
      | t => String c t
      end
  end.

(** [s.strip()] *)
Definition strip (s : string) : string := rstrip (lstrip s).

Definition upper_char (c : ascii) : ascii :=
  let n := ord c in
  if (97 <=? n) && (n <=? 122) then ascii_of_N (Z.to_N (n - 32)) else c.

(** [s.upper()], on the ASCII letters (the only letters a validated roll
    number can hold). *)
Fixpoint upper (s : string) : string :=
  match s with
  | EmptyString => EmptyString
  | String c s' => String (upper_char c) (upper s')
  end.

(** Python truthiness of a [str]. *)
Definition truthy (s : string) : bool :=
  match s with EmptyString => false | _ => true end.

Definition digit_val (c : ascii) : option Z :=
  let n := ord c in
  if (48 <=? n) && (n <=? 57) then Some (n - 48) else None.

Definition digit_char (n : Z) : ascii := ascii_of_N (Z.to_N (48 + n)).

(** [digit (["_"] digit)*] after its first digit: the digits read and the
    text left over. *)
Fixpoint digits_tail (s : string) : list Z * string :=
  match s with
  | EmptyString => ([], EmptyString)
  | String c s1 =>
      match digit_val c with
      | Some d => let (ds, r) := digits_tail s1 in (d :: ds, r)
      | None =>
          if (ord c =? 95) then
            match s1 with
            | String c2 s2 =>
                match digit_val c2 with
                | Some d => let (ds, r) := digits_tail s2 in (d :: ds, r)
                | None => ([], s)
                end
            | EmptyString => ([], s)
            end
          else ([], s)
      end
  end.

(** [digitpart ::= digit (["_"] digit)*] *)
Definition digitpart (s : string) : option (list Z * string) :=
  match s with
  | String c s1 =>
      match digit_val c with
      | Some d => let (ds, r) := digits_tail s1 in Some (d :: ds, r)
      | None => None
      end
  | EmptyString => None
  end.

Definition Z_of_digits (ds : list Z) : Z :=
  fold_left (fun acc d => 10 * acc + d) ds 0.

(** An optional sign: [true] for a leading minus. *)
Definition opt_sign (s : string) : bool * string :=
  match s with
  | String c r =>
      if ord c =? 45 then (true, r)
      else if ord c =? 43 then (false, r)
      else (false, s)
  | EmptyString => (false, s)
  end.

(** [sys.int_info.default_max_str_digits]: the most digits [int] converts. *)
Definition max_str_digits : Z := 4300.

(** [int(s)] for a [str] in base 10; [None] stands for [ValueError], which
    is also what a text of more than [max_str_digits] digits (leading
    zeros counted, underscores not) raises. *)
Definition py_int (s : string) : option Z :=
  let (neg, body) := opt_sign (strip s) in
  match digitpart body with
  | Some (ds, EmptyString) =>
      if max_str_digits <? Z.of_nat (List.length ds) then None
      else Some (if neg then - Z_of_digits ds else Z_of_digits ds)
  | _ => None
  end.

(* ================================================================= *)
(** ** Regular expression of [validate_roll_number] *)

(** The character class [[A-Za-z0-9\-]]. *)
Definition roll_char (c : ascii) : bool :=
  let n := ord c in
  ((65 <=? n) && (n <=? 90)) || ((97 <=? n) && (n <=? 122))
  || ((48 <=? n) && (n <=? 57)) || (n =? 45).

(** Consume exactly [n] characters of the class. *)
Fixpoint take_class (p : ascii -> bool) (n : nat) (s : string)
  : option string :=
  match n with
  | O => Some s
  | S n' =>
      match s with
      | String c s' => if p c then take_class p n' s' else None
      | EmptyString => None
      end
  end.

(** [$] without [re.MULTILINE]: the end of the text, or just before a
    newline that ends the text. *)
Definition at_dollar (rest : string) : bool :=
  match rest with
  | EmptyString => true
  | String c EmptyString => ord c =? 10
  | _ => false
  end.

(** [re.match(r'^[A-Za-z0-9\-]{3,15}$', s)]: the greedy quantifier tries
    15 repetitions first and backs off down to 3. *)
Definition re_match_roll (s : string) : bool :=
  existsb (fun n => match take_class roll_char n s with
                    | Some rest => at_dollar rest
                    | None => false
                    end)
          (rev (seq 3 13)).

(** [validate_roll_number(roll_no)] *)
Definition validate_roll_number (roll_no : string) : bool * string :=
  if negb (truthy roll_no) || negb (truthy (strip roll_no)) then
    (false, "Roll number cannot be empty."%string)
  else if negb (re_match_roll (strip roll_no)) then
    (false,
     "Roll number must be 3-15 alphanumeric characters (hyphens allowed)."%string)
  else (true, "Valid roll number."%string).

(* ================================================================= *)
(** ** Python dates *)

Record date := mkdate { year : Z; month : Z; day : Z }.

(** [datetime._is_leap] *)
Definition is_leap (y : Z) : bool :=
  (y mod 4 =? 0) && (negb (y mod 100 =? 0) || (y mod 400 =? 0)).

(** [datetime._days_in_month]; also [calendar.monthrange(y, m)[1]]. *)
Definition days_in_month (y m : Z) : Z :=
  if m =? 2 then (if is_leap y then 29 else 28)
  else if (m =? 4) || (m =? 6) || (m =? 9) || (m =? 11) then 30
  else 31.

(** [datetime._days_before_year] *)
Definition days_before_year (y : Z) : Z :=
  let y1 := y - 1 in y1 * 365 + y1 / 4 - y1 / 100 + y1 / 400.

(** [datetime._days_before_month] *)
Definition days_before_month (y m : Z) : Z :=
  nth (Z.to_nat m) [0; 0; 31; 59; 90; 120; 151; 181; 212; 243; 273; 304; 334] 0
  + (if (2 <? m) && is_leap y then 1 else 0).

(** [date.toordinal()] *)
Definition toordinal (d : date) : Z :=
  days_before_year (year d) + days_before_month (year d) (month d) + day d.

(** [date.weekday()]: Monday is 0, Sunday is 6. *)
Definition weekday (d : date) : Z := (toordinal d + 6) mod 7.

(** The dates [datetime.date(y, m, d)] constructs without [ValueError]. *)
Definition valid_dateb (d : date) : bool :=
  (1 <=? year d) && (year d <=? 9999) && (1 <=? month d) && (month d <=? 12)
  && (1 <=? day d) && (day d <=? days_in_month (year d) (month d)).

Definition valid_date (d : date) : Prop :=
  1 <= year d <= 9999 /\ 1 <= month d <= 12
  /\ 1 <= day d <= days_in_month (year d) (month d).

(** Calendar order: Python compares dates as [(year, month, day)]. *)
Definition date_compare (a b : date) : comparison :=
  match year a ?= year b with
  | Eq => match month a ?= month b with
          | Eq => day a ?= day b
          | c => c
          end
  | c => c
  end.

Definition date_lt (a b : date) : Prop := date_compare a b = Lt.

Definition pad2 (n : Z) : string :=
  String (digit_char (n / 10 mod 10)) (String (digit_char (n mod 10)) EmptyString).

Definition pad4 (n : Z) : string :=
  String (digit_char (n / 1000 mod 10)) (String (digit_char (n / 100 mod 10))
    (pad2 n)).

(** [d.strftime('%Y-%m-%d')], with the year zero-padded to four digits
    (C libraries agree on the years from 1000 on, where [datetime.now()]
    lies; below, glibc prints the year unpadded). *)
Definition strftime_ymd (d : date) : string :=
  (pad4 (year d) ++ "-" ++ pad2 (month d) ++ "-" ++ pad2 (day d))%string.

(** The directive [%Y]: [\d\d\d\d]. *)
Definition parse_Y (s : string) : option (Z * string) :=
  match s with
  | String a (String b (String c (String d r))) =>
      match digit_val a, digit_val b, digit_val c, digit_val d with
      | Some a, Some b, Some c, Some d =>
          Some (1000 * a + 100 * b + 10 * c + d, r)
      | _, _, _, _ => None
      end
  | _ => None
  end.

(** A two-character alternative [c1 c2] with value [10 * v1 + v2], where
    [lo1 <= v1 <= hi1] and [lo2 <= v2 <= hi2]. *)
Definition alt2 (lo1 hi1 lo2 hi2 : Z) (s : string) : option (Z * string) :=
  match s with
  | String c1 (String c2 r) =>
      match digit_val c1, digit_val c2 with
      | Some v1, Some v2 =>
          if (lo1 <=? v1) && (v1 <=? hi1) && (lo2 <=? v2) && (v2 <=? hi2)
          then Some (10 * v1 + v2, r) else None
      | _, _ => None
      end
  | _ => None
  end.

(** The one-character alternative [[1-9]]. *)
Definition alt1 (s : string) : option (Z * string) :=
  match s with
  | String c r =>
      match digit_val c with
      | Some v => if 1 <=? v then Some (v, r) else None
      | None => None
      end
  | EmptyString => None
  end.

(** The alternative [ [1-9]] of [%d]: a space, then a digit. *)
Definition alt_space1 (s : string) : option (Z * string) :=
  match s with
  | String c r => if ord c =? 32 then alt1 r else None
  | EmptyString => None
  end.

(** The alternatives of [%m], [1[0-2]|0[1-9]|[1-9]], in priority order. *)
Definition m_alternatives : list (string -> option (Z * string)) :=
  [alt2 1 1 0 2; alt2 0 0 1 9; alt1].

(** The alternatives of [%d], [3[0-1]|[1-2]\d|0[1-9]|[1-9]| [1-9]]. *)
Definition d_alternatives : list (string -> option (Z * string)) :=
  [alt2 3 3 0 1; alt2 1 2 0 9; alt2 0 0 1 9; alt1; alt_space1].

Definition expect (n : Z) (s : string) : option string :=
  match s with
  | String c r => if ord c =? n then Some r else None
  | EmptyString => None
  end.

(** The first alternative, in priority order, after which the continuation
    [k] succeeds (regular-expression backtracking). *)
Fixpoint first_alt {A} (alts : list (string -> option (Z * string)))
  (s : string) (k : Z -> string -> option A) : option A :=
  match alts with
  | [] => None
  | a :: alts' =>
      match a s with
      | Some (v, r) =>
          match k v r with
          | Some x => Some x
          | None => first_alt alts' s k
          end
      | None => first_alt alts' s k
      end
  end.

(** [format_regex.match(date_string)] for the format ['%Y-%m-%d']: the
    fields and the text the match did not consume. *)
Definition strptime_match (s : string) : option (Z * Z * Z * string) :=
  match parse_Y s with
  | Some (y, r0) =>
      match expect 45 r0 with
      | Some r1 =>
          first_alt m_alternatives r1 (fun m r2 =>
            match expect 45 r2 with
            | Some r3 =>
                first_alt d_alternatives r3 (fun d r4 => Some (y, m, d, r4))
            | None => None
            end)
      | None => None
      end
  | None => None
  end.

(** [datetime.strptime(date_str, '%Y-%m-%d')], as a date; [None] stands for
    [ValueError] (no match, unconverted data, or no such calendar day). *)
Definition strptime (s : string) : option date :=
  match strptime_match s with
  | Some (y, m, d, EmptyString) =>
      if valid_dateb (mkdate y m d) then Some (mkdate y m d) else None
  | _ => None
  end.

(* ================================================================= *)
(** ** Python floats *)

(** The value of a Python [float]: a binary64 number, carried as the
    rational it is, an infinity or a NaN.  Both zeros are [Finite 0]: the
    handlers only compare and store, which does not tell them apart. *)
Inductive pyfloat :=
| Finite (q : Q)
| PInf
| NInf
| NaN.


(** Python's [a < b] on floats: false whenever a NaN is involved. *)
Definition flt (a b : pyfloat) : bool :=
  match a, b with
  | NaN, _ | _, NaN => false
  | _, NInf => false
  | NInf, _ => true
  | PInf, _ => false
  | _, PInf => true
  | Finite x, Finite y =>
      match (x ?= y)%Q with Lt => true | _ => false end
  end.

(** [min(a, b)]: the first argument unless the second is smaller. *)
Definition py_min (a b : pyfloat) : pyfloat := if flt b a then b else a.

(** [max(a, b)]: the first argument unless the second is larger. *)
Definition py_max (a b : pyfloat) : pyfloat := if flt a b then b else a.

Definition lower_char (c : ascii) : ascii :=
  let n := ord c in
  if (65 <=? n) && (n <=? 90) then ascii_of_N (Z.to_N (n + 32)) else c.

Fixpoint lower (s : string) : string :=
  match s with
  | EmptyString => EmptyString
  | String c s' => String (lower_char c) (lower s')
  end.

(** The rational [n * 10 ^ e]. *)
Definition scale10 (n e : Z) : Q :=
  if 0 <=? e then inject_Z (n * 10 ^ e)
  else Qmake n (Z.to_pos (10 ^ (- e))).

(** [number ::= [digitpart] "." digitpart | digitpart ["."]]: integer
    digits, fraction digits and the text left over. *)
Definition float_number (s : string) : option (list Z * list Z * string) :=
  match s with
  | String c r =>
      if ord c =? 46 then
        match digitpart r with
        | Some (fs, r') => Some ([], fs, r')
        | None => None
        end
      else
        match digitpart s with
        | Some (ds, r1) =>
            match r1 with
            | String c1 r2 =>
                if ord c1 =? 46 then
                  match digitpart r2 with
                  | Some (fs, r3) => Some (ds, fs, r3)
                  | None => Some (ds, [], r2)
                  end
                else Some (ds, [], r1)
            | EmptyString => Some (ds, [], r1)
            end
        | None => None
        end
  | EmptyString => None
  end.

(** [exponent ::= ("e" | "E") [sign] digitpart], when one follows. *)
Definition float_exponent (s : string) : option (Z * string) :=
  match s with
  | EmptyString => Some (0, s)
  | String c r =>
      if (ord c =? 101) || (ord c =? 69) then
        let (neg, r1) := opt_sign r in
        match digitpart r1 with
        | Some (es, r2) =>
            Some ((if neg then - Z_of_digits es else Z_of_digits es), r2)
        | None => None
        end
      else None
  end.

(** [num / den] rounded to the nearest integer, a tie to the even one
    ([0 < den]). *)
Definition round_half_even (num den : Z) : Z :=
  let fl := num / den in
  match 2 * (num mod den) ?= den with
  | Lt => fl
  | Gt => fl + 1
  | Eq => if Z.even fl then fl else fl + 1
  end.

(** Whether [2 ^ l <= n / d], for positive [n] and [d]. *)
Definition reaches_pow2 (n d l : Z) : bool :=
  if 0 <=? l then d * 2 ^ l <=? n else d <=? n * 2 ^ (- l).

(** The binary64 number nearest to [n / d] for positive [n] and [d], as
    the C library's correctly rounded [strtod] returns it: 53 significant
    bits, ties to even, exponents down to the subnormal 2^-1074, and the
    infinity from 2^1024 on. *)
Definition round_positive (n d : Z) : pyfloat :=
  let l := Z.log2 n - Z.log2 d in
  let floor_log2 := if reaches_pow2 n d l then l else l - 1 in
  let e := Z.max (floor_log2 - 52) (- 1074) in
  if 0 <=? e then
    let m := round_half_even n (d * 2 ^ e) in
    if 2 ^ 1024 <=? m * 2 ^ e then PInf else Finite (inject_Z (m * 2 ^ e))
  else
    let m := round_half_even (n * 2 ^ (- e)) d in
    Finite (Qred (Qmake m (Z.to_pos (2 ^ (- e))))).

(** The binary64 number nearest to a rational. *)
Definition round_binary64 (q : Q) : pyfloat :=
  match Qnum q with
  | 0 => Finite 0
  | Zpos n => round_positive (Zpos n) (Zpos (Qden q))
  | Zneg n =>
      match round_positive (Zpos n) (Zpos (Qden q)) with
      | Finite r => Finite (Qopp r)
      | PInf => NInf
      | other => other
      end
  end.

(** [float(s)] for a [str]; [None] stands for [ValueError].  A number too
    large for binary64 reads as an infinity, as the words do. *)
Definition py_float (s : string) : option pyfloat :=
  let (neg, body) := opt_sign (strip s) in
  let word := lower body in
  if (word =? "inf")%string || (word =? "infinity")%string then
    Some (if neg then NInf else PInf)
  else if (word =? "nan")%string then Some NaN
  else
    match float_number body with
    | Some (ds, fs, r) =>
        match float_exponent r with
        | Some (e, EmptyString) =>
            let k := Z.of_nat (List.length fs) in
            let q := scale10 (Z_of_digits (ds ++ fs)) (e - k) in
            Some (round_binary64 (if neg then Qopp q else q))
        | _ => None
        end
    | None => None
    end.

(** The value the [marks] handler stores for one form field:
[[
    try:
        marks_val = float(mark_str)
        marks_val = max(0, min(100, marks_val))
    except ValueError:
        marks_val = 0
]] *)
Definition marks_val (mark_str : string) : pyfloat :=
  match py_float mark_str with
  | Some x => py_max (Finite 0) (py_min (Finite 100) x)
  | None => Finite 0
  end.

(* ================================================================= *)
(** ** The store *)

(** A row of [students]. *)
Record student := mkstudent {
  st_id : Z;
  st_roll_no : string;
  st_name : string;
  st_semester : Z;
  st_marks : pyfloat;
  st_total_attendance : Z;
  st_total_classes : Z
}.

(** A row of [attendance_records]. *)
Record attendance_record := mkrecord {
  ar_id : Z;
  ar_date : string;
  ar_student_id : Z;
  ar_status : string
}.

(** The database file: both tables and their AUTOINCREMENT sequences. *)
Record db := mkdb {
  students : list student;
  attendance_records : list attendance_record;
  seq_students : Z;
  seq_records : Z
}.

(** [init_db()] on a fresh file. *)
Definition init_db : db := mkdb [] [] 0 0.

(** What a record says, apart from its surrogate key. *)
Definition record_fields (r : attendance_record) : string * Z * string :=
  (ar_date r, ar_student_id r, ar_status r).

Definition with_students (f : list student -> list student) (d : db) : db :=
  mkdb (f (students d)) (attendance_records d) (seq_students d) (seq_records d).

Definition with_records
  (f : list attendance_record -> list attendance_record) (d : db) : db :=
  mkdb (students d) (f (attendance_records d)) (seq_students d) (seq_records d).

Definition add_total_classes (delta : Z) (s : student) : student :=
  mkstudent (st_id s) (st_roll_no s) (st_name s) (st_semester s) (st_marks s)
            (st_total_attendance s) (st_total_classes s + delta).

Definition add_total_attendance (delta : Z) (s : student) : student :=
  mkstudent (st_id s) (st_roll_no s) (st_name s) (st_semester s) (st_marks s)
            (st_total_attendance s + delta) (st_total_classes s).

Definition set_marks (m : pyfloat) (s : student) : student :=
  mkstudent (st_id s) (st_roll_no s) (st_name s) (st_semester s) m
            (st_total_attendance s) (st_total_classes s).

(** [UPDATE students SET ... WHERE id = ?] *)
Definition update_where_id (id : Z) (f : student -> student)
  (l : list student) : list student :=
  map (fun s => if st_id s =? id then f s else s) l.

Fixpoint insert_by_roll (s : student) (l : list student) : list student :=
  match l with
  | [] => [s]
  | x :: l' =>
      if String.leb (st_roll_no s) (st_roll_no x) then s :: l
      else x :: insert_by_roll s l'
  end.

(** [SELECT * FROM students ORDER BY roll_no] *)
Definition select_students (d : db) : list student :=
  fold_right insert_by_roll [] (students d).

(** [INSERT INTO students (roll_no, name, semester) VALUES (?, ?, ?)]:
    [None] stands for [sqlite3.IntegrityError] (the UNIQUE constraint on
    [roll_no]); the other columns take their defaults. *)
Definition insert_student (roll_no name : string) (semester : Z) (d : db)
  : option db :=
  if existsb (fun s => (st_roll_no s =? roll_no)%string) (students d) then None
  else
    let id := seq_students d + 1 in
    Some (mkdb (students d ++ [mkstudent id roll_no name semester (Finite 0) 0 0])
               (attendance_records d) id (seq_records d)).

(** The statements the [attendance] handler sends inside its transaction. *)
Inductive stmt :=
| UpdateTotalClasses (delta : Z) (id : Z)
| UpdateTotalAttendance (delta : Z) (id : Z)
| DeleteRecordsOfDate (date_str : string)
| InsertRecord (date_str : string) (student_id : Z) (status : string).

Definition execute (d : db) (q : stmt) : db :=
  match q with
  | UpdateTotalClasses delta id =>
      with_students (update_where_id id (add_total_classes delta)) d
  | UpdateTotalAttendance delta id =>
      with_students (update_where_id id (add_total_attendance delta)) d
  | DeleteRecordsOfDate date_str =>
      with_records (filter (fun r => negb (ar_date r =? date_str)%string)) d
  | InsertRecord date_str student_id status =>
      let id := seq_records d + 1 in
      mkdb (students d)
           (attendance_records d ++ [mkrecord id date_str student_id status])
           (seq_students d) id
  end.

(** A connection runs its statements on a working copy; the [k]-th
    statement raises when [fault k] holds.  [None] is the exception. *)
Fixpoint execute_all (fault : nat -> bool) (k : nat) (qs : list stmt)
  (working : db) : option db :=
  match qs with
  | [] => Some working
  | q :: qs' =>
      if fault k then None
      else execute_all fault (S k) qs' (execute working q)
  end.

Definition no_fault : nat -> bool := fun _ => false.

(* ================================================================= *)
(** ** Request handlers *)

(** What the client sees of a request: the flashed message and its
    category, or an unhandled exception. *)
Inductive response :=
| Flash (message category : string)
| ServerError.

(** [request.form.get(key, default)] *)
Definition form_get {K} (eqb : K -> K -> bool) (form : list (K * string))
  (key : K) (default : string) : string :=
  match find (fun kv => eqb (fst kv) key) form with
  | Some kv => snd kv
  | None => default
  end.

(** POST [/students] *)
Definition students_post (roll_no_field name_field semester_field : string)
  (d : db) : db * response :=
  let roll_no := strip roll_no_field in
  let name := strip name_field in
  let (valid, msg) := validate_roll_number roll_no in
  if negb valid then (d, Flash msg "error")
  else
    match py_int semester_field with
    | None => (d, Flash "Invalid semester." "error")
    | Some semester =>
        if (semester <? 1) || (8 <? semester) then
          (d, Flash "Semester must be between 1 and 8." "error")
        else if negb (truthy name) then
          (d, Flash "Name cannot be empty." "error")
        else
          match insert_student (upper roll_no) name semester d with
          | Some d' =>
              (d', Flash ("Student " ++ roll_no ++ " added successfully!") "success")
          | None =>
              (d, Flash ("Roll number " ++ roll_no ++ " already exists.") "error")
          end
    end.

(** The largest value of SQLite's 64-bit INTEGER. *)
Definition sqlite_max_integer : Z := 2 ^ 63 - 1.

(** POST [/students/delete/<int:student_id>].  An id above SQLite's
    largest INTEGER cannot be bound: the first statement raises
    [OverflowError] and the request ends in a server error; no row carries
    such an id, so the rows are those the two DELETEs leave. *)
Definition delete_student (student_id : Z) (d : db) : db * response :=
  let d1 :=
    with_records (filter (fun r => negb (ar_student_id r =? student_id))) d in
  let d2 :=
    with_students (filter (fun s => negb (st_id s =? student_id))) d1 in
  (d2, if sqlite_max_integer <? student_id then ServerError
       else Flash "Student deleted." "success").

(** The revert loop and the day's DELETE (edit mode), source lines 228-239. *)
Definition revert_stmts (date_str : string) (existing : list (Z * string))
  : list stmt :=
  match existing with
  | [] => []
  | _ =>
      flat_map (fun r =>
                  UpdateTotalClasses (-1) (fst r)
                  :: (if (snd r =? "present")%string
                      then [UpdateTotalAttendance (-1) (fst r)] else []))
               existing
      ++ [DeleteRecordsOfDate date_str]
  end.

(** The insert loop, source lines 241-255. *)
Definition reapply_stmts (date_str : string) (form : list (Z * string))
  (students_list : list student) : list stmt :=
  flat_map (fun s =>
              let status := form_get Z.eqb form (st_id s) "absent" in
              InsertRecord date_str (st_id s) status
              :: (if (status =? "present")%string
                  then [UpdateTotalAttendance 1 (st_id s)] else [])
              ++ [UpdateTotalClasses 1 (st_id s)])
           students_list.

(** [SELECT student_id, status FROM attendance_records WHERE date = ?] *)
Definition select_existing (date_str : string) (d : db) : list (Z * string) :=
  map (fun r => (ar_student_id r, ar_status r))
      (filter (fun r => (ar_date r =? date_str)%string) (attendance_records d)).

Definition attendance_stmts (date_str : string) (form : list (Z * string))
  (d : db) : list stmt :=
  revert_stmts date_str (select_existing date_str d)
  ++ reapply_stmts date_str form (select_students d).

Definition msg_future : string := "Cannot mark attendance for future dates.".
Definition msg_sunday : string := "Attendance cannot be marked for Sunday.".

(** POST [/attendance].  [today_str] is [datetime.now().strftime('%Y-%m-%d')],
    [date_field] the form's [date] when it has one, [form] the [status_<id>]
    fields by student id.  The transaction is committed by the one
    [conn.commit()] after the last statement; an exception before it leaves
    the database file as it was. *)
Definition attendance_post (fault : nat -> bool) (today_str : string)
  (date_field : option string) (form : list (Z * string)) (d : db)
  : db * response :=
  let date_str := match date_field with Some v => v | None => today_str end in
  if String.ltb today_str date_str then (d, Flash msg_future "error")
  else
    let sunday := match strptime date_str with
                  | Some dt => weekday dt =? 6
                  | None => false
                  end in
    if sunday then (d, Flash msg_sunday "error")
    else
      match execute_all fault 0 (attendance_stmts date_str form d) d with
      | Some committed =>
          (committed, Flash ("Attendance saved for " ++ date_str ++ ".") "success")
      | None => (d, ServerError)
      end.

(** POST [/marks]: [form] holds the [marks_<id>] fields by student id. *)
Definition marks_post (form : list (Z * string)) (d : db) : db * response :=
  (fold_left (fun acc s =>
                with_students
                  (update_where_id (st_id s)
                     (set_marks (marks_val (form_get Z.eqb form (st_id s) "0"))))
                  acc)
             (select_students d) d,
   Flash "Marks updated." "success").

(** POST [/ai/generate-sample], given the rows [generate_sample_students]
    drew: a row whose roll number exists is skipped. *)
Definition ai_generate_sample (sample : list (string * string * Z)) (d : db)
  : db * response :=
  let '(d', added) :=
    fold_left (fun (acc : db * nat) row =>
                 match row with
                 | (roll_no, name, semester) =>
                     match insert_student roll_no name semester (fst acc) with
                     | Some acc' => (acc', S (snd acc))
                     | None => acc
                     end
                 end)
              sample (d, O) in
  (d', Flash ("Generated and added "
              ++ NilEmpty.string_of_uint (Nat.to_uint added)
              ++ " sample student(s).") "success").

(** A state-changing request, with everything its handler reads from
    outside the database. *)
Inductive request :=
| PostStudents (roll_no_field name_field semester_field : string)
| PostDeleteStudent (student_id : Z)
| PostAttendance (fault : nat -> bool) (today_str : string)
    (date_field : option string) (form : list (Z * string))
| PostMarks (form : list (Z * string))
| PostGenerateSample (sample : list (string * string * Z)).

Definition handle (r : request) (d : db) : db * response :=
  match r with
  | PostStudents roll_no name semester => students_post roll_no name semester d
  | PostDeleteStudent student_id => delete_student student_id d
  | PostAttendance fault today_str date_field form =>
      attendance_post fault today_str date_field form d
  | PostMarks form => marks_post form d
  | PostGenerateSample sample => ai_generate_sample sample d
  end.

(** The database after a sequence of requests, served one at a time. *)
Definition run (rs : list request) (d : db) : db :=
  fold_left (fun acc r => fst (handle r acc)) rs d.

(* ================================================================= *)
(** ** The monthly report *)

(** A Python [dict] as an association list in insertion order. *)
Fixpoint dict_set {K V} (eqb : K -> K -> bool) (k : K) (v : V)
  (dct : list (K * V)) : list (K * V) :=
  match dct with
  | [] => [(k, v)]
  | (k', v') :: rest =>
      if eqb k' k then (k', v) :: rest else (k', v') :: dict_set eqb k v rest
  end.

Definition dict_get {K V} (eqb : K -> K -> bool) (k : K)
  (dct : list (K * V)) : option V :=
  match find (fun kv => eqb (fst kv) k) dct with
  | Some kv => Some (snd kv)
  | None => None
  end.

(** [attendance_map]: date string to student id to status. *)
Definition attendance_map_t := list (string * list (Z * string)).

(** [[date(year, month, d).strftime('%Y-%m-%d') for d in range(1, num_days + 1)]],
    for the years from 1000 on, where [%Y] prints four digits everywhere;
    for an earlier year the C library and the Python version decide
    whether the text is padded, and the properties stated of the report
    keep to the years from 1000. *)
Definition dates_in_month (y m : Z) : list string :=
  map (fun d => strftime_ymd (mkdate y m (Z.of_nat d)))
      (seq 1 (Z.to_nat (days_in_month y m))).

(** [SELECT ... FROM attendance_records WHERE date >= ? AND date <= ?] *)
Definition select_between (lo hi : string) (d : db) : list attendance_record :=
  filter (fun r => String.leb lo (ar_date r) && String.leb (ar_date r) hi)
         (attendance_records d).

(** [attendance_map[r['date']][r['student_id']] = r['status']]; [None]
    stands for [KeyError]. *)
Definition map_record (amap : option attendance_map_t) (r : attendance_record)
  : option attendance_map_t :=
  match amap with
  | Some am =>
      match dict_get String.eqb (ar_date r) am with
      | Some inner =>
          Some (dict_set String.eqb (ar_date r)
                  (dict_set Z.eqb (ar_student_id r) (ar_status r) inner) am)
      | None => None
      end
  | None => None
  end.

(** [attendance_map[d].get(sid)] for a day [d] of the month. *)
Definition day_status (am : attendance_map_t) (sid : Z) (d : string)
  : option string :=
  match dict_get String.eqb d am with
  | Some inner => dict_get Z.eqb sid inner
  | None => None
  end.

Definition is_present (st : option string) : bool :=
  match st with Some v => (v =? "present")%string | None => false end.

Definition is_recorded (st : option string) : bool :=
  match st with
  | Some v => (v =? "present")%string || (v =? "absent")%string
  | None => false
  end.

(** [sum(1 for d in dates if p(attendance_map[d].get(sid)))] *)
Definition count_days (p : option string -> bool) (am : attendance_map_t)
  (sid : Z) (dates : list string) : Z :=
  Z.of_nat (List.length (filter (fun d => p (day_status am sid d)) dates)).

Record report := mkreport {
  rep_dates : list string;
  rep_students : list student;
  rep_attendance_map : attendance_map_t;
  rep_monthly_pct : list (Z * (Z * Z))
}.

(** GET [/attendance/report] for the year and month the query selects
    (lines 369-379 leave [1 <= month <= 12]).  [None] is an unhandled
    exception: [date(year, month, d)] outside the years 1 to 9999, or the
    [KeyError] of a record whose date is not a day of the month. *)
Definition attendance_report (y m : Z) (d : db) : option report :=
  if negb ((1 <=? y) && (y <=? 9999) && (1 <=? m) && (m <=? 12)) then None
  else
    let dates := dates_in_month y m in
    let students_list := select_students d in
    let records := select_between (hd EmptyString dates)
                                  (last dates EmptyString) d in
    let empty_map : attendance_map_t :=
      fold_left (fun am dt => dict_set String.eqb dt [] am) dates [] in
    match fold_left map_record records (Some empty_map) with
    | Some am =>
        let monthly_pct :=
          fold_left (fun mp s =>
                       dict_set Z.eqb (st_id s)
                         (count_days is_present am (st_id s) dates,
                          count_days is_recorded am (st_id s) dates) mp)
                    students_list [] in
        Some (mkreport dates students_list am monthly_pct)
    | None => None
    end.

(* ================================================================= *)
(** ** Vocabulary of the specification *)

(** How many elements of a list satisfy a test. *)
Definition count {A} (p : A -> bool) (l : list A) : Z :=
  Z.of_nat (List.length (filter p l)).

Definition of_student (id : Z) (r : attendance_record) : bool :=
  ar_student_id r =? id.

Definition present_of (id : Z) (r : attendance_record) : bool :=
  (ar_student_id r =? id) && (ar_status r =? "present")%string.

Definition on_date (date_str : string) (r : attendance_record) : bool :=
  (ar_date r =? date_str)%string.

(** The counters of [s] are the counts of its records in [d]. *)
Definition counters_match (d : db) (s : student) : Prop :=
  st_total_attendance s = count (present_of (st_id s)) (attendance_records d)
  /\ st_total_classes s = count (of_student (st_id s)) (attendance_records d)
  /\ 0 <= st_total_attendance s <= st_total_classes s.

Definition record_key (r : attendance_record) : string * Z :=
  (ar_date r, ar_student_id r).

(** At most one record per (date, student_id). *)
Definition one_record_per_day (d : db) : Prop :=
  NoDup (map record_key (attendance_records d)).

(** The status the [attendance] handler reads for a student. *)
Definition form_status (form : list (Z * string)) (s : student) : string :=
  form_get Z.eqb form (st_id s) "absent".

(** The rows the insert loop adds, from the sequence value [sq] on. *)
Fixpoint new_records (date_str : string) (form : list (Z * string))
  (l : list student) (sq : Z) : list attendance_record :=
  match l with
  | [] => []
  | s :: l' =>
      mkrecord (sq + 1) date_str (st_id s) (form_status form s)
      :: new_records date_str form l' (sq + 1)
  end.

Definition add_counters (da dc : Z) (s : student) : student :=
  mkstudent (st_id s) (st_roll_no s) (st_name s) (st_semester s) (st_marks s)
            (st_total_attendance s + da) (st_total_classes s + dc).

(** The net change a statement list makes to [total_classes] of [id]. *)
Fixpoint delta_classes (qs : list stmt) (id : Z) : Z :=
  match qs with
  | [] => 0
  | UpdateTotalClasses delta id' :: qs' =>
      (if id' =? id then delta else 0) + delta_classes qs' id
  | _ :: qs' => delta_classes qs' id
  end.

(** The net change a statement list makes to [total_attendance] of [id]. *)
Fixpoint delta_attendance (qs : list stmt) (id : Z) : Z :=
  match qs with
  | [] => 0
  | UpdateTotalAttendance delta id' :: qs' =>
      (if id' =? id then delta else 0) + delta_attendance qs' id
  | _ :: qs' => delta_attendance qs' id
  end.

(** The database a fault-free [attendance] transaction commits. *)
Definition apply_day (date_str : string) (form : list (Z * string)) (d : db)
  : db :=
  fold_left execute (attendance_stmts date_str form d) d.

(** The shape every reachable database has: the counters are the counts of
    the records, a day holds one record per student, ids are distinct and
    were drawn from the sequence, and every record belongs to a student. *)
Definition consistent (d : db) : Prop :=
  Forall (counters_match d) (students d)
  /\ one_record_per_day d
  /\ NoDup (map st_id (students d))
  /\ Forall (fun s => st_id s <= seq_students d) (students d)
  /\ Forall (fun r => In (ar_student_id r) (map st_id (students d)))
            (attendance_records d).

(** A row update that leaves the id and both counters alone. *)
Definition keeps_ledger (h : student -> student) : Prop :=
  forall s, st_id (h s) = st_id s
            /\ st_total_attendance (h s) = st_total_attendance s
            /\ st_total_classes (h s) = st_total_classes s.

(** The scenario of the specification: student A stands at 3 presences
    over 4 classes before 2025-01-10 is marked. *)
Definition scenario_db : db :=
  mkdb [mkstudent 1 "A1" "A" 1 (Finite 0) 3 4]
       [mkrecord 1 "2025-01-06" 1 "present";
        mkrecord 2 "2025-01-07" 1 "present";
        mkrecord 3 "2025-01-08" 1 "absent";
        mkrecord 4 "2025-01-09" 1 "present"]
       1 4.

(** The two counters of every student, in table order. *)
Definition counters (d : db) : list (Z * (Z * Z)) :=
  map (fun s => (st_id s, (st_total_attendance s, st_total_classes s)))
      (students d).

(** A text matches [[A-Za-z0-9-]{3,15}] as a whole. *)
Definition roll_pattern (t : string) : Prop :=
  (3 <= String.length t <= 15)%nat
  /\ Forall (fun c => roll_char c = true) (list_ascii_of_string t).

(** A real number clamped into [0, 100]. *)
Definition clamp_0_100 (q : Q) : Q :=
  match (q ?= 0)%Q with
  | Lt => 0%Q
  | _ => match (q ?= 100)%Q with
         | Gt => 100%Q
         | _ => q
         end
  end.




(** A response that turns the request down with a reason. *)
Definition rejected_with (reason : string) (r : response) : Prop :=
  r = Flash reason "error".

Definition rejected (r : response) : Prop :=
  exists reason, rejected_with reason r.

(** Whether student [sid] has a record on [day] whose status passes [p]. *)
Definition has_record (p : string -> bool) (d : db) (sid : Z) (day : string)
  : bool :=
  existsb (fun r => on_date day r && of_student sid r && p (ar_status r))
          (attendance_records d).

Definition any_status (st : string) : bool := true.
Definition status_present (st : string) : bool := (st =? "present")%string.
Definition status_marked (st : string) : bool :=
  (st =? "present")%string || (st =? "absent")%string.

(** The monthly matrix as the specification words it: for every student,
    the first count is the number of days of the month with a 'present'
    record of the student, the second the number of days with a record of
    the student, whatever its status. *)
Definition monthly_counts_any_status (y m : Z) (d : db) : Prop :=
  forall rep,
    attendance_report y m d = Some rep ->
    Forall (fun s =>
              dict_get Z.eqb (st_id s) (rep_monthly_pct rep)
              = Some (count (has_record status_present d (st_id s))
                            (dates_in_month y m),
                      count (has_record any_status d (st_id s))
                            (dates_in_month y m)))
           (students d).

(** A database the handlers reach: one student, marked "late" on a day. *)
Definition late_db : db :=
  run [PostStudents "CS1" "A" "1";
       PostAttendance no_fault "2026-11-04" (Some "2025-01-10"%string)
         [(1, "late"%string)]]
      init_db.

(** The status of the last record of [rs] for a day and a student. *)
Fixpoint last_status (rs : list attendance_record) (day : string) (sid : Z)
  : option string :=
  match rs with
  | [] => None
  | r :: rs' =>
      match last_status rs' day sid with
      | Some v => Some v
      | None => if on_date day r && of_student sid r
                then Some (ar_status r) else None
      end
  end.

(** The report of January 2025 over [scenario_db]. *)
Definition scenario_report : report :=
  Eval vm_compute in
    match attendance_report 2025 1 scenario_db with
    | Some rep => rep
    | None => mkreport [] [] [] []
    end.

(** Case analysis on membership in an explicit range. *)
Ltac each_of H :=
  cbv [seq map Z.of_nat Pos.of_succ_nat Pos.succ Z.add Pos.add] in H;
  repeat (destruct H as [H|H]; [subst|]); [..|destruct H].

(** The calendar day after [d]. *)
Definition next_day (d : date) : date :=
  if day d <? days_in_month (year d) (month d)
  then mkdate (year d) (month d) (day d + 1)
  else if month d <? 12 then mkdate (year d) (month d + 1) 1
  else mkdate (year d + 1) 1 1.

(* ================================================================= *)
(** ** The remaining helpers and handlers *)

(** Python's [a >= b] on floats: false whenever a NaN is involved. *)
Definition fge (a b : pyfloat) : bool :=
  match a, b with
  | NaN, _ | _, NaN => false
  | _, _ => negb (flt a b)
  end.

(** [get_attendance_remark(percentage)]: the remark and its display class. *)
Definition get_attendance_remark (percentage : pyfloat) : string * string :=
  if fge percentage (Finite 90) then ("Excellent", "success")%string
  else if fge percentage (Finite 75) then
    ("Good - Meets requirement", "info")%string
  else if fge percentage (Finite 60) then
    ("Warning: Below 75% - May affect eligibility", "warning")%string
  else ("Critical: Below 60% - Immediate attention needed", "danger")%string.

(** [get_performance_remark(marks)] *)
Definition get_performance_remark (marks : pyfloat) : string :=
  if fge marks (Finite 90) then "Excellent"
  else if fge marks (Finite 80) then "Very Good"
  else if fge marks (Finite 70) then "Good"
  else if fge marks (Finite 60) then "Average"
  else if fge marks (Finite 40) then "Needs Improvement"
  else "Poor - Requires Support".

(** How good a display class of [get_attendance_remark] is. *)
Definition class_rank (category : string) : Z :=
  if (category =? "success")%string then 3
  else if (category =? "info")%string then 2
  else if (category =? "warning")%string then 1
  else 0.

(** How good a remark of [get_performance_remark] is. *)
Definition remark_rank (remark : string) : Z :=
  if (remark =? "Excellent")%string then 5
  else if (remark =? "Very Good")%string then 4
  else if (remark =? "Good")%string then 3
  else if (remark =? "Average")%string then 2
  else if (remark =? "Needs Improvement")%string then 1
  else 0.

(** The order of float values that are numbers. *)
Definition fle (a b : pyfloat) : Prop :=
  match a, b with
  | NaN, _ | _, NaN => False
  | NInf, _ => True
  | _, PInf => True
  | Finite x, Finite y => (x <= y)%Q
  | _, _ => False
  end.

(** What GET [/attendance] hands to its template, apart from the student
    rows with their percentage (a float division, left out here). *)
Record attendance_view := mkview {
  selected_date : string;
  attendance_taken_for_date : bool;
  existing_attendance : list (Z * string);
  edit_mode : bool;
  is_sunday : bool
}.

(** GET [/attendance], source lines 273-301.  [date_arg] and [edit_arg] are
    the query's [date] and [edit] when it has them. *)
Definition attendance_get (today : string) (date_arg edit_arg : option string)
  (d : db) : attendance_view :=
  let requested := match date_arg with Some v => v | None => today end in
  let selected := if String.ltb today requested then today else requested in
  let taken :=
    0 <? Z.of_nat (List.length
                     (filter (fun r => (ar_date r =? selected)%string)
                             (attendance_records d))) in
  let existing :=
    if taken then
      fold_left (fun dct r => dict_set Z.eqb (fst r) (snd r) dct)
                (select_existing selected d) []
    else [] in
  let edit :=
    match edit_arg with
    | Some v => if truthy v then taken else false
    | None => false
    end in
  let sunday := match strptime selected with
                | Some dt => weekday dt =? 6
                | None => false
                end in
  mkview selected taken existing edit sunday.

(** [s.split('-')] *)
Fixpoint split_dash (s : string) : list string :=
  match s with
  | EmptyString => [EmptyString]
  | String c r =>
      if ord c =? 45 then EmptyString :: split_dash r
      else match split_dash r with
           | h :: t => String c h :: t
           | [] => [String c EmptyString]
           end
  end.

(** The year and month GET [/attendance/report] shows, source lines
    369-379: the query's [month] when it reads as two integers with the
    month in 1 to 12, today's otherwise. *)
Definition select_month (today : date) (month_arg : option string) : Z * Z :=
  let month_param := match month_arg with Some v => v | None => EmptyString end in
  let current := (year today, month today) in
  let unpacked :=
    if truthy month_param then
      match split_dash month_param with
      | [a; b] =>
          match py_int a, py_int b with
          | Some y, Some m => Some (y, m)
          | _, _ => None
          end
      | _ => None
      end
    else Some current in
  match unpacked with
  | Some (y, m) => if (m <? 1) || (12 <? m) then current else (y, m)
  | None => current
  end.

(** GET [/attendance/report] *)
Definition attendance_report_get (today : date) (month_arg : option string)
  (d : db) : option report :=
  let (y, m) := select_month today month_arg in attendance_report y m d.

(** [str(n)] for an [int]. *)
Definition str_of_int (n : Z) : string := NilEmpty.string_of_int (Z.to_int n).

(** The loop [while roll_no in used_rolls], over the values
    [fake.random_int(1000, 9999)] returns one after the other: the first
    roll number not used, and the draws left.  [None]: the draws ran out. *)
Fixpoint draw_roll (used : list string) (draws : list Z)
  : option (string * list Z) :=
  match draws with
  | [] => None
  | n :: rest =>
      let roll_no := ("CS" ++ str_of_int n)%string in
      if existsb (String.eqb roll_no) used then draw_roll used rest
      else Some (roll_no, rest)
  end.

(** [generate_sample_students(count)], given what the Faker returns: the
    roll draws, the names and the semester draws, each in call order. *)
Fixpoint generate_from (count : nat) (used : list string) (rolls : list Z)
  (names : list string) (sems : list Z)
  : option (list (string * string * Z)) :=
  match count with
  | O => Some []
  | S count' =>
      match draw_roll used rolls, names, sems with
      | Some (roll_no, rolls'), name :: names', sem :: sems' =>
          match generate_from count' (roll_no :: used) rolls' names' sems' with
          | Some rows => Some ((roll_no, name, sem) :: rows)
          | None => None
          end
      | _, _, _ => None
      end
  end.

Definition generate_sample_students (count : Z) (rolls : list Z)
  (names : list string) (sems : list Z)
  : option (list (string * string * Z)) :=
  generate_from (Z.to_nat count) [] rolls names sems.

(** The [count] POST [/ai/generate-sample] asks for, source lines 418-422. *)
Definition sample_count (count_field : option string) : Z :=
  match count_field with
  | None => 5
  | Some v =>
      match py_int v with
      | Some n => Z.min 10 (Z.max 1 n)
      | None => 5
      end
  end.

(** POST [/ai/generate-sample] with its generator. *)
Definition ai_generate_sample_post (count_field : option string)
  (rolls : list Z) (names : list string) (sems : list Z) (d : db)
  : option (db * response) :=
  match generate_sample_students (sample_count count_field) rolls names sems with
  | Some sample => Some (ai_generate_sample sample d)
  | None => None
  end.

(** Who a row is: the columns no handler rewrites. *)
Definition identity_of (s : student) : Z * string * string * Z :=
  (st_id s, st_roll_no s, st_name s, st_semester s).

(** From [d] to [d']: the sequence has not gone back, and every row of
    [d'] is a row of [d] (same id, roll number, name and semester) or
    carries an id drawn from the sequence since. *)
Definition evolves (d d' : db) : Prop :=
  seq_students d <= seq_students d'
  /\ forall s', In s' (students d') ->
                In (identity_of s') (map identity_of (students d))
                \/ seq_students d < st_id s' <= seq_students d'.

Definition marks_in_range (s : student) : Prop :=
  exists q, st_marks s = Finite q /\ (0 <= q <= 100)%Q.

(** How a committed day moves the counters of [s]: a class is added unless
    the student already had a record that day, and the presence follows
    the new status against the old one. *)
Definition day_effect (D : string) (form : list (Z * string)) (d : db)
  (s : student) : student :=
  add_counters
    ((if (form_status form s =? "present")%string then 1 else 0)
     - (if has_record status_present d (st_id s) D then 1 else 0))
    (if has_record any_status d (st_id s) D then 0 else 1)
    s.

(** The text of a list of decimal digits. *)
Definition string_of_digits (ds : list Z) : string :=
  fold_right (fun d s => String (digit_char d) s) EmptyString ds.

(** The roll number of a sample row. *)
Definition row_roll (row : string * string * Z) : string := fst (fst row).

(** The roll number, name and semester of a student row. *)
Definition row_of (s : student) : string * string * Z :=
  (st_roll_no s, st_name s, st_semester s).

(** [f"CS{n}"] *)
Definition cs_roll (n : Z) : string := ("CS" ++ str_of_int n)%string.

(** What the add-form would have accepted of a roll number drawn from [n]:
    the pattern matches it, and neither [strip] nor [upper] changes it. *)
Definition cs_roll_ok (n : Z) : bool :=
  re_match_roll (cs_roll n)
  && (upper (cs_roll n) =? cs_roll n)%string
  && (strip (cs_roll n) =? cs_roll n)%string.

(** A sample row as the add-form would have stored it. *)
Definition well_formed_row (row : string * string * Z) : Prop :=
  roll_pattern (row_roll row)
  /\ upper (row_roll row) = row_roll row
  /\ 1 <= snd row <= 8.

(** Whether a roll number is in the table. *)
Definition roll_taken (d : db) (roll_no : string) : bool :=
  existsb (fun s => (st_roll_no s =? roll_no)%string) (students d).

(** The rows of a sample whose roll number is not in the table. *)
Definition fresh_rows (d : db) (sample : list (string * string * Z))
  : list (string * string * Z) :=
  filter (fun row => negb (roll_taken d (row_roll row))) sample.

(** A sample request whose rows [generate_sample_students] can have
    returned, from roll draws of 1000 to 9999 and semester draws of 1 to 8. *)
Definition from_generator (r : request) : Prop :=
  match r with
  | PostGenerateSample sample =>
      exists count rolls names sems,
        Forall (fun n => 1000 <= n <= 9999) rolls
        /\ Forall (fun n => 1 <= n <= 8) sems
        /\ generate_sample_students count rolls names sems = Some sample
  | _ => True
  end.

(** The days the attendance requests of a sequence carry, each with the
    [today] of its request. *)
Definition submitted_days (rs : list request) : list (string * string) :=
  flat_map (fun r => match r with
                     | PostAttendance _ today_str date_field _ =>
                         [(today_str,
                           match date_field with
                           | Some v => v
                           | None => today_str
                           end)]
                     | _ => []
                     end) rs.

(** Rows in ascending roll-number order. *)
Definition roll_order (a b : student) : Prop :=
  String.leb (st_roll_no a) (st_roll_no b) = true.




(* ================================================================= *)
(** ** Lists and counting *)

Lemma count_nil {A} (p : A -> bool) : count p [] = 0.
Proof. reflexivity. Qed.

Lemma count_cons {A} (p : A -> bool) (x : A) (l : list A) :
  count p (x :: l) = (if p x then 1 else 0) + count p l.
Proof.
  unfold count; simpl. destruct (p x); cbn [List.length]; lia.
Qed.

Lemma count_app {A} (p : A -> bool) (l1 l2 : list A) :
  count p (l1 ++ l2) = count p l1 + count p l2.
Proof.
  unfold count. rewrite filter_app, length_app. lia.
Qed.

Lemma count_nonneg {A} (p : A -> bool) (l : list A) : 0 <= count p l.
Proof. unfold count; lia. Qed.

Lemma count_map {A B} (f : A -> B) (p : B -> bool) (l : list A) :
  count p (map f l) = count (fun x => p (f x)) l.
Proof.
  induction l as [|x l IH]; [reflexivity|].
  simpl map. rewrite !count_cons, IH. reflexivity.
Qed.

Lemma count_ext {A} (p q : A -> bool) (l : list A) :
  (forall x, In x l -> p x = q x) -> count p l = count q l.
Proof.
  induction l as [|x l IH]; intros H; [reflexivity|].
  rewrite !count_cons, IH, (H x) by (intros; try apply H; simpl; auto).
  reflexivity.
Qed.

Lemma count_filter {A} (p q : A -> bool) (l : list A) :
  count p (filter q l) = count (fun x => q x && p x) l.
Proof.
  induction l as [|x l IH]; [reflexivity|].
  simpl filter. rewrite count_cons. destruct (q x); cbn [andb].
  - rewrite count_cons, IH. reflexivity.
  - exact IH.
Qed.

(** Splitting a count by a second test. *)
Lemma count_split {A} (p q : A -> bool) (l : list A) :
  count p l = count (fun x => q x && p x) l + count (fun x => negb (q x) && p x) l.
Proof.
  induction l as [|x l IH]; [reflexivity|].
  rewrite !count_cons, IH. cbv beta.
  destruct (q x), (p x); cbn [andb negb]; lia.
Qed.

Lemma count_le {A} (p q : A -> bool) (l : list A) :
  (forall x, p x = true -> q x = true) -> count p l <= count q l.
Proof.
  intros H. induction l as [|x l IH]; [rewrite !count_nil; lia|].
  rewrite !count_cons. specialize (H x).
  destruct (p x), (q x); lia.
Qed.

Lemma filter_none {A} (p : A -> bool) (l : list A) :
  filter p l = [] -> filter (fun x => negb (p x)) l = l.
Proof.
  induction l as [|x l IH]; simpl; [reflexivity|].
  destruct (p x); simpl; [discriminate|]. intros H. now rewrite IH.
Qed.

(* ================================================================= *)
(** ** The transaction of the [attendance] handler *)

Lemma execute_all_no_fault (qs : list stmt) :
  forall k w, execute_all no_fault k qs w = Some (fold_left execute qs w).
Proof.
  induction qs as [|q qs IH]; intros k w; simpl; [reflexivity|].
  apply IH.
Qed.

(** A transaction either runs all its statements or stops at a fault. *)
Lemma execute_all_cases (fault : nat -> bool) (qs : list stmt) :
  forall k w,
    execute_all fault k qs w = Some (fold_left execute qs w)
    \/ execute_all fault k qs w = None.
Proof.
  induction qs as [|q qs IH]; intros k w; simpl; [now left|].
  destruct (fault k); [now right|]. apply IH.
Qed.

Lemma execute_all_fault_free (fault : nat -> bool) (qs : list stmt) :
  forall k w,
    (forall i, (k <= i < k + List.length qs)%nat -> fault i = false) ->
    execute_all fault k qs w = Some (fold_left execute qs w).
Proof.
  induction qs as [|q qs IH]; intros k w H; simpl; [reflexivity|].
  rewrite (H k) by (simpl; lia). apply IH.
  intros i Hi. apply H. simpl. lia.
Qed.

Lemma execute_all_faulty (fault : nat -> bool) (qs : list stmt) :
  forall k w i,
    (k <= i < k + List.length qs)%nat -> fault i = true ->
    execute_all fault k qs w = None.
Proof.
  induction qs as [|q qs IH]; intros k w i Hi Hf; simpl in *; [lia|].
  destruct (fault k) eqn:Hk; [reflexivity|].
  apply (IH (S k) _ i); [|exact Hf].
  assert (i <> k) by (intros ->; congruence). lia.
Qed.

Lemma add_counters_zero (s : student) : add_counters 0 0 s = s.
Proof.
  destruct s; unfold add_counters; simpl. f_equal; lia.
Qed.

(** Statements only ever change the two counters of a student row. *)
Lemma students_execute (q : stmt) (w : db) :
  students (execute w q)
  = map (fun s => add_counters (delta_attendance [q] (st_id s))
                               (delta_classes [q] (st_id s)) s)
        (students w).
Proof.
  destruct q as [delta id|delta id|D|D sid st]; simpl;
    try (rewrite <- (map_id (students w)) at 1; apply map_ext; intros s;
         now rewrite add_counters_zero).
  - unfold update_where_id. apply map_ext; intros s.
    rewrite (Z.eqb_sym id). destruct (st_id s =? id).
    + destruct s; unfold add_counters, add_total_classes; simpl. f_equal; lia.
    + now rewrite add_counters_zero.
  - unfold update_where_id. apply map_ext; intros s.
    rewrite (Z.eqb_sym id). destruct (st_id s =? id).
    + destruct s; unfold add_counters, add_total_attendance; simpl. f_equal; lia.
    + now rewrite add_counters_zero.
Qed.

Lemma students_fold_execute (qs : list stmt) :
  forall w,
    students (fold_left execute qs w)
    = map (fun s => add_counters (delta_attendance qs (st_id s))
                                 (delta_classes qs (st_id s)) s)
          (students w).
Proof.
  induction qs as [|q qs IH]; intros w.
  - simpl. rewrite <- (map_id (students w)) at 1. apply map_ext; intros s.
    now rewrite add_counters_zero.
  - simpl fold_left. rewrite IH, students_execute, map_map.
    apply map_ext; intros s.
    destruct s as [i r n sem mk ta tc]; destruct q; unfold add_counters; simpl;
      f_equal; lia.
Qed.

Lemma seq_students_fold_execute (qs : list stmt) :
  forall w, seq_students (fold_left execute qs w) = seq_students w.
Proof.
  induction qs as [|q qs IH]; intros w; [reflexivity|].
  simpl fold_left. rewrite IH. now destruct q.
Qed.

Lemma delta_classes_app (q1 q2 : list stmt) (id : Z) :
  delta_classes (q1 ++ q2) id = delta_classes q1 id + delta_classes q2 id.
Proof.
  induction q1 as [|q q1 IH]; [reflexivity|].
  destruct q; simpl; rewrite IH; lia.
Qed.

Lemma delta_attendance_app (q1 q2 : list stmt) (id : Z) :
  delta_attendance (q1 ++ q2) id
  = delta_attendance q1 id + delta_attendance q2 id.
Proof.
  induction q1 as [|q q1 IH]; [reflexivity|].
  destruct q; simpl; rewrite IH; lia.
Qed.

(** The updates of the revert loop leave the records alone. *)
Lemma records_fold_revert_loop (existing : list (Z * string)) :
  forall w,
    let w' := fold_left execute
                (flat_map (fun r =>
                   UpdateTotalClasses (-1) (fst r)
                   :: (if (snd r =? "present")%string
                       then [UpdateTotalAttendance (-1) (fst r)] else []))
                   existing) w in
    attendance_records w' = attendance_records w
    /\ seq_records w' = seq_records w.
Proof.
  induction existing as [|r ex IH]; intros w; [now split|].
  simpl. destruct (snd r =? "present")%string; simpl;
    match goal with |- context [fold_left execute _ ?w0] =>
      destruct (IH w0) as [H1 H2] end;
    cbv zeta in H1, H2; rewrite H1, H2; now split.
Qed.

Lemma select_existing_nil (D : string) (w : db) :
  select_existing D w = [] ->
  filter (fun r => negb (ar_date r =? D)%string) (attendance_records w)
  = attendance_records w.
Proof.
  unfold select_existing. intros H. apply map_eq_nil in H.
  now apply filter_none in H.
Qed.

(** After the revert, the day's records are gone and no other is touched. *)
Lemma records_fold_revert (D : string) (w : db) :
  let w' := fold_left execute (revert_stmts D (select_existing D w)) w in
  attendance_records w'
  = filter (fun r => negb (ar_date r =? D)%string) (attendance_records w)
  /\ seq_records w' = seq_records w.
Proof.
  unfold revert_stmts.
  destruct (select_existing D w) as [|r ex] eqn:E.
  - simpl. split; [|reflexivity]. symmetry. now apply select_existing_nil.
  - rewrite fold_left_app.
    destruct (records_fold_revert_loop (r :: ex) w) as [H1 H2].
    cbv zeta in H1, H2. revert H1 H2.
    generalize (fold_left execute
                  (flat_map (fun r =>
                     UpdateTotalClasses (-1) (fst r)
                     :: (if (snd r =? "present")%string
                         then [UpdateTotalAttendance (-1) (fst r)] else []))
                     (r :: ex)) w).
    intros w1 H1 H2. cbn. now rewrite H1.
Qed.

(** The insert loop appends one row per listed student. *)
Lemma records_fold_reapply (D : string) (form : list (Z * string))
  (l : list student) :
  forall w,
    let w' := fold_left execute (reapply_stmts D form l) w in
    attendance_records w'
    = attendance_records w ++ new_records D form l (seq_records w)
    /\ seq_records w' = seq_records w + Z.of_nat (List.length l).
Proof.
  induction l as [|s l IH]; intros w.
  - simpl. rewrite app_nil_r. split; [reflexivity|lia].
  - unfold reapply_stmts. simpl flat_map. fold (reapply_stmts D form l).
    fold (form_status form s).
    rewrite <- app_assoc. simpl fold_left.
    destruct (form_status form s =? "present")%string; simpl fold_left;
      match goal with |- context [fold_left execute _ ?w0] =>
        destruct (IH w0) as [H1 H2] end;
      cbv zeta in H1, H2 |- *; rewrite H1, H2; simpl;
      (split; [now rewrite <- app_assoc | cbn [List.length]; lia]).
Qed.

Lemma record_fields_new_records (D : string) (form : list (Z * string))
  (l : list student) :
  forall sq,
    map record_fields (new_records D form l sq)
    = map (fun s => (D, st_id s, form_status form s)) l.
Proof.
  induction l as [|s l IH]; intros sq; simpl; [reflexivity|].
  now rewrite IH.
Qed.

(** What a committed [attendance] transaction leaves in the store. *)
Lemma apply_day_records (D : string) (form : list (Z * string)) (d : db) :
  attendance_records (apply_day D form d)
  = filter (fun r => negb (ar_date r =? D)%string) (attendance_records d)
    ++ new_records D form (select_students d) (seq_records d).
Proof.
  unfold apply_day, attendance_stmts. rewrite fold_left_app.
  destruct (records_fold_revert D d) as [H1 H2]. cbv zeta in H1, H2.
  destruct (records_fold_reapply D form (select_students d)
              (fold_left execute (revert_stmts D (select_existing D d)) d))
    as [H3 _].
  cbv zeta in H3. now rewrite H3, H1, H2.
Qed.

Lemma apply_day_students (D : string) (form : list (Z * string)) (d : db) :
  students (apply_day D form d)
  = map (fun s =>
           add_counters
             (delta_attendance (attendance_stmts D form d) (st_id s))
             (delta_classes (attendance_stmts D form d) (st_id s)) s)
        (students d).
Proof. apply students_fold_execute. Qed.

Lemma delta_classes_revert (D : string) (existing : list (Z * string)) (id : Z) :
  delta_classes (revert_stmts D existing) id
  = - count (fun r => fst r =? id) existing.
Proof.
  unfold revert_stmts.
  assert (H : forall ex,
    delta_classes
      (flat_map (fun r =>
         UpdateTotalClasses (-1) (fst r)
         :: (if (snd r =? "present")%string
             then [UpdateTotalAttendance (-1) (fst r)] else [])) ex) id
    = - count (fun r => fst r =? id) ex).
  { induction ex as [|r ex IH]; [reflexivity|].
    simpl flat_map. rewrite count_cons.
    destruct (snd r =? "present")%string;
      cbn [delta_classes app]; rewrite IH; destruct (fst r =? id); lia. }
  destruct existing as [|r ex]; [reflexivity|].
  rewrite delta_classes_app, H. cbn [delta_classes]. lia.
Qed.

Lemma delta_attendance_revert (D : string) (existing : list (Z * string))
  (id : Z) :
  delta_attendance (revert_stmts D existing) id
  = - count (fun r => (fst r =? id) && (snd r =? "present")%string) existing.
Proof.
  unfold revert_stmts.
  assert (H : forall ex,
    delta_attendance
      (flat_map (fun r =>
         UpdateTotalClasses (-1) (fst r)
         :: (if (snd r =? "present")%string
             then [UpdateTotalAttendance (-1) (fst r)] else [])) ex) id
    = - count (fun r => (fst r =? id) && (snd r =? "present")%string) ex).
  { induction ex as [|r ex IH]; [reflexivity|].
    simpl flat_map. rewrite count_cons. cbv beta.
    destruct (snd r =? "present")%string;
      cbn [delta_attendance app]; rewrite IH;
      destruct (fst r =? id); cbn [andb]; lia. }
  destruct existing as [|r ex]; [reflexivity|].
  rewrite delta_attendance_app, H. cbn [delta_attendance]. lia.
Qed.

Lemma delta_classes_reapply (D : string) (form : list (Z * string))
  (l : list student) (id : Z) :
  delta_classes (reapply_stmts D form l) id = count (fun s => st_id s =? id) l.
Proof.
  induction l as [|s l IH]; [reflexivity|].
  unfold reapply_stmts. simpl flat_map. fold (reapply_stmts D form l).
  rewrite count_cons, <- IH.
  destruct (form_get Z.eqb form (st_id s) "absent" =? "present")%string;
    cbn [delta_classes app]; destruct (st_id s =? id); lia.
Qed.

Lemma delta_attendance_reapply (D : string) (form : list (Z * string))
  (l : list student) (id : Z) :
  delta_attendance (reapply_stmts D form l) id
  = count (fun s => (st_id s =? id) && (form_status form s =? "present")%string) l.
Proof.
  induction l as [|s l IH]; [reflexivity|].
  unfold reapply_stmts. simpl flat_map. fold (reapply_stmts D form l).
  rewrite count_cons, <- IH. unfold form_status. cbv beta.
  destruct (form_get Z.eqb form (st_id s) "absent" =? "present")%string;
    cbn [delta_attendance app]; destruct (st_id s =? id); cbn [andb]; lia.
Qed.

Lemma count_select_existing (D : string) (d : db) (p : Z * string -> bool) :
  count p (select_existing D d)
  = count (fun r => on_date D r && p (ar_student_id r, ar_status r))
          (attendance_records d).
Proof.
  unfold select_existing. now rewrite count_map, count_filter.
Qed.

Lemma count_new_records (D : string) (form : list (Z * string))
  (p : attendance_record -> bool) (l : list student) :
  (forall r r', record_fields r = record_fields r' -> p r = p r') ->
  forall sq,
    count p (new_records D form l sq)
    = count (fun s => p (mkrecord 0 D (st_id s) (form_status form s))) l.
Proof.
  intros Hp. induction l as [|s l IH]; intros sq; [reflexivity|].
  simpl new_records. rewrite !count_cons, IH.
  rewrite (Hp _ (mkrecord 0 D (st_id s) (form_status form s))); reflexivity.
Qed.

Lemma of_student_fields (id : Z) (r r' : attendance_record) :
  record_fields r = record_fields r' -> of_student id r = of_student id r'.
Proof.
  unfold record_fields, of_student. intros H; injection H as _ H _.
  now rewrite H.
Qed.

Lemma present_of_fields (id : Z) (r r' : attendance_record) :
  record_fields r = record_fields r' -> present_of id r = present_of id r'.
Proof.
  unfold record_fields, present_of. intros H; injection H as _ H1 H2.
  now rewrite H1, H2.
Qed.

(** The net change of [total_classes] in a committed transaction. *)
Lemma delta_classes_attendance (D : string) (form : list (Z * string))
  (d : db) (id : Z) :
  delta_classes (attendance_stmts D form d) id
  = count (fun s => st_id s =? id) (select_students d)
    - count (fun r => on_date D r && of_student id r) (attendance_records d).
Proof.
  unfold attendance_stmts.
  rewrite delta_classes_app, delta_classes_revert, delta_classes_reapply.
  rewrite count_select_existing. unfold of_student. simpl. lia.
Qed.

(** The net change of [total_attendance] in a committed transaction. *)
Lemma delta_attendance_attendance (D : string) (form : list (Z * string))
  (d : db) (id : Z) :
  delta_attendance (attendance_stmts D form d) id
  = count (fun s => (st_id s =? id) && (form_status form s =? "present")%string)
          (select_students d)
    - count (fun r => on_date D r && present_of id r) (attendance_records d).
Proof.
  unfold attendance_stmts.
  rewrite delta_attendance_app, delta_attendance_revert,
    delta_attendance_reapply.
  rewrite count_select_existing. unfold present_of. simpl. lia.
Qed.

(** The counts of the records after a committed transaction. *)
Lemma count_of_student_apply_day (D : string) (form : list (Z * string))
  (d : db) (id : Z) :
  count (of_student id) (attendance_records (apply_day D form d))
  = count (of_student id) (attendance_records d)
    + delta_classes (attendance_stmts D form d) id.
Proof.
  rewrite apply_day_records, count_app, count_filter.
  rewrite (count_new_records D form (of_student id))
    by apply of_student_fields.
  rewrite delta_classes_attendance.
  rewrite (count_split (of_student id) (on_date D) (attendance_records d)).
  unfold of_student at 2, on_date. simpl. lia.
Qed.

Lemma count_present_of_apply_day (D : string) (form : list (Z * string))
  (d : db) (id : Z) :
  count (present_of id) (attendance_records (apply_day D form d))
  = count (present_of id) (attendance_records d)
    + delta_attendance (attendance_stmts D form d) id.
Proof.
  rewrite apply_day_records, count_app, count_filter.
  rewrite (count_new_records D form (present_of id))
    by apply present_of_fields.
  rewrite delta_attendance_attendance.
  rewrite (count_split (present_of id) (on_date D) (attendance_records d)).
  unfold present_of at 2, on_date. simpl. lia.
Qed.

Lemma present_le_classes (id : Z) (l : list attendance_record) :
  0 <= count (present_of id) l <= count (of_student id) l.
Proof.
  split; [apply count_nonneg|]. apply count_le.
  unfold present_of, of_student. intros r H.
  now apply andb_true_iff in H.
Qed.

(* ================================================================= *)
(** ** Every reachable database is consistent *)

Lemma insert_by_roll_perm (s : student) (l : list student) :
  Permutation (insert_by_roll s l) (s :: l).
Proof.
  induction l as [|x l IH]; simpl; [apply Permutation_refl|].
  destruct (String.leb (st_roll_no s) (st_roll_no x)).
  - apply Permutation_refl.
  - eapply Permutation_trans; [apply perm_skip, IH|apply perm_swap].
Qed.

(** ORDER BY returns the rows of the table, each once. *)
Lemma select_students_perm (d : db) :
  Permutation (select_students d) (students d).
Proof.
  unfold select_students. induction (students d) as [|s l IH]; simpl.
  - apply perm_nil.
  - eapply Permutation_trans; [apply insert_by_roll_perm|].
    now apply perm_skip.
Qed.

Lemma consistent_init : consistent init_db.
Proof.
  unfold consistent, one_record_per_day; simpl.
  repeat split; constructor.
Qed.

(** Distinct keys stay distinct when rows are deleted. *)
Lemma NoDup_map_filter {Row Key} (key : Row -> Key) (keep : Row -> bool)
  (rows : list Row) :
  NoDup (map key rows) -> NoDup (map key (filter keep rows)).
Proof.
  intros H. induction rows as [|x rows IH]; simpl; [constructor|].
  simpl in H. inversion H as [|? ? Hn Hd]; subst.
  destruct (keep x); simpl; [constructor|]; auto.
  intros Hin. apply Hn. apply in_map_iff in Hin.
  destruct Hin as [y [Hy Hin]]. apply filter_In in Hin.
  apply in_map_iff. exists y. tauto.
Qed.

Lemma consistent_map_students (h : student -> student) (d d' : db) :
  keeps_ledger h ->
  students d' = map h (students d) ->
  attendance_records d' = attendance_records d ->
  seq_students d' = seq_students d ->
  consistent d -> consistent d'.
Proof.
  intros Hh Hs Hr Hq (Hc & Hk & Hn & Hle & Hin).
  assert (Hids : map st_id (students d') = map st_id (students d)).
  { rewrite Hs, map_map. apply map_ext. intros s. apply Hh. }
  unfold consistent, one_record_per_day. rewrite Hids, Hr, Hq.
  repeat split; try assumption.
  - rewrite Hs. apply Forall_map. rewrite Forall_forall in Hc |- *.
    intros s Hs'. specialize (Hc s Hs'). destruct (Hh s) as (E1 & E2 & E3).
    unfold counters_match in *. rewrite Hr, E1, E2, E3. exact Hc.
  - rewrite Hs. apply Forall_map. rewrite Forall_forall in Hle |- *.
    intros s Hs'. destruct (Hh s) as (E1 & _). rewrite E1. now apply Hle.
Qed.

Lemma consistent_insert_student (roll_no name : string) (semester : Z)
  (d d' : db) :
  insert_student roll_no name semester d = Some d' ->
  consistent d -> consistent d'.
Proof.
  unfold insert_student.
  destruct (existsb _ _); [discriminate|]. intros E; injection E as <-.
  intros (Hc & Hk & Hn & Hle & Hin).
  rewrite Forall_forall in Hc, Hle, Hin.
  assert (Hfresh : ~ In (seq_students d + 1) (map st_id (students d))).
  { intros H. apply in_map_iff in H. destruct H as [s [E Hs]].
    specialize (Hle s Hs). lia. }
  unfold consistent, one_record_per_day; simpl. repeat split.
  - apply Forall_app. split.
    + apply Forall_forall. intros s Hs. exact (Hc s Hs).
    + constructor; [|constructor]. unfold counters_match; simpl.
      assert (Hz : count (of_student (seq_students d + 1))
                         (attendance_records d) = 0).
      { assert (Hnone : forall l, (forall r, In r l ->
                   ar_student_id r <> seq_students d + 1) ->
                   count (of_student (seq_students d + 1)) l = 0).
        { induction l as [|r l IH]; intros H; [reflexivity|].
          rewrite count_cons, IH by (intros; apply H; simpl; auto).
          unfold of_student.
          destruct (Z.eqb_spec (ar_student_id r) (seq_students d + 1)) as [e|];
            [|reflexivity].
          exfalso. apply (H r); simpl; auto. }
        apply Hnone. intros r Hr E. apply Hfresh. rewrite <- E. now apply Hin. }
      pose proof (present_le_classes (seq_students d + 1) (attendance_records d)).
      lia.
  - exact Hk.
  - rewrite map_app. apply NoDup_app; simpl; auto.
    + constructor; [intros []|constructor].
    + intros a Ha [<-|[]]. now apply Hfresh.
  - apply Forall_app. split.
    + apply Forall_forall. intros s Hs. specialize (Hle s Hs). lia.
    + constructor; [simpl; lia|constructor].
  - apply Forall_forall. intros r Hr. rewrite map_app. apply in_or_app. left.
    now apply Hin.
Qed.

Lemma consistent_delete_student (id : Z) (d : db) :
  consistent d -> consistent (fst (delete_student id d)).
Proof.
  intros (Hc & Hk & Hn & Hle & Hin).
  rewrite Forall_forall in Hc, Hle, Hin.
  unfold consistent, one_record_per_day, delete_student; simpl.
  repeat split.
  - apply Forall_forall. intros s Hs. apply filter_In in Hs.
    destruct Hs as [Hs Hne]. specialize (Hc s Hs).
    unfold counters_match in *; simpl. rewrite !count_filter.
    assert (E1 : count (fun r => negb (ar_student_id r =? id)
                                 && present_of (st_id s) r)
                       (attendance_records d)
                 = count (present_of (st_id s)) (attendance_records d)).
    { apply count_ext. intros r _. unfold present_of.
      destruct (Z.eqb_spec (ar_student_id r) (st_id s)) as [e|]; simpl;
        [|apply andb_false_r].
      rewrite e, Hne. reflexivity. }
    assert (E2 : count (fun r => negb (ar_student_id r =? id)
                                 && of_student (st_id s) r)
                       (attendance_records d)
                 = count (of_student (st_id s)) (attendance_records d)).
    { apply count_ext. intros r _. unfold of_student.
      destruct (Z.eqb_spec (ar_student_id r) (st_id s)) as [e|]; simpl;
        [|apply andb_false_r].
      rewrite e, Hne. reflexivity. }
    rewrite E1, E2. exact Hc.
  - now apply NoDup_map_filter.
  - now apply NoDup_map_filter.
  - apply Forall_forall. intros s Hs. apply filter_In in Hs. now apply Hle.
  - apply Forall_forall. intros r Hr. apply filter_In in Hr.
    destruct Hr as [Hr Hne]. specialize (Hin r Hr).
    apply in_map_iff in Hin. destruct Hin as [s [E Hs]].
    apply in_map_iff. exists s. split; [exact E|].
    apply filter_In. split; [exact Hs|]. now rewrite E.
Qed.

Lemma in_new_records (D : string) (form : list (Z * string))
  (l : list student) (r : attendance_record) :
  forall sq,
    In r (new_records D form l sq) ->
    exists s, In s l /\ ar_student_id r = st_id s /\ ar_date r = D
              /\ ar_status r = form_status form s.
Proof.
  induction l as [|s l IH]; intros sq; simpl; [intros []|].
  intros [<-|H].
  - exists s. simpl. auto.
  - destruct (IH _ H) as [s' [Hs' E]]. exists s'. auto.
Qed.

Lemma record_key_new_records (D : string) (form : list (Z * string))
  (l : list student) :
  forall sq,
    map record_key (new_records D form l sq) = map (pair D) (map st_id l).
Proof.
  induction l as [|s l IH]; intros sq; simpl; [reflexivity|].
  now rewrite IH.
Qed.

Lemma NoDup_map_pair {A B} (a : A) (l : list B) :
  NoDup l -> NoDup (map (pair a) l).
Proof.
  induction 1 as [|x l Hx Hl IH]; simpl; constructor; auto.
  intros H. apply in_map_iff in H. destruct H as [y [E Hy]].
  injection E as ->. contradiction.
Qed.

Lemma select_students_ids (d : db) :
  NoDup (map st_id (students d)) -> NoDup (map st_id (select_students d)).
Proof.
  apply Permutation_NoDup, Permutation_map, Permutation_sym,
    select_students_perm.
Qed.

Lemma add_counters_keeps_id (f g : Z -> Z) (l : list student) :
  map st_id (map (fun s => add_counters (f (st_id s)) (g (st_id s)) s) l)
  = map st_id l.
Proof. rewrite map_map. now apply map_ext. Qed.

(** A committed [attendance] transaction keeps the database consistent:
    the revert takes back what the day's old records had added, and the
    insert loop adds one record and its counts per student. *)
Lemma consistent_apply_day (D : string) (form : list (Z * string)) (d : db) :
  consistent d -> consistent (apply_day D form d).
Proof.
  intros (Hc & Hk & Hn & Hle & Hin).
  pose proof (apply_day_students D form d) as Hs.
  pose proof (apply_day_records D form d) as Hr.
  assert (Hids : map st_id (students (apply_day D form d))
                 = map st_id (students d)).
  { rewrite Hs. apply add_counters_keeps_id. }
  assert (Hq : seq_students (apply_day D form d) = seq_students d)
    by apply seq_students_fold_execute.
  unfold consistent, one_record_per_day. rewrite Hids, Hq. repeat split.
  - rewrite Hs. apply Forall_map. rewrite Forall_forall in Hc |- *.
    intros s Hs'. destruct (Hc s Hs') as (E1 & E2 & E3).
    pose proof (present_le_classes (st_id s)
                  (attendance_records (apply_day D form d))) as Hb.
    unfold counters_match. cbn [add_counters st_id st_total_attendance
                                st_total_classes].
    rewrite count_present_of_apply_day, count_of_student_apply_day in *.
    lia.
  - rewrite Hr, map_app. apply NoDup_app.
    + now apply NoDup_map_filter.
    + rewrite record_key_new_records. apply NoDup_map_pair.
      now apply select_students_ids.
    + intros [dt id] H1 H2.
      apply in_map_iff in H1. destruct H1 as [r1 [E1 H1]].
      apply in_map_iff in H2. destruct H2 as [r2 [E2 H2]].
      apply filter_In in H1. destruct H1 as [_ H1].
      apply in_new_records in H2. destruct H2 as [s [_ [_ [H2 _]]]].
      unfold record_key in E1, E2. injection E1 as E1 _. injection E2 as E2 _.
      apply negb_true_iff, String.eqb_neq in H1. congruence.
  - exact Hn.
  - rewrite Hs. apply Forall_map. rewrite Forall_forall in Hle |- *.
    intros s Hs'. simpl. now apply Hle.
  - rewrite Hr. apply Forall_app. rewrite Forall_forall in Hin. split.
    + apply Forall_forall. intros r H. apply filter_In in H. now apply Hin.
    + apply Forall_forall. intros r H. apply in_new_records in H.
      destruct H as [s [H [E _]]]. rewrite E. apply in_map.
      eapply Permutation_in; [apply select_students_perm|exact H].
Qed.

(** The handler either leaves the database as it was (a rejection, or an
    exception before the commit) or commits the whole day. *)
Lemma attendance_post_cases (fault : nat -> bool) (today_str : string)
  (date_field : option string) (form : list (Z * string)) (d : db) :
  fst (attendance_post fault today_str date_field form d) = d
  \/ fst (attendance_post fault today_str date_field form d)
     = apply_day (match date_field with Some v => v | None => today_str end)
                 form d.
Proof.
  unfold attendance_post.
  set (date_str := match date_field with Some v => v | None => today_str end).
  destruct (String.ltb today_str date_str); [now left|].
  destruct (match strptime date_str with
            | Some dt => weekday dt =? 6
            | None => false
            end); [now left|].
  destruct (execute_all_cases fault (attendance_stmts date_str form d) 0 d)
    as [E|E]; rewrite E; [now right|now left].
Qed.

Lemma set_marks_keeps_ledger (id : Z) (m : pyfloat) :
  keeps_ledger (fun s => if st_id s =? id then set_marks m s else s).
Proof.
  intros s. destruct (st_id s =? id); simpl; auto.
Qed.

Lemma marks_fold (form : list (Z * string)) (l : list student) :
  forall acc,
    let acc' :=
      fold_left (fun acc s =>
                   with_students
                     (update_where_id (st_id s)
                        (set_marks (marks_val (form_get Z.eqb form (st_id s) "0"))))
                     acc) l acc in
    exists h, keeps_ledger h
              /\ students acc' = map h (students acc)
              /\ attendance_records acc' = attendance_records acc
              /\ seq_students acc' = seq_students acc.
Proof.
  induction l as [|s l IH]; intros acc.
  - exists (fun s => s). simpl. repeat split. now rewrite map_id.
  - simpl fold_left.
    match goal with |- context [fold_left _ l ?w0] =>
      destruct (IH w0) as (h & Hh & E1 & E2 & E3) end.
    cbv zeta in *.
    exists (fun x => h (if st_id x =? st_id s
                        then set_marks (marks_val
                               (form_get Z.eqb form (st_id s) "0")) x
                        else x)).
    repeat split.
    + destruct (Hh (if st_id s0 =? st_id s
                    then set_marks (marks_val
                           (form_get Z.eqb form (st_id s) "0")) s0
                    else s0)) as (A & _).
      rewrite A. apply set_marks_keeps_ledger.
    + destruct (Hh (if st_id s0 =? st_id s
                    then set_marks (marks_val
                           (form_get Z.eqb form (st_id s) "0")) s0
                    else s0)) as (_ & A & _).
      rewrite A. apply set_marks_keeps_ledger.
    + destruct (Hh (if st_id s0 =? st_id s
                    then set_marks (marks_val
                           (form_get Z.eqb form (st_id s) "0")) s0
                    else s0)) as (_ & _ & A).
      rewrite A. apply set_marks_keeps_ledger.
    + rewrite E1. simpl. unfold update_where_id. now rewrite map_map.
    + rewrite E2. reflexivity.
    + rewrite E3. reflexivity.
Qed.

Lemma consistent_marks_post (form : list (Z * string)) (d : db) :
  consistent d -> consistent (fst (marks_post form d)).
Proof.
  intros H. unfold marks_post. cbn [fst].
  destruct (marks_fold form (select_students d) d) as (h & Hh & E1 & E2 & E3).
  cbv zeta in *. exact (consistent_map_students h _ _ Hh E1 E2 E3 H).
Qed.

Lemma consistent_generate_fold (sample : list (string * string * Z)) :
  forall acc : db * nat,
    consistent (fst acc) ->
    consistent (fst (fold_left (fun (acc : db * nat) row =>
                 match row with
                 | (roll_no, name, semester) =>
                     match insert_student roll_no name semester (fst acc) with
                     | Some acc' => (acc', S (snd acc))
                     | None => acc
                     end
                 end) sample acc)).
Proof.
  induction sample as [|[[r n] sem] sample IH]; intros acc H; [exact H|].
  simpl fold_left. apply IH.
  destruct (insert_student r n sem (fst acc)) eqn:E; [|exact H].
  simpl. exact (consistent_insert_student _ _ _ _ _ E H).
Qed.

Lemma consistent_handle (r : request) (d : db) :
  consistent d -> consistent (fst (handle r d)).
Proof.
  intros H. destruct r as [roll name sem|id|fault today df form|form|sample];
    simpl handle.
  - unfold students_post.
    destruct (validate_roll_number (strip roll)) as [valid msg].
    destruct valid; simpl; [|exact H].
    destruct (py_int sem) as [n|]; [|exact H].
    destruct ((n <? 1) || (8 <? n)); [exact H|].
    destruct (truthy (strip name)); simpl; [|exact H].
    destruct (insert_student (upper (strip roll)) (strip name) n d) eqn:E;
      simpl; [|exact H].
    exact (consistent_insert_student _ _ _ _ _ E H).
  - now apply consistent_delete_student.
  - destruct (attendance_post_cases fault today df form d) as [E|E];
      rewrite E; [exact H|]. now apply consistent_apply_day.
  - now apply consistent_marks_post.
  - unfold ai_generate_sample.
    pose proof (consistent_generate_fold sample (d, O) H) as H'.
    destruct (fold_left _ sample (d, O)) as [d' added]. exact H'.
Qed.

(** The invariant holds after any sequence of requests. *)
Lemma consistent_run (rs : list request) :
  forall d, consistent d -> consistent (run rs d).
Proof.
  induction rs as [|r rs IH]; intros d H; [exact H|].
  unfold run. simpl fold_left. apply IH. now apply consistent_handle.
Qed.

(* ================================================================= *)
(** ** Counters and records of a reachable database *)

(** C1: after any sequence of requests (attendance for any date and
    statuses, adding and deleting students, marks, sample generation),
    every student's [total_attendance] is the number of its records with
    status 'present', its [total_classes] is the number of all its records,
    and [0 <= total_attendance <= total_classes]. *)
Theorem counters_equal_record_counts (rs : list request) :
  Forall (counters_match (run rs init_db)) (students (run rs init_db)).
Proof.
  destruct (consistent_run rs init_db consistent_init) as (H & _). exact H.
Qed.

(** C5: after any sequence of requests the records hold at most one row
    per (date, student_id): the handler deletes the day's rows before it
    inserts one row per student. *)
Theorem at_most_one_record_per_day (rs : list request) :
  one_record_per_day (run rs init_db).
Proof.
  destruct (consistent_run rs init_db consistent_init) as (_ & H & _). exact H.
Qed.

(* ================================================================= *)
(** ** Editing a day replaces it *)

Lemma insert_by_roll_map (h : student -> student) (s : student)
  (l : list student) :
  (forall x, st_roll_no (h x) = st_roll_no x) ->
  insert_by_roll (h s) (map h l) = map h (insert_by_roll s l).
Proof.
  intros Hh. induction l as [|x l IH]; simpl; [reflexivity|].
  rewrite !Hh. destruct (String.leb (st_roll_no s) (st_roll_no x)); simpl.
  - reflexivity.
  - now rewrite IH.
Qed.

(** ORDER BY roll_no commutes with an update of other columns. *)
Lemma select_students_map (h : student -> student) (d d' : db) :
  (forall x, st_roll_no (h x) = st_roll_no x) ->
  students d' = map h (students d) ->
  select_students d' = map h (select_students d).
Proof.
  intros Hh E. unfold select_students. rewrite E. clear E.
  induction (students d) as [|s l IH]; simpl; [reflexivity|].
  rewrite IH. now apply insert_by_roll_map.
Qed.

Lemma select_students_apply_day (D : string) (form : list (Z * string))
  (d : db) :
  select_students (apply_day D form d)
  = map (fun s =>
           add_counters
             (delta_attendance (attendance_stmts D form d) (st_id s))
             (delta_classes (attendance_stmts D form d) (st_id s)) s)
        (select_students d).
Proof.
  apply select_students_map; [reflexivity|apply apply_day_students].
Qed.

Lemma filter_new_records (D : string) (form : list (Z * string))
  (l : list student) :
  forall sq,
    filter (fun r => negb (ar_date r =? D)%string) (new_records D form l sq)
    = [].
Proof.
  induction l as [|s l IH]; intros sq; simpl; [reflexivity|].
  rewrite String.eqb_refl. simpl. apply IH.
Qed.

Lemma filter_filter_same {A} (p : A -> bool) (l : list A) :
  filter p (filter p l) = filter p l.
Proof.
  induction l as [|x l IH]; simpl; [reflexivity|].
  destruct (p x) eqn:E; simpl; [rewrite E, IH|]; auto.
Qed.

Lemma count_on_date_filtered (D : string) (p : attendance_record -> bool)
  (l : list attendance_record) :
  count (fun r => on_date D r && p r)
        (filter (fun r => negb (ar_date r =? D)%string) l) = 0.
Proof.
  rewrite count_filter. unfold on_date.
  induction l as [|r l IH]; [reflexivity|].
  rewrite count_cons, IH. destruct (ar_date r =? D)%string; reflexivity.
Qed.

Lemma count_on_date_new_records (D : string) (form : list (Z * string))
  (p : attendance_record -> bool) (l : list student) :
  forall sq,
    count (fun r => on_date D r && p r) (new_records D form l sq)
    = count p (new_records D form l sq).
Proof.
  induction l as [|s l IH]; intros sq; [reflexivity|].
  simpl new_records. rewrite !count_cons, IH. unfold on_date. simpl.
  now rewrite String.eqb_refl.
Qed.

(** Re-applying a day after it was applied: the second revert takes back
    exactly what the first application added. *)
Lemma apply_day_twice (D : string) (S1 S2 : list (Z * string)) (d : db) :
  students (apply_day D S2 (apply_day D S1 d)) = students (apply_day D S2 d)
  /\ map record_fields (attendance_records (apply_day D S2 (apply_day D S1 d)))
     = map record_fields (attendance_records (apply_day D S2 d)).
Proof.
  split.
  - rewrite (apply_day_students D S2 (apply_day D S1 d)).
    rewrite (apply_day_students D S1 d), (apply_day_students D S2 d), map_map.
    apply map_ext. intros s.
    cbn [st_id add_counters].
    rewrite !delta_classes_attendance, !delta_attendance_attendance.
    rewrite select_students_apply_day, !count_map.
    cbn [st_id add_counters].
    rewrite apply_day_records, !count_app.
    rewrite !count_on_date_filtered, !count_on_date_new_records.
    rewrite (count_new_records D S1 (of_student (st_id s)))
      by apply of_student_fields.
    rewrite (count_new_records D S1 (present_of (st_id s)))
      by apply present_of_fields.
    unfold of_student, present_of, form_status. cbn [ar_student_id ar_status st_id].
    destruct s as [i r n sem mk ta tc]; unfold add_counters;
      cbn [st_id st_roll_no st_name st_semester st_marks st_total_attendance
           st_total_classes].
    f_equal; lia.
  - rewrite (apply_day_records D S2 (apply_day D S1 d)).
    rewrite (apply_day_records D S1 d), (apply_day_records D S2 d).
    rewrite filter_app, filter_filter_same, filter_new_records, app_nil_r.
    rewrite !map_app, !record_fields_new_records.
    rewrite select_students_apply_day, map_map. reflexivity.
Qed.

Lemma attendance_post_no_fault (today_str D : string)
  (form : list (Z * string)) (d : db) :
  fst (attendance_post no_fault today_str (Some D) form d)
  = if String.ltb today_str D
       || match strptime D with
          | Some dt => weekday dt =? 6
          | None => false
          end
    then d else apply_day D form d.
Proof.
  unfold attendance_post.
  destruct (String.ltb today_str D); [reflexivity|]. cbn [orb].
  destruct (match strptime D with
            | Some dt => weekday dt =? 6
            | None => false
            end); [reflexivity|].
  now rewrite execute_all_no_fault.
Qed.

(** C2: applying day D with S1 and then again with S2 leaves the students
    (counters included) and the records, read without their surrogate
    keys, as one application of D with S2 does; with S1 = S2 the second
    application changes neither; and a student at (3,4) marked present on
    a new day stands at (4,5), then at (3,5) once re-marked absent. *)
Theorem reapply_day_replaces :
  (forall (today_str D : string) (S1 S2 : list (Z * string)) (d : db),
     let once := fst (attendance_post no_fault today_str (Some D) S2 d) in
     let first := fst (attendance_post no_fault today_str (Some D) S1 d) in
     let twice := fst (attendance_post no_fault today_str (Some D) S2 first) in
     students twice = students once
     /\ map record_fields (attendance_records twice)
        = map record_fields (attendance_records once))
  /\ (forall (today_str D : string) (S1 : list (Z * string)) (d : db),
        let first := fst (attendance_post no_fault today_str (Some D) S1 d) in
        let again := fst (attendance_post no_fault today_str (Some D) S1 first) in
        students again = students first
        /\ map record_fields (attendance_records again)
           = map record_fields (attendance_records first))
  /\ (let today_str := "2025-01-10"%string in
      let marked :=
        fst (attendance_post no_fault today_str (Some "2025-01-10"%string)
               [(1, "present"%string)] scenario_db) in
      let remarked :=
        fst (attendance_post no_fault today_str (Some "2025-01-10"%string)
               [(1, "absent"%string)] marked) in
      counters scenario_db = [(1, (3, 4))]
      /\ counters marked = [(1, (4, 5))]
      /\ counters remarked = [(1, (3, 5))]).
Proof.
  assert (G : forall (today_str D : string) (S1 S2 : list (Z * string)) (d : db),
     let once := fst (attendance_post no_fault today_str (Some D) S2 d) in
     let first := fst (attendance_post no_fault today_str (Some D) S1 d) in
     let twice := fst (attendance_post no_fault today_str (Some D) S2 first) in
     students twice = students once
     /\ map record_fields (attendance_records twice)
        = map record_fields (attendance_records once)).
  { intros today_str D S1 S2 d. cbv zeta.
    rewrite !attendance_post_no_fault.
    destruct (String.ltb today_str D
              || match strptime D with
                 | Some dt => weekday dt =? 6
                 | None => false
                 end); [now split|].
    apply apply_day_twice. }
  split; [exact G|]. split.
  - intros today_str D S1 d. cbv zeta.
    destruct (G today_str D S1 S1 d) as [H1 H2]. cbv zeta in H1, H2.
    now split.
  - cbv zeta. repeat split; vm_compute; reflexivity.
Qed.

(* ================================================================= *)
(** ** Atomicity of the [attendance] transaction *)

Lemma not_sunday_gate (date_str : string) :
  (forall dt, strptime date_str = Some dt -> weekday dt <> 6) ->
  match strptime date_str with
  | Some dt => weekday dt =? 6
  | None => false
  end = false.
Proof.
  intros H. destruct (strptime date_str) as [dt|]; [|reflexivity].
  apply Z.eqb_neq. now apply H.
Qed.

(** C3: the transaction of the attendance request is all or nothing.
    Whatever statement of the revert or of the re-application fails, the
    database after the request is either exactly the database before it
    or the one the complete revert-and-reapply leaves.  For a date the
    gate lets through (not after today, not a Sunday): when no statement
    fails the request commits the complete revert-and-reapply and answers
    with the success message; when any statement fails, the records and
    every student's counters are as before the call and the request ends
    in a server error.  A rejected request changes nothing either, and a
    success message is only given with the complete effect, whose records
    and counters the last two equations spell out. *)
Theorem attendance_is_atomic (fault : nat -> bool) (today_str : string)
  (date_field : option string) (form : list (Z * string)) (d : db) :
  let date_str := match date_field with Some v => v | None => today_str end in
  let after := fst (attendance_post fault today_str date_field form d) in
  (after = d \/ after = apply_day date_str form d)
  /\ ((exists i, (i < List.length (attendance_stmts date_str form d))%nat
                 /\ fault i = true) ->
      after = d)
  /\ ((forall i, (i < List.length (attendance_stmts date_str form d))%nat ->
                 fault i = false) ->
      attendance_post fault today_str date_field form d
      = attendance_post no_fault today_str date_field form d)
  /\ ((forall i, (i < List.length (attendance_stmts date_str form d))%nat ->
                 fault i = false) ->
      String.ltb today_str date_str = false ->
      (forall dt, strptime date_str = Some dt -> weekday dt <> 6) ->
      attendance_post fault today_str date_field form d
      = (apply_day date_str form d,
         Flash ("Attendance saved for " ++ date_str ++ ".") "success"))
  /\ ((exists i, (i < List.length (attendance_stmts date_str form d))%nat
                 /\ fault i = true) ->
      String.ltb today_str date_str = false ->
      (forall dt, strptime date_str = Some dt -> weekday dt <> 6) ->
      attendance_post fault today_str date_field form d = (d, ServerError))
  /\ (rejected (snd (attendance_post fault today_str date_field form d)) ->
      after = d)
  /\ (forall msg,
        snd (attendance_post fault today_str date_field form d)
        = Flash msg "success" ->
        after = apply_day date_str form d
        /\ String.ltb today_str date_str = false
        /\ forall dt, strptime date_str = Some dt -> weekday dt <> 6)
  /\ attendance_records (apply_day date_str form d)
     = filter (fun r => negb (ar_date r =? date_str)%string)
              (attendance_records d)
       ++ new_records date_str form (select_students d) (seq_records d)
  /\ students (apply_day date_str form d)
     = map (fun s =>
              add_counters
                (delta_attendance (attendance_stmts date_str form d) (st_id s))
                (delta_classes (attendance_stmts date_str form d) (st_id s)) s)
           (students d).
Proof.
  cbv zeta.
  set (date_str := match date_field with Some v => v | None => today_str end).
  split; [apply attendance_post_cases|].
  split; [|split; [|split; [|split; [|split; [|split; [|split]]]]]].
  - intros [i [Hi Hf]]. unfold attendance_post. fold date_str.
    destruct (String.ltb today_str date_str); [reflexivity|].
    destruct (match strptime date_str with
              | Some dt => weekday dt =? 6
              | None => false
              end); [reflexivity|].
    rewrite (execute_all_faulty fault _ 0 d i) by (auto; lia). reflexivity.
  - intros H. unfold attendance_post. fold date_str.
    destruct (String.ltb today_str date_str); [reflexivity|].
    destruct (match strptime date_str with
              | Some dt => weekday dt =? 6
              | None => false
              end); [reflexivity|].
    rewrite execute_all_fault_free by (intros i Hi; apply H; lia).
    now rewrite execute_all_no_fault.
  - intros H Hnf Hns. unfold attendance_post. fold date_str.
    rewrite Hnf, (not_sunday_gate date_str Hns).
    rewrite execute_all_fault_free by (intros i Hi; apply H; lia).
    reflexivity.
  - intros [i [Hi Hf]] Hnf Hns. unfold attendance_post. fold date_str.
    rewrite Hnf, (not_sunday_gate date_str Hns).
    rewrite (execute_all_faulty fault _ 0 d i) by (auto; lia). reflexivity.
  - intros [reason Hrej]. unfold rejected_with in Hrej.
    revert Hrej. unfold attendance_post. fold date_str.
    destruct (String.ltb today_str date_str); [reflexivity|].
    destruct (match strptime date_str with
              | Some dt => weekday dt =? 6
              | None => false
              end); [reflexivity|].
    destruct (execute_all fault 0 (attendance_stmts date_str form d) d);
      cbn [fst snd]; [discriminate|reflexivity].
  - intros msg. unfold attendance_post. fold date_str.
    destruct (String.ltb today_str date_str); [discriminate|].
    destruct (match strptime date_str with
              | Some dt => weekday dt =? 6
              | None => false
              end) eqn:Es; [discriminate|].
    destruct (execute_all_cases fault (attendance_stmts date_str form d) 0 d)
      as [E|E]; rewrite E; cbn [fst snd]; [|discriminate].
    intros _. split; [reflexivity|]. split; [reflexivity|].
    intros dt Hdt. rewrite Hdt in Es. now apply Z.eqb_neq.
  - apply apply_day_records.
  - apply apply_day_students.
Qed.

(* ================================================================= *)
(** ** Deleting a student *)

(** C6: deleting a student removes that student's records, all of them and
    no others, removes that student's row, and leaves every other
    student's row (counters, marks and all other columns) as it was. *)
Theorem delete_student_removes_only_its_own (id : Z) (d : db) :
  let after := fst (delete_student id d) in
  attendance_records after
  = filter (fun r => negb (ar_student_id r =? id)) (attendance_records d)
  /\ (forall r, In r (attendance_records after)
                <-> In r (attendance_records d) /\ ar_student_id r <> id)
  /\ students after = filter (fun s => negb (st_id s =? id)) (students d)
  /\ (forall s, In s (students after) <-> In s (students d) /\ st_id s <> id)
  /\ seq_students after = seq_students d
  /\ seq_records after = seq_records d.
Proof.
  cbv zeta. unfold delete_student. cbn.
  split; [reflexivity|]. split; [|split; [reflexivity|split; [|now split]]].
  - intros r. rewrite filter_In, negb_true_iff, Z.eqb_neq. tauto.
  - intros s. rewrite filter_In, negb_true_iff, Z.eqb_neq. tauto.
Qed.

(* ================================================================= *)
(** ** Dates the handler cannot parse *)

Lemma ltb_false_of_leb (a b : string) :
  String.leb a b = true -> String.ltb b a = false.
Proof.
  unfold String.leb, String.ltb. rewrite (String.compare_antisym a b).
  destruct (String.compare b a); simpl; congruence.
Qed.

(** C10: a date string [strptime] raises [ValueError] on, and that is not
    greater than today's string, is not rejected: no Sunday check applies,
    the day is committed, and every student gets a record whose date is
    that string as it came. *)
Theorem unparsed_date_is_stored (today_str date_str : string)
  (form : list (Z * string)) (d : db) :
  strptime date_str = None ->
  String.leb date_str today_str = true ->
  attendance_post no_fault today_str (Some date_str) form d
  = (apply_day date_str form d,
     Flash ("Attendance saved for " ++ date_str ++ ".") "success")
  /\ attendance_records (apply_day date_str form d)
     = filter (fun r => negb (ar_date r =? date_str)%string)
              (attendance_records d)
       ++ new_records date_str form (select_students d) (seq_records d)
  /\ map record_fields
         (new_records date_str form (select_students d) (seq_records d))
     = map (fun s => (date_str, st_id s, form_status form s))
           (select_students d)
  /\ Forall (fun s => exists r,
                 In r (attendance_records (apply_day date_str form d))
                 /\ record_fields r = (date_str, st_id s, form_status form s))
            (students d).
Proof.
  intros Hp Hle. split; [|split; [|split]].
  - unfold attendance_post. rewrite (ltb_false_of_leb _ _ Hle), Hp.
    now rewrite execute_all_no_fault.
  - apply apply_day_records.
  - apply record_fields_new_records.
  - apply Forall_forall. intros s Hs.
    assert (Hin : In (date_str, st_id s, form_status form s)
                     (map record_fields
                        (attendance_records (apply_day date_str form d)))).
    { rewrite apply_day_records, map_app, record_fields_new_records.
      apply in_or_app. right.
      apply (in_map (fun s => (date_str, st_id s, form_status form s))).
      eapply Permutation_in; [apply Permutation_sym, select_students_perm|].
      exact Hs. }
    apply in_map_iff in Hin. destruct Hin as [r [E Hr]]. now exists r.
Qed.

Lemma unparsed_date_is_stored_witness :
  strptime "2025-02-30" = None
  /\ String.leb "2025-02-30" "2026-11-04" = true
  /\ attendance_post no_fault "2026-11-04" (Some "2025-02-30"%string)
       [(1, "present"%string)] scenario_db
     = (apply_day "2025-02-30" [(1, "present"%string)] scenario_db,
        Flash "Attendance saved for 2025-02-30." "success").
Proof.
  split; [reflexivity|]. split; [reflexivity|].
  exact (proj1 (unparsed_date_is_stored "2026-11-04" "2025-02-30"
                  [(1, "present"%string)] scenario_db eq_refl eq_refl)).
Defined.

(** What [strptime] takes and what it refuses: the padded and the unpadded
    form of a day, a day the month does not have, trailing text, nothing. *)
Lemma strptime_examples :
  strptime "2025-01-05" = Some (mkdate 2025 1 5)
  /\ strptime "2025-1-5" = Some (mkdate 2025 1 5)
  /\ strptime "2025-02-30" = None
  /\ strptime "2025-01-05x" = None
  /\ strptime "" = None.
Proof. repeat split; reflexivity. Qed.

(** A date in a form [strptime] still reads is held to the Sunday rule. *)
Lemma unpadded_sunday_is_rejected :
  attendance_post no_fault "2026-11-04" (Some "2025-1-5"%string)
    [(1, "present"%string)] scenario_db
  = (scenario_db, Flash msg_sunday "error").
Proof. reflexivity. Qed.

(* ================================================================= *)
(** ** Roll numbers *)

Lemma rstrip_idempotent (s : string) : rstrip (rstrip s) = rstrip s.
Proof.
  induction s as [|c s IH]; [reflexivity|].
  simpl. destruct (rstrip s) as [|b t] eqn:E.
  - destruct (isspace c) eqn:Ec; simpl; [reflexivity|]. now rewrite Ec.
  - change (rstrip (String c (String b t))) with
      (match rstrip (String b t) with
       | EmptyString => if isspace c then EmptyString else String c EmptyString
       | t' => String c t'
       end).
    now rewrite IH.
Qed.

Lemma lstrip_head (s : string) :
  lstrip s = EmptyString
  \/ exists c u, lstrip s = String c u /\ isspace c = false.
Proof.
  induction s as [|c s IH]; simpl; [now left|].
  destruct (isspace c) eqn:E; [exact IH|]. right. now exists c, s.
Qed.

Lemma rstrip_head (c : ascii) (u : string) :
  isspace c = false -> exists v, rstrip (String c u) = String c v.
Proof.
  intros E. simpl. destruct (rstrip u).
  - rewrite E. now exists EmptyString.
  - eexists. reflexivity.
Qed.

(** Stripping twice is stripping once. *)
Lemma strip_idempotent (s : string) : strip (strip s) = strip s.
Proof.
  unfold strip. destruct (lstrip_head s) as [E|[c [u [E Hc]]]]; rewrite E.
  - reflexivity.
  - destruct (rstrip_head c u Hc) as [v Ev].
    rewrite Ev. simpl lstrip. rewrite Hc, <- Ev. apply rstrip_idempotent.
Qed.

(** What [rstrip] returns does not end in whitespace. *)
Lemma rstrip_last (s : string) :
  forall pre c, rstrip s = (pre ++ String c EmptyString)%string ->
                isspace c = false.
Proof.
  induction s as [|a s IH]; intros pre c; simpl.
  - destruct pre; discriminate.
  - destruct (rstrip s) as [|b t] eqn:E.
    + destruct (isspace a) eqn:Ea.
      * destruct pre; discriminate.
      * destruct pre as [|p pre]; simpl; intros H.
        -- injection H as H1. now subst.
        -- injection H as H1 H2. destruct pre; discriminate.
    + destruct pre as [|p pre]; simpl; intros H.
      * discriminate.
      * injection H as H1 H2. now apply (IH pre c).
Qed.

Lemma append_empty_r (s : string) : (s ++ EmptyString)%string = s.
Proof. induction s as [|c s IH]; simpl; [reflexivity|now rewrite IH]. Qed.

Lemma take_class_some (p : ascii -> bool) (n : nat) :
  forall s rest,
    take_class p n s = Some rest ->
    exists pre, s = (pre ++ rest)%string /\ String.length pre = n
                /\ Forall (fun c => p c = true) (list_ascii_of_string pre).
Proof.
  induction n as [|n IH]; intros s rest; simpl.
  - intros E; injection E as <-. exists EmptyString. repeat split. constructor.
  - destruct s as [|c s]; [discriminate|].
    destruct (p c) eqn:Ec; [|discriminate]. intros H.
    destruct (IH _ _ H) as [pre [E1 [E2 E3]]].
    exists (String c pre). simpl. rewrite E1, E2. repeat split.
    now constructor.
Qed.

Lemma take_class_all (p : ascii -> bool) (s : string) :
  Forall (fun c => p c = true) (list_ascii_of_string s) ->
  take_class p (String.length s) s = Some EmptyString.
Proof.
  induction s as [|c s IH]; simpl; [reflexivity|].
  intros H. inversion H as [|? ? Hc Hs]; subst. rewrite Hc. now apply IH.
Qed.

Lemma newline_isspace (c : ascii) : (ord c =? 10) = true -> isspace c = true.
Proof.
  intros H. apply Z.eqb_eq in H. unfold isspace. now rewrite H.
Qed.

(** On stripped text the regular expression accepts exactly the texts of 3
    to 15 characters of the class: the newline [$] tolerates cannot end a
    stripped text. *)
Lemma re_match_roll_strip (s : string) :
  re_match_roll (strip s) = true <-> roll_pattern (strip s).
Proof.
  unfold re_match_roll, roll_pattern. rewrite existsb_exists. split.
  - intros [n [Hn H]]. apply in_rev, in_seq in Hn.
    destruct (take_class roll_char n (strip s)) as [rest|] eqn:E;
      [|discriminate].
    destruct (take_class_some _ _ _ _ E) as [pre [E1 [E2 E3]]].
    destruct rest as [|c [|c' rest]]; try discriminate.
    + rewrite append_empty_r in E1. rewrite E1, E2. split; [lia|exact E3].
    + simpl in H. apply newline_isspace in H.
      unfold strip in E1. apply rstrip_last in E1. congruence.
  - intros [Hlen Hall]. exists (String.length (strip s)). split.
    + rewrite <- in_rev, in_seq. lia.
    + now rewrite take_class_all.
Qed.

Lemma strip_empty (s : string) : truthy s = false -> strip s = EmptyString.
Proof. destruct s; [reflexivity|discriminate]. Qed.

Lemma truthy_false (s : string) : truthy s = false <-> s = EmptyString.
Proof. destruct s; simpl; split; congruence. Qed.

(** The verdict depends on the stripped text only. *)
Lemma validate_roll_number_strip (roll_no : string) :
  validate_roll_number (strip roll_no) = validate_roll_number roll_no.
Proof.
  unfold validate_roll_number. rewrite strip_idempotent.
  destruct (truthy roll_no) eqn:E; simpl.
  - now rewrite orb_diag.
  - now rewrite (strip_empty _ E).
Qed.

Lemma validate_roll_number_accepts (roll_no : string) :
  fst (validate_roll_number roll_no) = true
  <-> strip roll_no <> EmptyString /\ roll_pattern (strip roll_no).
Proof.
  unfold validate_roll_number.
  destruct (truthy roll_no) eqn:E1; simpl.
  - destruct (truthy (strip roll_no)) eqn:E2; simpl.
    + destruct (re_match_roll (strip roll_no)) eqn:E3; simpl.
      * apply re_match_roll_strip in E3. split; [|reflexivity].
        intros _. split; [|exact E3]. intros H. apply truthy_false in H.
        congruence.
      * split; [discriminate|]. intros [_ H].
        apply re_match_roll_strip in H. congruence.
    + split; [discriminate|]. intros [H _]. apply truthy_false in E2.
      contradiction.
  - split; [discriminate|]. intros [H _]. now apply strip_empty in E1.
Qed.

(** C7: [validate_roll_number] accepts exactly the inputs whose stripped
    text is non-empty and matches [[A-Za-z0-9-]{3,15}]; a rejection comes
    with one of two reason strings; a student the add-form inserts has
    passed the validation and carries the stripped roll number
    upper-cased.  "C$1" is rejected; "CS1" is accepted and stored as "CS1". *)
Theorem roll_number_validation :
  (forall roll_no,
      fst (validate_roll_number roll_no) = true
      <-> strip roll_no <> EmptyString /\ roll_pattern (strip roll_no))
  /\ (forall roll_no,
        fst (validate_roll_number roll_no) = false ->
        validate_roll_number roll_no
        = (false, "Roll number cannot be empty."%string)
        \/ validate_roll_number roll_no
           = (false,
              "Roll number must be 3-15 alphanumeric characters (hyphens allowed)."%string))
  /\ (forall roll_no name semester d,
        fst (students_post roll_no name semester d) = d
        \/ (fst (validate_roll_number roll_no) = true
            /\ exists s,
                students (fst (students_post roll_no name semester d))
                = students d ++ [s]
                /\ st_roll_no s = upper (strip roll_no)))
  /\ fst (validate_roll_number "C$1") = false
  /\ fst (validate_roll_number "CS1") = true
  /\ map st_roll_no (students (fst (students_post "CS1" "A" "1" init_db)))
     = ["CS1"%string].
Proof.
  split; [exact validate_roll_number_accepts|]. split; [|split].
  - intros roll_no. unfold validate_roll_number.
    destruct (negb (truthy roll_no) || negb (truthy (strip roll_no)));
      [now left|].
    destruct (negb (re_match_roll (strip roll_no))); [now right|discriminate].
  - intros roll_no name semester d. unfold students_post.
    rewrite validate_roll_number_strip.
    destruct (validate_roll_number roll_no) as [valid msg].
    destruct valid; simpl; [|now left].
    destruct (py_int semester) as [n|]; [|now left].
    destruct ((n <? 1) || (8 <? n)); [now left|].
    destruct (truthy (strip name)); simpl; [|now left].
    unfold insert_student.
    destruct (existsb _ (students d)); simpl; [now left|].
    right. split; [reflexivity|]. eexists. split; reflexivity.
  - repeat split; reflexivity.
Qed.

(* ================================================================= *)
(** ** Marks *)


Lemma clamp_0_100_range (q : Q) : (0 <= clamp_0_100 q <= 100)%Q.
Proof.
  unfold clamp_0_100.
  destruct (q ?= 0)%Q eqn:E0; [apply Qeq_alt in E0|lra|apply Qgt_alt in E0];
    (destruct (q ?= 100)%Q eqn:E1;
     [apply Qeq_alt in E1|apply Qlt_alt in E1|apply Qgt_alt in E1]); lra.
Qed.

Lemma marks_val_range (s : string) :
  exists q, marks_val s = Finite q /\ (0 <= q <= 100)%Q.
Proof.
  unfold marks_val. destruct (py_float s) as [[q| | |]|].
  - unfold py_max, py_min, flt.
    destruct (q ?= 100)%Q eqn:E1;
      [apply Qeq_alt in E1|apply Qlt_alt in E1|apply Qgt_alt in E1].
    + exists 100%Q. split; [reflexivity|lra].
    + destruct (0 ?= q)%Q eqn:E0;
        [apply Qeq_alt in E0|apply Qlt_alt in E0|apply Qgt_alt in E0].
      * exists 0%Q. split; [reflexivity|lra].
      * exists q. split; [reflexivity|lra].
      * exists 0%Q. split; [reflexivity|lra].
    + exists 100%Q. split; [reflexivity|lra].
  - exists 100%Q. split; [reflexivity|lra].
  - exists 0%Q. split; [reflexivity|lra].
  - exists 100%Q. split; [reflexivity|lra].
  - exists 0%Q. split; [reflexivity|lra].
Qed.

(** What the [marks] handler leaves in the table: every student for whom
    a row was listed carries the value of its own form field. *)
Lemma marks_fold_students (form : list (Z * string)) (l : list student) :
  forall acc,
    students
      (fold_left (fun acc s =>
                    with_students
                      (update_where_id (st_id s)
                         (set_marks (marks_val (form_get Z.eqb form (st_id s) "0"))))
                      acc) l acc)
    = map (fun s =>
             if existsb (fun x => st_id s =? st_id x) l
             then set_marks (marks_val (form_get Z.eqb form (st_id s) "0")) s
             else s)
          (students acc).
Proof.
  induction l as [|x l IH]; intros acc.
  - simpl. now rewrite map_id.
  - simpl fold_left. rewrite IH. cbn [with_students students].
    unfold update_where_id. rewrite map_map. apply map_ext. intros s.
    cbn [existsb].
    destruct (Z.eqb_spec (st_id s) (st_id x)) as [e|ne]; cbn [orb].
    + rewrite <- e. cbn [set_marks st_id].
      destruct (existsb (fun x0 => st_id s =? st_id x0) l); reflexivity.
    + reflexivity.
Qed.








(* ================================================================= *)
(** ** Dates as text *)

Lemma in_range (lo x : Z) (n : nat) :
  lo <= x < lo + Z.of_nat n ->
  In x (map (fun k => lo + Z.of_nat k) (seq 0 n)).
Proof.
  intros H. apply in_map_iff. exists (Z.to_nat (x - lo)). split; [lia|].
  apply in_seq. lia.
Qed.

Lemma digit_val_digit_char (n : Z) :
  0 <= n <= 9 -> digit_val (digit_char n) = Some n.
Proof.
  intros H.
  assert (I : In n (map (fun k => 0 + Z.of_nat k) (seq 0 10)))
    by (apply in_range; lia).
  clear H. each_of I; reflexivity.
Qed.

Lemma ord_digit_char (n : Z) : 0 <= n <= 9 -> ord (digit_char n) = 48 + n.
Proof.
  intros H.
  assert (I : In n (map (fun k => 0 + Z.of_nat k) (seq 0 10)))
    by (apply in_range; lia).
  clear H. each_of I; reflexivity.
Qed.

(** Digits compare as the numbers they print. *)
Lemma digit_char_compare (a b : Z) :
  0 <= a <= 9 -> 0 <= b <= 9 ->
  Ascii.compare (digit_char a) (digit_char b) = (a ?= b).
Proof.
  intros Ha Hb. unfold Ascii.compare.
  pose proof (ord_digit_char a Ha) as Ea.
  pose proof (ord_digit_char b Hb) as Eb.
  unfold ord in Ea, Eb.
  rewrite <- (N2Z.inj_compare (N_of_ascii (digit_char a))), Ea, Eb.
  destruct (Z.compare_spec a b), (Z.compare_spec (48 + a) (48 + b));
    try reflexivity; lia.
Qed.

Lemma mod10_range (n : Z) : 0 <= n mod 10 <= 9.
Proof. pose proof (Z.mod_pos_bound n 10). lia. Qed.

Lemma lex_compare2 (a b : Z) :
  0 <= a <= 99 -> 0 <= b <= 99 ->
  match a / 10 mod 10 ?= b / 10 mod 10 with
  | Eq => a mod 10 ?= b mod 10
  | c => c
  end = (a ?= b).
Proof.
  intros Ha Hb.
  destruct (Z.compare_spec (a / 10 mod 10) (b / 10 mod 10));
    destruct (Z.compare_spec (a mod 10) (b mod 10));
    destruct (Z.compare_spec a b); try reflexivity; exfalso;
    Z.to_euclidean_division_equations; lia.
Qed.

Lemma lex_compare4 (a b : Z) :
  0 <= a <= 9999 -> 0 <= b <= 9999 ->
  match a / 1000 mod 10 ?= b / 1000 mod 10 with
  | Eq => match a / 100 mod 10 ?= b / 100 mod 10 with
          | Eq => match a / 10 mod 10 ?= b / 10 mod 10 with
                  | Eq => a mod 10 ?= b mod 10
                  | c => c
                  end
          | c => c
          end
  | c => c
  end = (a ?= b).
Proof.
  intros Ha Hb.
  destruct (Z.compare_spec (a / 1000 mod 10) (b / 1000 mod 10));
    [destruct (Z.compare_spec (a / 100 mod 10) (b / 100 mod 10));
     [destruct (Z.compare_spec (a / 10 mod 10) (b / 10 mod 10));
      [destruct (Z.compare_spec (a mod 10) (b mod 10))|..]|..]|..];
    destruct (Z.compare_spec a b); try reflexivity; exfalso;
    Z.to_euclidean_division_equations; lia.
Qed.

(** Zero-padded numbers of the same width compare as numbers. *)
Lemma compare_pad2 (a b : Z) (s t : string) :
  0 <= a <= 99 -> 0 <= b <= 99 ->
  String.compare (pad2 a ++ s) (pad2 b ++ t)
  = match a ?= b with Eq => String.compare s t | c => c end.
Proof.
  intros Ha Hb. unfold pad2. cbn [append String.compare].
  rewrite !digit_char_compare
    by apply mod10_range.
  rewrite <- (lex_compare2 a b Ha Hb).
  destruct (a / 10 mod 10 ?= b / 10 mod 10); reflexivity.
Qed.

Lemma compare_pad4 (a b : Z) (s t : string) :
  0 <= a <= 9999 -> 0 <= b <= 9999 ->
  String.compare (pad4 a ++ s) (pad4 b ++ t)
  = match a ?= b with Eq => String.compare s t | c => c end.
Proof.
  intros Ha Hb. unfold pad4, pad2. cbn [append String.compare].
  rewrite !digit_char_compare
    by apply mod10_range.
  rewrite <- (lex_compare4 a b Ha Hb).
  destruct (a / 1000 mod 10 ?= b / 1000 mod 10); try reflexivity.
  destruct (a / 100 mod 10 ?= b / 100 mod 10); try reflexivity.
  destruct (a / 10 mod 10 ?= b / 10 mod 10); reflexivity.
Qed.

Lemma days_in_month_le (y m : Z) : 28 <= days_in_month y m <= 31.
Proof.
  unfold days_in_month.
  destruct (m =? 2); [destruct (is_leap y); lia|].
  destruct ((m =? 4) || (m =? 6) || (m =? 9) || (m =? 11)); lia.
Qed.

(** The text order of ISO dates is the calendar order. *)
Lemma compare_strftime (a b : date) :
  valid_date a -> valid_date b ->
  String.compare (strftime_ymd a) (strftime_ymd b) = date_compare a b.
Proof.
  intros (Hy & Hm & Hd) (Hy' & Hm' & Hd').
  pose proof (days_in_month_le (year a) (month a)).
  pose proof (days_in_month_le (year b) (month b)).
  unfold strftime_ymd, date_compare.
  rewrite compare_pad4 by lia.
  destruct (year a ?= year b); try reflexivity.
  cbn [append String.compare]. rewrite compare_pad2 by lia.
  destruct (month a ?= month b); try reflexivity.
  cbn [append String.compare].
  rewrite <- (append_empty_r (pad2 (day a))), <- (append_empty_r (pad2 (day b))).
  rewrite compare_pad2 by lia.
  destruct (day a ?= day b); reflexivity.
Qed.

Lemma parse_Y_pad4 (y : Z) (r : string) :
  0 <= y <= 9999 -> parse_Y (pad4 y ++ r) = Some (y, r).
Proof.
  intros Hy. unfold pad4, pad2, parse_Y. cbn [append].
  rewrite !digit_val_digit_char by apply mod10_range.
  f_equal. f_equal. Z.to_euclidean_division_equations. lia.
Qed.

(** The regular expression of ['%Y-%m-%d'] reads back what
    [strftime('%Y-%m-%d')] prints. *)
Lemma strptime_match_strftime (y m d : Z) :
  0 <= y <= 9999 -> 1 <= m <= 12 -> 1 <= d <= 31 ->
  strptime_match (strftime_ymd (mkdate y m d)) = Some (y, m, d, EmptyString).
Proof.
  intros Hy Hm Hd. unfold strptime_match, strftime_ymd. cbn [year month day].
  rewrite parse_Y_pad4 by exact Hy.
  assert (Im : In m (map (fun k => 1 + Z.of_nat k) (seq 0 12)))
    by (apply in_range; lia).
  assert (Id : In d (map (fun k => 1 + Z.of_nat k) (seq 0 31)))
    by (apply in_range; lia).
  clear Hm Hd. each_of Im; each_of Id; reflexivity.
Qed.

Lemma valid_dateb_true (dt : date) : valid_date dt <-> valid_dateb dt = true.
Proof.
  unfold valid_date, valid_dateb.
  rewrite !andb_true_iff, !Z.leb_le. tauto.
Qed.

Lemma strptime_strftime (dt : date) :
  valid_date dt -> strptime (strftime_ymd dt) = Some dt.
Proof.
  intros H. pose proof H as (Hy & Hm & Hd).
  pose proof (days_in_month_le (year dt) (month dt)).
  unfold strptime. destruct dt as [y m d]. cbn [year month day] in *.
  rewrite strptime_match_strftime by lia.
  apply valid_dateb_true in H. now rewrite H.
Qed.

Lemma ltb_strftime (a b : date) :
  valid_date a -> valid_date b ->
  String.ltb (strftime_ymd a) (strftime_ymd b) = true <-> date_lt a b.
Proof.
  intros Ha Hb. unfold String.ltb, date_lt.
  rewrite (compare_strftime a b Ha Hb).
  destruct (date_compare a b); split; congruence.
Qed.

(** The handler on ISO dates, by calendar order and weekday. *)
Lemma attendance_post_iso (fault : nat -> bool) (today dt : date)
  (form : list (Z * string)) (d : db) :
  valid_date today -> valid_date dt ->
  attendance_post fault (strftime_ymd today) (Some (strftime_ymd dt)) form d
  = match date_compare today dt with
    | Lt => (d, Flash msg_future "error")
    | _ =>
        if weekday dt =? 6 then (d, Flash msg_sunday "error")
        else
          match execute_all fault 0
                  (attendance_stmts (strftime_ymd dt) form d) d with
          | Some committed =>
              (committed,
               Flash ("Attendance saved for " ++ strftime_ymd dt ++ ".")
                     "success")
          | None => (d, ServerError)
          end
    end.
Proof.
  intros Ht Hd. unfold attendance_post, String.ltb.
  rewrite (compare_strftime today dt Ht Hd), (strptime_strftime dt Hd).
  destruct (date_compare today dt); reflexivity.
Qed.

(** C4: for a valid calendar date given in ISO form, on any valid current
    day, the request is rejected exactly when the date is after the
    current day or is a Sunday; the future-date reason is given exactly
    when the date is after the current day, the Sunday reason exactly when
    it is not but is a Sunday, the two reasons differ, and a rejected
    request leaves the database as it was. *)
Theorem attendance_rejected_iff_future_or_sunday (fault : nat -> bool)
  (today dt : date) (form : list (Z * string)) (d : db) :
  valid_date today -> valid_date dt ->
  let result :=
    attendance_post fault (strftime_ymd today) (Some (strftime_ymd dt)) form d in
  (rejected (snd result) <-> date_lt today dt \/ weekday dt = 6)
  /\ (rejected_with msg_future (snd result) <-> date_lt today dt)
  /\ (rejected_with msg_sunday (snd result)
      <-> ~ date_lt today dt /\ weekday dt = 6)
  /\ msg_future <> msg_sunday
  /\ (rejected (snd result) -> fst result = d).
Proof.
  intros Ht Hd. cbv zeta. rewrite (attendance_post_iso fault today dt form d Ht Hd).
  unfold rejected, rejected_with, date_lt.
  assert (Hne : msg_future <> msg_sunday) by discriminate.
  assert (Hok : forall c msg e,
             snd (match execute_all fault 0
                          (attendance_stmts (strftime_ymd dt) form d) d with
                  | Some committed => (committed, Flash msg "success")
                  | None => (d, ServerError)
                  end) = Flash e "error" -> c).
  { intros c msg e. destruct (execute_all _ _ _ _); discriminate. }
  destruct (date_compare today dt) eqn:Ec;
    destruct (Z.eqb_spec (weekday dt) 6) as [Ew|Ew]; cbn [fst snd];
    (split; [|split; [|split; [|split]]]); try exact Hne;
    try (intros _; reflexivity);
    try (intros [e He]; exfalso; revert He; apply Hok);
    split;
    try (intros _; solve [eauto | reflexivity | split; [discriminate|assumption]]);
    try (intros H; solve [ discriminate H
                         | injection H; intros; congruence
                         | exfalso; revert H; apply Hok
                         | destruct H as [e He]; exfalso; revert He; apply Hok
                         | destruct H as [H|H]; [discriminate H|contradiction]
                         | destruct H as [H1 H2]; try contradiction;
                           exfalso; apply H1; reflexivity
                         | auto ]).
Qed.

Lemma valid_date_example_today : valid_date (mkdate 2026 11 4).
Proof. unfold valid_date; cbn; lia. Qed.

Lemma valid_date_example_sunday : valid_date (mkdate 2025 1 12).
Proof. unfold valid_date; cbn; lia. Qed.

Lemma attendance_rejected_iff_future_or_sunday_witness :
  valid_date (mkdate 2026 11 4)
  /\ valid_date (mkdate 2025 1 12)
  /\ rejected_with msg_sunday
       (snd (attendance_post no_fault "2026-11-04" (Some "2025-01-12"%string)
               [(1, "present"%string)] scenario_db)).
Proof.
  split; [exact valid_date_example_today|].
  split; [exact valid_date_example_sunday|].
  apply (proj1 (proj2 (proj2
           (attendance_rejected_iff_future_or_sunday no_fault
              (mkdate 2026 11 4) (mkdate 2025 1 12) [(1, "present"%string)]
              scenario_db valid_date_example_today
              valid_date_example_sunday)))).
  split; [discriminate|reflexivity].
Defined.

(* ================================================================= *)
(** ** Python dicts *)

Section Dict.
Context {K V : Type}.
Variable eqb : K -> K -> bool.
Hypothesis eqb_eq : forall a b, eqb a b = true <-> a = b.

Lemma dict_get_set (k k' : K) (v : V) (dct : list (K * V)) :
  dict_get eqb k' (dict_set eqb k v dct)
  = if eqb k k' then Some v else dict_get eqb k' dct.
Proof.
  unfold dict_get. induction dct as [|[k0 v0] dct IH]; simpl.
  - destruct (eqb k k'); reflexivity.
  - destruct (eqb k0 k) eqn:E0; simpl.
    + apply eqb_eq in E0. subst k0. destruct (eqb k k'); reflexivity.
    + destruct (eqb k0 k') eqn:E1; simpl.
      * destruct (eqb k k') eqn:E2; [|reflexivity].
        apply eqb_eq in E1, E2. subst. 
        assert (eqb k' k' = true) by now apply eqb_eq. congruence.
      * exact IH.
Qed.
End Dict.

Lemma string_eqb_eq (a b : string) : (a =? b)%string = true <-> a = b.
Proof. apply String.eqb_eq. Qed.

Lemma monthly_pct_lookup (F : Z -> Z * Z) (l : list student) (k : Z) :
  forall mp,
    dict_get Z.eqb k
      (fold_left (fun mp s => dict_set Z.eqb (st_id s) (F (st_id s)) mp) l mp)
    = if existsb (fun s => st_id s =? k) l then Some (F k)
      else dict_get Z.eqb k mp.
Proof.
  induction l as [|s l IH]; intros mp; [reflexivity|].
  simpl fold_left. rewrite IH, (dict_get_set Z.eqb Z.eqb_eq). simpl.
  destruct (existsb (fun s0 => st_id s0 =? k) l); [now rewrite orb_true_r|].
  rewrite orb_false_r.
  destruct (Z.eqb_spec (st_id s) k) as [->|]; reflexivity.
Qed.

(* ================================================================= *)
(** ** The monthly matrix *)

Lemma fold_map_record_none (rs : list attendance_record) :
  fold_left map_record rs None = None.
Proof. induction rs as [|r rs IH]; [reflexivity|exact IH]. Qed.

(** After the loop over the selected records, a cell of the map holds the
    status of the last record for its day and student. *)
Lemma day_status_fold (rs : list attendance_record) :
  forall am am' sid day,
    fold_left map_record rs (Some am) = Some am' ->
    day_status am' sid day
    = match last_status rs day sid with
      | Some v => Some v
      | None => day_status am sid day
      end.
Proof.
  induction rs as [|r rs IH]; intros am am' sid day H.
  - simpl in H. injection H as <-. reflexivity.
  - simpl fold_left in H. cbn [map_record] in H.
    destruct (dict_get String.eqb (ar_date r) am) as [inner|] eqn:E;
      [|rewrite fold_map_record_none in H; discriminate].
    rewrite (IH _ _ sid day H). cbn [last_status].
    destruct (last_status rs day sid); [reflexivity|].
    unfold day_status. rewrite (dict_get_set String.eqb string_eqb_eq).
    unfold on_date, of_student. rewrite (String.eqb_sym (ar_date r) day).
    destruct (String.eqb_spec day (ar_date r)) as [->|Hne]; cbn [andb].
    + rewrite E, (dict_get_set Z.eqb Z.eqb_eq).
      destruct (ar_student_id r =? sid); reflexivity.
    + reflexivity.
Qed.

Lemma day_status_empty (dates : list string) (sid : Z) (day : string) :
  forall am,
    (forall dt, day_status am sid dt = None) ->
    day_status (fold_left (fun am dt => dict_set String.eqb dt [] am) dates am)
               sid day = None.
Proof.
  induction dates as [|dt dates IH]; intros am H; [apply H|].
  simpl fold_left. apply IH. intros dt'. unfold day_status.
  rewrite (dict_get_set String.eqb string_eqb_eq).
  destruct (dt =? dt')%string; [reflexivity|]. apply H.
Qed.

Lemma no_key_no_status (rs : list attendance_record) (day : string) (sid : Z) :
  ~ In (day, sid) (map record_key rs) ->
  last_status rs day sid = None
  /\ forall p, existsb (fun r => on_date day r && of_student sid r
                                 && p (ar_status r)) rs = false.
Proof.
  induction rs as [|r rs IH]; intros H; [now split|].
  simpl in H. apply Decidable.not_or in H. destruct H as [H1 H2].
  destruct (IH H2) as [E1 E2].
  assert (E : on_date day r && of_student sid r = false).
  { unfold on_date, of_student, record_key in *.
    destruct (String.eqb_spec (ar_date r) day) as [e1|]; [|reflexivity].
    destruct (Z.eqb_spec (ar_student_id r) sid) as [e2|]; [|reflexivity].
    exfalso. apply H1. now rewrite e1, e2. }
  split.
  - simpl. now rewrite E1, E.
  - intros p. simpl. now rewrite E, E2.
Qed.

(** With one record per day and student, the last record is the record. *)
Lemma last_status_unique (rs : list attendance_record) (day : string)
  (sid : Z) (p : string -> bool) :
  NoDup (map record_key rs) ->
  match last_status rs day sid with Some v => p v | None => false end
  = existsb (fun r => on_date day r && of_student sid r && p (ar_status r)) rs.
Proof.
  induction rs as [|r rs IH]; intros H; [reflexivity|].
  simpl map in H. inversion H as [|? ? Hn Hd]; subst.
  cbn [last_status existsb].
  destruct (on_date day r && of_student sid r) eqn:E.
  - assert (Hk : record_key r = (day, sid)).
    { unfold on_date, of_student, record_key in *.
      apply andb_true_iff in E. destruct E as [E1 E2].
      apply String.eqb_eq in E1. apply Z.eqb_eq in E2. now rewrite E1, E2. }
    rewrite Hk in Hn. destruct (no_key_no_status rs day sid Hn) as [E1 E2].
    rewrite E1, E2. cbn [andb]. now rewrite orb_false_r.
  - cbn [andb orb]. rewrite <- (IH Hd).
    destruct (last_status rs day sid); reflexivity.
Qed.

Lemma is_present_match (st : option string) :
  is_present st = match st with Some v => status_present v | None => false end.
Proof. reflexivity. Qed.

Lemma is_recorded_match (st : option string) :
  is_recorded st = match st with Some v => status_marked v | None => false end.
Proof. reflexivity. Qed.

Lemma existsb_filter {A} (f g : A -> bool) (l : list A) :
  existsb f (filter g l) = existsb (fun x => g x && f x) l.
Proof.
  induction l as [|x l IH]; simpl; [reflexivity|].
  destruct (g x); simpl; now rewrite IH.
Qed.

Lemma existsb_ext_in {A} (f g : A -> bool) (l : list A) :
  (forall x, In x l -> f x = g x) -> existsb f l = existsb g l.
Proof.
  induction l as [|x l IH]; intros H; simpl; [reflexivity|].
  rewrite (H x), IH by (intros; try apply H; simpl; auto). reflexivity.
Qed.

Lemma leb_strftime (a b : date) :
  valid_date a -> valid_date b -> date_compare a b <> Gt ->
  String.leb (strftime_ymd a) (strftime_ymd b) = true.
Proof.
  intros Ha Hb H. unfold String.leb. rewrite (compare_strftime a b Ha Hb).
  destruct (date_compare a b); congruence.
Qed.

Lemma date_compare_days (y m d1 d2 : Z) :
  d1 <= d2 -> date_compare (mkdate y m d1) (mkdate y m d2) <> Gt.
Proof.
  intros H. unfold date_compare. cbn [year month day].
  rewrite !Z.compare_refl. now apply Z.compare_le_iff.
Qed.

(** Every day of the month lies between the first and the last, as text. *)
Lemma dates_in_month_between (y m : Z) (dt : string) :
  1 <= y <= 9999 -> 1 <= m <= 12 ->
  In dt (dates_in_month y m) ->
  String.leb (hd EmptyString (dates_in_month y m)) dt
  && String.leb dt (last (dates_in_month y m) EmptyString) = true.
Proof.
  intros Hy Hm Hin. unfold dates_in_month in *.
  pose proof (days_in_month_le y m) as Hn.
  destruct (Z.to_nat (days_in_month y m)) as [|n] eqn:En; [lia|].
  apply in_map_iff in Hin. destruct Hin as [k [<- Hk]]. apply in_seq in Hk.
  assert (Hv : forall j, (1 <= j <= S n)%nat ->
                         valid_date (mkdate y m (Z.of_nat j))).
  { intros j Hj. unfold valid_date. cbn [year month day]. lia. }
  apply andb_true_iff. split.
  - cbn [seq map hd]. apply leb_strftime; try apply Hv; try lia.
    apply date_compare_days. lia.
  - rewrite seq_S, map_app. cbn [map]. rewrite last_last.
    apply leb_strftime; try apply Hv; try lia.
    apply date_compare_days. lia.
Qed.

(** A cell of the attendance map against the records of the database. *)
Lemma cell_of_attendance_map (y m : Z) (d : db) (am : attendance_map_t)
  (p : string -> bool) (sid : Z) (dt : string) :
  1 <= y <= 9999 -> 1 <= m <= 12 ->
  one_record_per_day d ->
  fold_left map_record
    (select_between (hd EmptyString (dates_in_month y m))
                    (last (dates_in_month y m) EmptyString) d)
    (Some (fold_left (fun am dt => dict_set String.eqb dt [] am)
                     (dates_in_month y m) []))
  = Some am ->
  In dt (dates_in_month y m) ->
  match day_status am sid dt with Some v => p v | None => false end
  = has_record p d sid dt.
Proof.
  intros Hy Hm Hk Hf Hin.
  rewrite (day_status_fold _ _ _ sid dt Hf).
  rewrite day_status_empty by reflexivity.
  assert (E : match last_status
                      (select_between (hd EmptyString (dates_in_month y m))
                         (last (dates_in_month y m) EmptyString) d) dt sid with
              | Some v => Some v
              | None => None
              end
              = last_status
                  (select_between (hd EmptyString (dates_in_month y m))
                     (last (dates_in_month y m) EmptyString) d) dt sid)
    by (destruct (last_status _ dt sid); reflexivity).
  rewrite E, last_status_unique
    by (unfold select_between; now apply NoDup_map_filter).
  unfold select_between, has_record. rewrite existsb_filter.
  apply existsb_ext_in. intros r _.
  destruct (on_date dt r) eqn:Ed; cbn [andb]; [|apply andb_false_r].
  unfold on_date in Ed. apply String.eqb_eq in Ed. rewrite Ed.
  now rewrite (dates_in_month_between y m dt Hy Hm Hin).
Qed.

(** C9, as the code has it: for a year from 1000 on (where every C
    library prints [%Y] in four digits), whenever the report is produced
    over records that hold one row per (date, student), the first count
    of a student is the number of days of the month with a 'present'
    record of the student, and the second the number of days with a
    record of the student whose status is 'present' or 'absent'; a day
    without a record of the student adds to neither. *)
Theorem monthly_matrix_counts (y m : Z) (d : db) (rep : report) :
  1000 <= y ->
  one_record_per_day d ->
  attendance_report y m d = Some rep ->
  rep_dates rep = dates_in_month y m
  /\ Forall (fun s =>
               dict_get Z.eqb (st_id s) (rep_monthly_pct rep)
               = Some (count (has_record status_present d (st_id s))
                             (dates_in_month y m),
                       count (has_record status_marked d (st_id s))
                             (dates_in_month y m)))
            (students d)
  /\ (forall sid dt,
         has_record any_status d sid dt = false ->
         has_record status_present d sid dt = false
         /\ has_record status_marked d sid dt = false).
Proof.
  intros _ Hk H. unfold attendance_report in H.
  destruct ((1 <=? y) && (y <=? 9999) && (1 <=? m) && (m <=? 12)) eqn:Hr;
    [|discriminate]. cbn [negb] in H.
  rewrite !andb_true_iff, !Z.leb_le in Hr.
  destruct Hr as [[[Hy1 Hy2] Hm1] Hm2].
  destruct (fold_left map_record _ _) as [am|] eqn:Hf; [|discriminate].
  injection H as <-. cbn [rep_dates rep_monthly_pct].
  split; [reflexivity|]. split.
  - apply Forall_forall. intros s Hs.
    rewrite (monthly_pct_lookup
               (fun id => (count_days is_present am id (dates_in_month y m),
                           count_days is_recorded am id (dates_in_month y m)))).
    assert (Hex : existsb (fun s0 => st_id s0 =? st_id s) (select_students d)
                  = true).
    { apply existsb_exists. exists s. split; [|apply Z.eqb_refl].
      eapply Permutation_in; [apply Permutation_sym, select_students_perm|].
      exact Hs. }
    rewrite Hex. f_equal. unfold count_days, count.
    f_equal; f_equal; f_equal; apply filter_ext_in; intros dt Hdt.
    + rewrite is_present_match.
      apply (cell_of_attendance_map y m d am); auto; lia.
    + rewrite is_recorded_match.
      apply (cell_of_attendance_map y m d am); auto; lia.
  - intros sid dt Hnone. unfold has_record in *.
    assert (Hall : forall r, In r (attendance_records d) ->
                     on_date dt r && of_student sid r = false).
    { intros r Hr.
      destruct (on_date dt r && of_student sid r) eqn:E; [|reflexivity].
      assert (Hcon : existsb (fun r0 => on_date dt r0 && of_student sid r0
                                        && any_status (ar_status r0))
                             (attendance_records d) = true).
      { apply existsb_exists. exists r. split; [exact Hr|].
        now rewrite E. }
      congruence. }
    split; rewrite <- Hnone; apply existsb_ext_in; intros r Hr;
      now rewrite (Hall r Hr).
Qed.

Lemma one_record_per_day_scenario : one_record_per_day scenario_db.
Proof.
  unfold one_record_per_day, scenario_db; cbn.
  repeat (constructor; [cbn; intuition discriminate|]). constructor.
Qed.

Lemma monthly_matrix_counts_witness :
  1000 <= 2025
  /\ one_record_per_day scenario_db
  /\ attendance_report 2025 1 scenario_db = Some scenario_report
  /\ dict_get Z.eqb 1 (rep_monthly_pct scenario_report) = Some (3, 4).
Proof.
  assert (H0 : 1000 <= 2025) by lia.
  split; [exact H0|].
  split; [exact one_record_per_day_scenario|]. split; [reflexivity|].
  exact (Forall_inv
           (proj1 (proj2 (monthly_matrix_counts 2025 1 scenario_db
                            scenario_report H0 one_record_per_day_scenario
                            eq_refl)))).
Defined.

(** The matrix over a record whose status is neither 'present' nor
    'absent': the day has a record, yet the second count leaves it out. *)
Lemma monthly_counts_any_status_fails :
  ~ monthly_counts_any_status 2025 1 late_db.
Proof.
  unfold monthly_counts_any_status. intros H.
  remember (attendance_report 2025 1 late_db) as o eqn:E.
  vm_compute in E. subst o. specialize (H _ eq_refl).
  vm_compute in H. apply Forall_inv in H. discriminate H.
Qed.

(** A stored date that is not a day of the month but sorts inside it makes
    the report raise [KeyError]. *)
Lemma report_raises_on_unlisted_date :
  attendance_report 2025 1
    (run [PostAttendance no_fault "2026-11-04" (Some "2025-01-1"%string) []]
         late_db) = None.
Proof. vm_compute. reflexivity. Qed.

(* ================================================================= *)
(** ** The calendar behind [weekday] *)

Lemma days_before_month_succ (y m : Z) :
  1 <= m < 12 ->
  days_before_month y (m + 1) = days_before_month y m + days_in_month y m.
Proof.
  intros H.
  assert (I : In m (map (fun k => 1 + Z.of_nat k) (seq 0 11)))
    by (apply in_range; lia).
  clear H. unfold days_before_month, days_in_month.
  each_of I; destruct (is_leap y); reflexivity.
Qed.

Lemma days_before_year_succ (y : Z) :
  1 <= y ->
  days_before_year (y + 1)
  = days_before_year y + (if is_leap y then 366 else 365).
Proof.
  intros H. unfold days_before_year, is_leap.
  replace (y + 1 - 1) with y by lia.
  destruct (Z.eqb_spec (y mod 4) 0); destruct (Z.eqb_spec (y mod 100) 0);
    destruct (Z.eqb_spec (y mod 400) 0); cbn [andb orb negb];
    Z.to_euclidean_division_equations; lia.
Qed.

Lemma days_in_december (y : Z) :
  days_before_month y 12 + 31 = (if is_leap y then 366 else 365).
Proof.
  unfold days_before_month. destruct (is_leap y); reflexivity.
Qed.

(** [toordinal] numbers the days of the calendar one after the other. *)
Lemma toordinal_next_day (d : date) :
  valid_date d -> toordinal (next_day d) = toordinal d + 1.
Proof.
  intros (Hy & Hm & Hd). unfold next_day, toordinal.
  destruct (Z.ltb_spec (day d) (days_in_month (year d) (month d))) as [H|H];
    cbn [year month day]; [lia|].
  destruct (Z.ltb_spec (month d) 12) as [H'|H']; cbn [year month day].
  - rewrite days_before_month_succ by lia. lia.
  - assert (E : month d = 12) by lia.
    rewrite days_before_year_succ by lia.
    pose proof (days_in_december (year d)) as D.
    rewrite E in *. unfold days_in_month in H, Hd. cbn in H, Hd.
    change (days_before_month (year d + 1) 1) with 0.
    lia.
Qed.

(** The weekday advances by one from a day to the next, and the days
    named here fall where the calendar has them. *)
Lemma weekday_next_day (d : date) :
  valid_date d -> weekday (next_day d) = (weekday d + 1) mod 7.
Proof.
  intros H. unfold weekday. rewrite (toordinal_next_day d H).
  rewrite Zplus_mod_idemp_l. f_equal. lia.
Qed.

Lemma weekday_examples :
  weekday (mkdate 1 1 1) = 0
  /\ weekday (mkdate 2025 1 5) = 6
  /\ weekday (mkdate 2025 1 10) = 4
  /\ weekday (mkdate 2026 11 4) = 2.
Proof. repeat split; reflexivity. Qed.


(* ================================================================= *)
(** ** What the handlers do to the students table *)

Lemma identity_of_add_counters (f g : Z -> Z) (l : list student) :
  map identity_of (map (fun s => add_counters (f (st_id s)) (g (st_id s)) s) l)
  = map identity_of l.
Proof. rewrite map_map. now apply map_ext. Qed.

Lemma marks_post_identities (form : list (Z * string)) (d : db) :
  map identity_of (students (fst (marks_post form d)))
  = map identity_of (students d)
  /\ seq_students (fst (marks_post form d)) = seq_students d.
Proof.
  unfold marks_post. cbn [fst]. split.
  - rewrite marks_fold_students, map_map. apply map_ext. intros s.
    now destruct (existsb _ _).
  - destruct (marks_fold form (select_students d) d) as (h & _ & _ & _ & E).
    exact E.
Qed.

(** A property of the database holds after a request as soon as the four
    ways a request changes it keep it: inserting a student, deleting one,
    committing a day, and writing the marks. *)
Lemma handle_keeps_each (P : db -> Prop) :
  (forall roll_no name semester d d',
      insert_student roll_no name semester d = Some d' -> P d -> P d') ->
  (forall id d, P d -> P (fst (delete_student id d))) ->
  (forall D form d, P d -> P (apply_day D form d)) ->
  (forall form d, P d -> P (fst (marks_post form d))) ->
  forall r d, P d -> P (fst (handle r d)).
Proof.
  intros Hins Hdel Hday Hmarks r d H.
  destruct r as [roll name sem|id|fault today df form|form|sample];
    simpl handle.
  - unfold students_post.
    destruct (validate_roll_number (strip roll)) as [valid msg].
    destruct valid; simpl; [|exact H].
    destruct (py_int sem) as [n|]; [|exact H].
    destruct ((n <? 1) || (8 <? n)); [exact H|].
    destruct (truthy (strip name)); simpl; [|exact H].
    destruct (insert_student (upper (strip roll)) (strip name) n d) eqn:E;
      simpl; [|exact H].
    exact (Hins _ _ _ _ _ E H).
  - now apply Hdel.
  - destruct (attendance_post_cases fault today df form d) as [E|E];
      rewrite E; [exact H|]. now apply Hday.
  - now apply Hmarks.
  - unfold ai_generate_sample.
    assert (G : forall acc : db * nat, P (fst acc) ->
              P (fst (fold_left (fun (acc : db * nat) row =>
                 match row with
                 | (roll_no, name, semester) =>
                     match insert_student roll_no name semester (fst acc) with
                     | Some acc' => (acc', S (snd acc))
                     | None => acc
                     end
                 end) sample acc))).
    { induction sample as [|[[r n] sem] sample IH]; intros acc Ha; [exact Ha|].
      simpl fold_left. apply IH.
      destruct (insert_student r n sem (fst acc)) eqn:E; [|exact Ha].
      simpl. exact (Hins _ _ _ _ _ E Ha). }
    specialize (G (d, O) H).
    destruct (fold_left _ sample (d, O)) as [d' added]. exact G.
Qed.

(** The same for a property that only reads who the rows are. *)
Lemma handle_keeps (P : db -> Prop) :
  (forall d d',
      map identity_of (students d') = map identity_of (students d) ->
      seq_students d' = seq_students d -> P d -> P d') ->
  (forall roll_no name semester d d',
      insert_student roll_no name semester d = Some d' -> P d -> P d') ->
  (forall id d, P d -> P (fst (delete_student id d))) ->
  forall r d, P d -> P (fst (handle r d)).
Proof.
  intros Hsame Hins Hdel. apply handle_keeps_each; auto.
  - intros D form d H.
    apply (Hsame d); [|apply seq_students_fold_execute|exact H].
    rewrite apply_day_students. apply identity_of_add_counters.
  - intros form d H. destruct (marks_post_identities form d) as [E1 E2].
    exact (Hsame d _ E1 E2 H).
Qed.

Lemma run_keeps (P : db -> Prop) :
  (forall r d, P d -> P (fst (handle r d))) ->
  forall rs d, P d -> P (run rs d).
Proof.
  intros Hstep rs. induction rs as [|r rs IH]; intros d H; [exact H|].
  unfold run. simpl fold_left. apply IH. now apply Hstep.
Qed.

Lemma roll_of_identity (l l' : list student) :
  map identity_of l' = map identity_of l ->
  map st_roll_no l' = map st_roll_no l.
Proof.
  intros E.
  assert (H : forall k : list student,
             map st_roll_no k = map (fun i => snd (fst (fst i)))
                                    (map identity_of k)).
  { intros k. rewrite map_map. now apply map_ext. }
  now rewrite (H l'), (H l), E.
Qed.

Lemma id_of_identity (l l' : list student) :
  map identity_of l' = map identity_of l ->
  map st_id l' = map st_id l.
Proof.
  intros E.
  assert (H : forall k : list student,
             map st_id k = map (fun i => fst (fst (fst i)))
                               (map identity_of k)).
  { intros k. rewrite map_map. now apply map_ext. }
  now rewrite (H l'), (H l), E.
Qed.

(** X1: roll numbers stay pairwise distinct. *)
Theorem roll_numbers_stay_unique (rs : list request) :
  NoDup (map st_roll_no (students (run rs init_db))).
Proof.
  apply (run_keeps (fun d => NoDup (map st_roll_no (students d)))).
  - apply handle_keeps.
    + intros d d' E _ H. now rewrite (roll_of_identity _ _ E).
    + intros roll name sem d d'. unfold insert_student.
      destruct (existsb _ (students d)) eqn:Ex; [discriminate|].
      intros E H. injection E as <-. cbn [students]. rewrite map_app.
      apply NoDup_app; [exact H|repeat constructor; intros []|].
      intros r Hr [<-|[]].
      apply in_map_iff in Hr. destruct Hr as [s [Es Hs]].
      assert (Hc : existsb (fun s0 => (st_roll_no s0 =? roll)%string)
                           (students d) = true).
      { apply existsb_exists. exists s. split; [exact Hs|].
        now apply String.eqb_eq. }
      congruence.
    + intros id d H. unfold delete_student. cbn.
      now apply NoDup_map_filter.
  - constructor.
Qed.

(** X2: ids are never handed out twice.  After any requests, from any
    database, the sequence has not gone back, and every student row is a
    row that was there before (same id, roll number, name and semester) or
    carries an id above every value the sequence had reached. *)
Theorem student_ids_are_never_reused (rs : list request) (d : db) :
  evolves d (run rs d).
Proof.
  apply (run_keeps (evolves d)).
  - apply handle_keeps.
    + intros d1 d2 E Eq [Hq H]. split; [lia|]. intros s' Hs'.
      assert (Hin : In (identity_of s') (map identity_of (students d1)))
        by (rewrite <- E; now apply in_map).
      apply in_map_iff in Hin. destruct Hin as [s [Es Hs]].
      destruct (H s Hs) as [Hold|Hnew].
      * left. now rewrite <- Es.
      * right. assert (st_id s' = st_id s)
          by (unfold identity_of in Es; congruence). lia.
    + intros roll name sem d1 d2. unfold insert_student.
      destruct (existsb _ (students d1)); [discriminate|].
      intros E [Hq H]. injection E as <-. unfold evolves.
      cbn [students seq_students].
      split; [lia|]. intros s' Hs'. apply in_app_or in Hs'.
      destruct Hs' as [Hs'|[<-|[]]].
      * destruct (H s' Hs') as [Hold|Hnew]; [now left|right; lia].
      * right. cbn [st_id]. lia.
    + intros id d1 [Hq H]. unfold delete_student. cbn. split; [exact Hq|].
      intros s' Hs'. apply filter_In in Hs'. now apply H.
  - split; [lia|]. intros s' Hs'. left. now apply in_map.
Qed.

(* ================================================================= *)
(** ** Marks in the table *)

Lemma marks_in_range_insert (roll_no name : string) (semester : Z)
  (d d' : db) :
  insert_student roll_no name semester d = Some d' ->
  Forall marks_in_range (students d) -> Forall marks_in_range (students d').
Proof.
  unfold insert_student. destruct (existsb _ (students d)); [discriminate|].
  intros E H. injection E as <-. cbn [students].
  apply Forall_app. split; [exact H|]. constructor; [|constructor].
  exists 0%Q. split; [reflexivity|lra].
Qed.

(** X3: the marks column only ever holds numbers of [0, 100]. *)
Theorem marks_stay_in_range (rs : list request) :
  Forall marks_in_range (students (run rs init_db)).
Proof.
  apply (run_keeps (fun d => Forall marks_in_range (students d))).
  - apply handle_keeps_each.
    + exact marks_in_range_insert.
    + intros id d H. unfold delete_student. cbn.
      apply Forall_forall. intros s Hs. apply filter_In in Hs.
      rewrite Forall_forall in H. now apply H.
    + intros D form d H. rewrite apply_day_students. apply Forall_map.
      rewrite Forall_forall in H |- *. intros s Hs. exact (H s Hs).
    + intros form d H. unfold marks_post. cbn [fst].
      rewrite marks_fold_students. apply Forall_map.
      rewrite Forall_forall in H |- *. intros s Hs.
      destruct (existsb _ _); [|exact (H s Hs)].
      apply marks_val_range.
  - constructor.
Qed.

(* ================================================================= *)
(** ** Deleting and marking on a reachable database *)

Lemma filter_all {A} (p : A -> bool) (l : list A) :
  (forall x, In x l -> p x = true) -> filter p l = l.
Proof.
  induction l as [|x l IH]; intros H; simpl; [reflexivity|].
  rewrite (H x) by (simpl; auto). f_equal. apply IH.
  intros y Hy. apply H. simpl. auto.
Qed.

(** X4: deleting an id no student has changes nothing: in a database the
    handlers reach, no record is left that names such an id. *)
Theorem delete_unknown_student_is_noop (rs : list request) (id : Z) :
  ~ In id (map st_id (students (run rs init_db))) ->
  fst (delete_student id (run rs init_db)) = run rs init_db.
Proof.
  intros Hid.
  destruct (consistent_run rs init_db consistent_init) as (_ & _ & _ & _ & Hin).
  rewrite Forall_forall in Hin.
  destruct (run rs init_db) as [sts recs sq1 sq2] eqn:E.
  unfold delete_student, with_students, with_records. cbn in *.
  f_equal.
  - apply filter_all. intros s Hs. apply negb_true_iff, Z.eqb_neq.
    intros e. apply Hid. rewrite <- e. now apply in_map.
  - apply filter_all. intros r Hr. apply negb_true_iff, Z.eqb_neq.
    intros e. apply Hid. rewrite <- e. now apply Hin.
Qed.

Lemma delete_unknown_student_is_noop_witness :
  ~ In 7 (map st_id (students late_db))
  /\ fst (delete_student 7 late_db) = late_db.
Proof.
  assert (H : ~ In 7 (map st_id (students late_db)))
    by (cbn; intros [e|[]]; discriminate e).
  split; [exact H|].
  exact (delete_unknown_student_is_noop
           [PostStudents "CS1" "A" "1";
            PostAttendance no_fault "2026-11-04" (Some "2025-01-10"%string)
              [(1, "late"%string)]] 7 H).
Defined.

Lemma count_perm {A} (p : A -> bool) (l l' : list A) :
  Permutation l l' -> count p l = count p l'.
Proof.
  induction 1 as [|x l l' _ IH|x y l|l l' l'' _ IH1 _ IH2].
  - reflexivity.
  - now rewrite !count_cons, IH.
  - rewrite !count_cons. lia.
  - congruence.
Qed.

Lemma count_zero_existsb {A} (p : A -> bool) (l : list A) :
  existsb p l = false -> count p l = 0.
Proof.
  induction l as [|x l IH]; [reflexivity|]. simpl. rewrite count_cons.
  destruct (p x); [discriminate|]. intros H. rewrite (IH H). reflexivity.
Qed.

(** With distinct keys, the rows under a key that pass a test are one or
    none. *)
Lemma count_under_key {A K} (key : A -> K) (eqb : K -> K -> bool)
  (eqb_eq : forall a b, eqb a b = true <-> a = b)
  (p : A -> bool) (k : K) (l : list A) :
  NoDup (map key l) ->
  count (fun x => eqb (key x) k && p x) l
  = if existsb (fun x => eqb (key x) k && p x) l then 1 else 0.
Proof.
  induction l as [|x l IH]; intros H; [reflexivity|].
  simpl map in H. inversion H as [|? ? Hn Hd]; subst.
  rewrite count_cons. cbn [existsb].
  destruct (eqb (key x) k) eqn:E; cbn [andb orb].
  - apply eqb_eq in E.
    assert (Hz : existsb (fun y => eqb (key y) k && p y) l = false).
    { destruct (existsb _ l) eqn:Hex; [|reflexivity].
      apply existsb_exists in Hex. destruct Hex as [y [Hy Ey]].
      apply andb_true_iff in Ey. destruct Ey as [Ey _]. apply eqb_eq in Ey.
      exfalso. apply Hn. rewrite E, <- Ey. now apply in_map. }
    rewrite (count_zero_existsb _ _ Hz), Hz.
    destruct (p x); reflexivity.
  - rewrite (IH Hd). reflexivity.
Qed.

Lemma key_eqb_eq (a b : string * Z) :
  (fst a =? fst b)%string && (snd a =? snd b) = true <-> a = b.
Proof.
  destruct a as [a1 a2], b as [b1 b2]. cbn [fst snd].
  rewrite andb_true_iff, String.eqb_eq, Z.eqb_eq. split.
  - intros [-> ->]. reflexivity.
  - intros E. injection E as -> ->. now split.
Qed.

(** On a day, a student has one record or none. *)
Lemma count_day_records (D : string) (id : Z) (p : string -> bool) (d : db) :
  one_record_per_day d ->
  count (fun r => on_date D r && of_student id r && p (ar_status r))
        (attendance_records d)
  = if has_record p d id D then 1 else 0.
Proof.
  intros H.
  exact (count_under_key record_key
           (fun a b => (fst a =? fst b)%string && (snd a =? snd b))
           key_eqb_eq (fun r => p (ar_status r)) (D, id)
           (attendance_records d) H).
Qed.

Lemma count_own_id (l : list student) (s : student) :
  NoDup (map st_id l) -> In s l ->
  count (fun x => st_id x =? st_id s) l = 1.
Proof.
  intros Hn Hs.
  pose proof (count_under_key st_id Z.eqb Z.eqb_eq (fun _ => true)
                (st_id s) l Hn) as C.
  cbv beta in C.
  assert (Hex : existsb (fun x => (st_id x =? st_id s) && true) l = true).
  { apply existsb_exists. exists s. split; [exact Hs|].
    now rewrite Z.eqb_refl. }
  rewrite Hex in C. rewrite <- C. apply count_ext. intros x _.
  now rewrite andb_true_r.
Qed.

(** A success message comes from the commit and from nowhere else. *)
Lemma attendance_post_success (fault : nat -> bool) (today_str : string)
  (date_field : option string) (form : list (Z * string)) (d d' : db)
  (msg : string) :
  attendance_post fault today_str date_field form d
  = (d', Flash msg "success") ->
  d' = apply_day (match date_field with Some v => v | None => today_str end)
                 form d.
Proof.
  unfold attendance_post.
  set (D := match date_field with Some v => v | None => today_str end).
  destruct (String.ltb today_str D); [discriminate|].
  destruct (match strptime D with
            | Some dt => weekday dt =? 6
            | None => false
            end); [discriminate|].
  destruct (execute_all_cases fault (attendance_stmts D form d) 0 d) as [E|E];
    rewrite E; [|discriminate].
  intros H. injection H as <- _. reflexivity.
Qed.

(** X5: on a database the handlers reach, a committed day gives every
    student one more class unless the student already had a record that
    day (an edit), and moves the presences by the new status against the
    old one; nothing else of the row changes. *)
Theorem committed_day_moves_counters (rs : list request) (fault : nat -> bool)
  (today_str : string) (date_field : option string)
  (form : list (Z * string)) (d' : db) (msg : string) :
  attendance_post fault today_str date_field form (run rs init_db)
  = (d', Flash msg "success") ->
  students d'
  = map (day_effect
           (match date_field with Some v => v | None => today_str end)
           form (run rs init_db))
        (students (run rs init_db)).
Proof.
  intros H. apply attendance_post_success in H. subst d'.
  set (D := match date_field with Some v => v | None => today_str end).
  destruct (consistent_run rs init_db consistent_init) as (_ & Hk & Hn & _).
  set (d := run rs init_db) in *.
  rewrite apply_day_students. apply map_ext_in. intros s Hs.
  unfold day_effect.
  rewrite delta_classes_attendance, delta_attendance_attendance.
  rewrite (count_perm _ _ _ (select_students_perm d)).
  rewrite (count_perm (fun x => st_id x =? st_id s) _ _
             (select_students_perm d)).
  rewrite (count_own_id _ s Hn Hs).
  assert (E1 : count (fun r => on_date D r && of_student (st_id s) r)
                     (attendance_records d)
               = if has_record any_status d (st_id s) D then 1 else 0).
  { rewrite <- (count_day_records D (st_id s) any_status d Hk).
    apply count_ext. intros r _. unfold any_status. now rewrite andb_true_r. }
  assert (E2 : count (fun r => on_date D r && present_of (st_id s) r)
                     (attendance_records d)
               = if has_record status_present d (st_id s) D then 1 else 0).
  { rewrite <- (count_day_records D (st_id s) status_present d Hk).
    apply count_ext. intros r _. unfold present_of, status_present.
    now rewrite andb_assoc. }
  assert (E3 : count (fun x => (st_id x =? st_id s)
                               && (form_status form x =? "present")%string)
                     (students d)
               = if (form_status form s =? "present")%string then 1 else 0).
  { rewrite <- (count_own_id _ s Hn Hs).
    destruct (form_status form s =? "present")%string eqn:Ef.
    - apply count_ext. intros x _. unfold form_status in *.
      destruct (Z.eqb_spec (st_id x) (st_id s)) as [e|]; [|reflexivity].
      now rewrite e, Ef.
    - apply count_zero_existsb.
      destruct (existsb _ (students d)) eqn:Hex; [|reflexivity].
      apply existsb_exists in Hex. destruct Hex as [x [_ Ex]].
      apply andb_true_iff in Ex. destruct Ex as [Ex1 Ex2].
      apply Z.eqb_eq in Ex1. unfold form_status in *.
      rewrite Ex1 in Ex2. congruence. }
  rewrite E1, E2, E3.
  destruct (has_record any_status d (st_id s) D); reflexivity.
Qed.

Lemma committed_day_moves_counters_witness :
  attendance_post no_fault "2026-11-04" (Some "2025-01-10"%string)
    [(1, "present"%string)] late_db
  = (apply_day "2025-01-10" [(1, "present"%string)] late_db,
     Flash "Attendance saved for 2025-01-10." "success")
  /\ students (apply_day "2025-01-10" [(1, "present"%string)] late_db)
     = map (day_effect "2025-01-10" [(1, "present"%string)] late_db)
           (students late_db).
Proof.
  split; [reflexivity|].
  exact (committed_day_moves_counters
           [PostStudents "CS1" "A" "1";
            PostAttendance no_fault "2026-11-04" (Some "2025-01-10"%string)
              [(1, "late"%string)]]
           no_fault "2026-11-04" (Some "2025-01-10"%string)
           [(1, "present"%string)]
           (apply_day "2025-01-10" [(1, "present"%string)] late_db)
           "Attendance saved for 2025-01-10." eq_refl).
Defined.

(* ================================================================= *)
(** ** The attendance page *)

Lemma compare_refl (s : string) : String.compare s s = Eq.
Proof.
  induction s as [|c s IH]; [reflexivity|]. simpl.
  unfold Ascii.compare. now rewrite N.compare_refl.
Qed.

Lemma ltb_irrefl (s : string) : String.ltb s s = false.
Proof. unfold String.ltb. now rewrite compare_refl. Qed.

Lemma leb_of_ltb_false (a b : string) :
  String.ltb b a = false -> String.leb a b = true.
Proof.
  unfold String.leb, String.ltb. rewrite (String.compare_antisym b a).
  destruct (String.compare a b); simpl; congruence.
Qed.

(** The date the page settles on is never after today. *)
Lemma selected_date_not_future (today : string) (date_arg edit_arg : option string)
  (d : db) :
  String.ltb today (selected_date (attendance_get today date_arg edit_arg d))
  = false.
Proof.
  unfold attendance_get. cbn [selected_date].
  set (requested := match date_arg with Some v => v | None => today end).
  destruct (String.ltb today requested) eqn:E; [apply ltb_irrefl|exact E].
Qed.

(** A dict built from rows whose value is a function of the key. *)
Lemma dict_of_rows_lookup {A V} (key : A -> Z) (F : Z -> V) (l : list A)
  (k : Z) :
  forall dct,
    dict_get Z.eqb k
      (fold_left (fun dct r => dict_set Z.eqb (fst r) (snd r) dct)
                 (map (fun x => (key x, F (key x))) l) dct)
    = if existsb (fun x => key x =? k) l then Some (F k)
      else dict_get Z.eqb k dct.
Proof.
  induction l as [|x l IH]; intros dct; [reflexivity|].
  simpl. rewrite IH, (dict_get_set Z.eqb Z.eqb_eq).
  destruct (existsb (fun x0 => key x0 =? k) l); [now rewrite orb_true_r|].
  rewrite orb_false_r.
  destruct (Z.eqb_spec (key x) k) as [->|]; reflexivity.
Qed.

Lemma filter_on_date_new_records (D : string) (form : list (Z * string))
  (l : list student) :
  forall sq,
    filter (fun r => (ar_date r =? D)%string) (new_records D form l sq)
    = new_records D form l sq.
Proof.
  induction l as [|s l IH]; intros sq; simpl; [reflexivity|].
  now rewrite String.eqb_refl, IH.
Qed.

Lemma filter_contradiction {A} (p : A -> bool) (l : list A) :
  filter p (filter (fun x => negb (p x)) l) = [].
Proof.
  induction l as [|x l IH]; simpl; [reflexivity|].
  destruct (p x) eqn:E; simpl; [exact IH|]. now rewrite E.
Qed.

(** The day's rows after a commit are the rows the commit inserted. *)
Lemma select_existing_apply_day (D : string) (form : list (Z * string))
  (d : db) :
  select_existing D (apply_day D form d)
  = map (fun s => (st_id s, form_get Z.eqb form (st_id s) "absent"))
        (select_students d).
Proof.
  unfold select_existing. rewrite apply_day_records, filter_app.
  rewrite (filter_contradiction (fun r => (ar_date r =? D)%string)).
  rewrite filter_on_date_new_records. cbn [app].
  generalize (seq_records d).
  induction (select_students d) as [|s l IH]; intros sq; simpl;
    [reflexivity|].
  now rewrite IH.
Qed.

(** X6: what is saved is what the page shows again.  After a committed
    POST for a day, the GET of that day (same current day) settles on that
    day, says attendance was taken as soon as there is a student, and
    pre-fills every student with the status the POST read for it, and
    nobody else. *)
Theorem saved_day_is_shown_again (fault : nat -> bool) (today_str : string)
  (date_field edit_arg : option string) (form : list (Z * string))
  (d d' : db) (msg : string) :
  attendance_post fault today_str date_field form d
  = (d', Flash msg "success") ->
  let view := attendance_get today_str date_field edit_arg d' in
  selected_date view
  = match date_field with Some v => v | None => today_str end
  /\ attendance_taken_for_date view
     = negb (Nat.eqb (List.length (students d)) 0)
  /\ forall k,
       dict_get Z.eqb k (existing_attendance view)
       = if existsb (fun s => st_id s =? k) (students d)
         then Some (form_get Z.eqb form k "absent") else None.
Proof.
  intros H. pose proof (attendance_post_success _ _ _ _ _ _ _ H) as E.
  set (D := match date_field with Some v => v | None => today_str end) in *.
  assert (Hgate : String.ltb today_str D = false).
  { unfold attendance_post in H. fold D in H.
    destruct (String.ltb today_str D); [discriminate|reflexivity]. }
  cbv zeta. unfold attendance_get. fold D. rewrite Hgate.
  cbn [selected_date attendance_taken_for_date existing_attendance].
  split; [reflexivity|].
  assert (Hlen : List.length
                   (filter (fun r => (ar_date r =? D)%string)
                           (attendance_records d'))
                 = List.length (students d)).
  { pose proof (select_existing_apply_day D form d) as Hsel.
    unfold select_existing in Hsel. rewrite <- E in Hsel.
    apply (f_equal (@List.length _)) in Hsel.
    rewrite !length_map in Hsel. rewrite Hsel.
    apply Permutation_length, select_students_perm. }
  rewrite Hlen. split.
  - destruct (List.length (students d)); reflexivity.
  - intros k.
    assert (Hex : existsb (fun s => st_id s =? k) (select_students d)
                  = existsb (fun s => st_id s =? k) (students d)).
    { destruct (existsb _ (students d)) eqn:Ex.
      - apply existsb_exists in Ex. destruct Ex as [s [Hs Es]].
        apply existsb_exists. exists s. split; [|exact Es].
        eapply Permutation_in; [apply Permutation_sym, select_students_perm|].
        exact Hs.
      - destruct (existsb _ (select_students d)) eqn:Ex'; [|reflexivity].
        apply existsb_exists in Ex'. destruct Ex' as [s [Hs Es]].
        assert (Hc : existsb (fun s => st_id s =? k) (students d) = true).
        { apply existsb_exists. exists s. split; [|exact Es].
          eapply Permutation_in; [apply select_students_perm|exact Hs]. }
        congruence. }
    destruct (List.length (students d)) as [|n] eqn:El.
    + destruct (students d); [reflexivity|discriminate].
    + cbn [Z.of_nat Z.ltb Z.compare]. rewrite E, select_existing_apply_day.
      rewrite (dict_of_rows_lookup st_id
                 (fun id => form_get Z.eqb form id "absent")).
      now rewrite Hex.
Qed.

Lemma saved_day_is_shown_again_witness :
  attendance_post no_fault "2026-11-04" (Some "2025-01-10"%string)
    [(1, "present"%string)] late_db
  = (apply_day "2025-01-10" [(1, "present"%string)] late_db,
     Flash "Attendance saved for 2025-01-10." "success")
  /\ dict_get Z.eqb 1
       (existing_attendance
          (attendance_get "2026-11-04" (Some "2025-01-10"%string) None
             (apply_day "2025-01-10" [(1, "present"%string)] late_db)))
     = Some "present"%string.
Proof.
  split; [reflexivity|].
  exact (proj2 (proj2
           (saved_day_is_shown_again no_fault "2026-11-04"
              (Some "2025-01-10"%string) None [(1, "present"%string)]
              late_db _ "Attendance saved for 2025-01-10." eq_refl)) 1).
Defined.

(** X7: the page and the POST agree on Sundays.  Whatever date the query
    asks for, the date the page settles on is not after today, and
    posting attendance for it is refused exactly when the page flags it as
    a Sunday, always with the Sunday reason. *)
Theorem shown_date_is_refused_iff_flagged (fault : nat -> bool)
  (today_str : string) (date_arg edit_arg : option string)
  (form : list (Z * string)) (d : db) :
  let view := attendance_get today_str date_arg edit_arg d in
  let answer :=
    snd (attendance_post fault today_str (Some (selected_date view)) form d) in
  String.leb (selected_date view) today_str = true
  /\ (rejected answer <-> is_sunday view = true)
  /\ (rejected answer -> rejected_with msg_sunday answer).
Proof.
  cbv zeta.
  pose proof (selected_date_not_future today_str date_arg edit_arg d) as Hs.
  assert (Hsun : is_sunday (attendance_get today_str date_arg edit_arg d)
                 = match strptime (selected_date
                                     (attendance_get today_str date_arg
                                        edit_arg d)) with
                   | Some dt => weekday dt =? 6
                   | None => false
                   end) by reflexivity.
  rewrite Hsun.
  set (sel := selected_date (attendance_get today_str date_arg edit_arg d))
    in *.
  split; [now apply leb_of_ltb_false|].
  unfold attendance_post. rewrite Hs.
  destruct (match strptime sel with
            | Some dt => weekday dt =? 6
            | None => false
            end).
  - cbn [snd]. split; [split; [reflexivity|]|reflexivity].
    intros _. exists msg_sunday. reflexivity.
  - assert (Hn : forall c msg,
               ~ rejected
                   (snd match execute_all fault 0
                                (attendance_stmts sel form d) d with
                        | Some committed => (committed, Flash msg "success")
                        | None => (c, ServerError)
                        end)).
    { intros c msg [reason Hr]. unfold rejected_with in Hr.
      destruct (execute_all _ _ _ _); discriminate. }
    split; [split; [intros Hr; now apply Hn in Hr|discriminate]|].
    intros Hr. now apply Hn in Hr.
Qed.

(* ================================================================= *)
(** ** Remarks *)

Lemma fge_finite (x t : Q) :
  fge (Finite x) (Finite t) = true <-> (t <= x)%Q.
Proof.
  unfold fge, flt. destruct (x ?= t)%Q eqn:E; simpl.
  - apply Qeq_alt in E. split; [intros _; lra|reflexivity].
  - apply Qlt_alt in E. split; [discriminate|intros H; lra].
  - apply Qgt_alt in E. split; [intros _; lra|reflexivity].
Qed.

Lemma fge_finite_false (x t : Q) :
  fge (Finite x) (Finite t) = false <-> (x < t)%Q.
Proof.
  pose proof (fge_finite x t) as H.
  destruct (fge (Finite x) (Finite t)); split; intros H'; try reflexivity;
    try discriminate.
  - assert (t <= x)%Q by now apply H. lra.
  - destruct (Qlt_le_dec x t) as [L|L]; [exact L|].
    apply H in L. discriminate.
Qed.

(** Turns the threshold tests on finite values into inequalities. *)
Ltac thresholds :=
  repeat match goal with
         | |- context [fge (Finite ?x) (Finite ?t)] =>
             let E := fresh "E" in
             destruct (fge (Finite x) (Finite t)) eqn:E;
             [apply fge_finite in E | apply fge_finite_false in E]
         end.

(** X8: a higher percentage never gets a worse attendance remark, the
    display class is 'info' or 'success' exactly from 75 up, and a NaN
    gets the lowest tier. *)
Theorem attendance_remark_is_monotone :
  (forall a b,
      fle a b ->
      class_rank (snd (get_attendance_remark a))
      <= class_rank (snd (get_attendance_remark b)))
  /\ (forall p,
        2 <= class_rank (snd (get_attendance_remark p))
        <-> fge p (Finite 75) = true)
  /\ get_attendance_remark NaN
     = ("Critical: Below 60% - Immediate attention needed"%string,
        "danger"%string).
Proof.
  split; [|split; [|reflexivity]].
  - intros a b H. unfold get_attendance_remark.
    destruct a as [x| | |], b as [y| | |]; cbn [fle] in H; try contradiction;
      try (cbn; lia);
      change (fge PInf (Finite 90)) with true;
      change (fge NInf (Finite 90)) with false;
      change (fge NInf (Finite 75)) with false;
      change (fge NInf (Finite 60)) with false;
      thresholds; cbn; try lia; exfalso; lra.
  - intros p. unfold get_attendance_remark.
    destruct p as [x| | |];
      try (cbn; split; [intros H; try reflexivity; lia|intros H; try lia;
                        discriminate]).
    thresholds; cbn; split; intros H; try reflexivity; try lia;
      try discriminate; exfalso; lra.
Qed.

Lemma clamp_is_monotone (x y : pyfloat) :
  fle x y ->
  fle (py_max (Finite 0) (py_min (Finite 100) x))
      (py_max (Finite 0) (py_min (Finite 100) y)).
Proof.
  intros H.
  assert (F : forall q, py_max (Finite 0) (py_min (Finite 100) (Finite q))
                        = Finite (if fge (Finite q) (Finite 100) then 100
                                  else if fge (Finite 0) (Finite q) then 0
                                  else q)).
  { intros q. unfold py_max, py_min, fge, flt.
    destruct (q ?= 100)%Q eqn:E1; cbn [negb]; try reflexivity.
    destruct (0 ?= q)%Q eqn:E2; cbn [negb]; reflexivity. }
  destruct x as [x| | |], y as [y| | |]; cbn [fle] in H; try contradiction;
    rewrite ?F;
    change (py_max (Finite 0) (py_min (Finite 100) PInf)) with (Finite 100);
    change (py_max (Finite 0) (py_min (Finite 100) NInf)) with (Finite 0);
    cbn [fle]; thresholds; lra.
Qed.

(** X9: a higher mark never gets a worse performance remark, also through
    the clamp of the marks form, and a field [float] cannot read is
    remarked as the lowest tier. *)
Theorem performance_remark_is_monotone :
  (forall a b,
      fle a b ->
      remark_rank (get_performance_remark a)
      <= remark_rank (get_performance_remark b))
  /\ (forall s t x y,
        py_float s = Some x -> py_float t = Some y -> fle x y ->
        remark_rank (get_performance_remark (marks_val s))
        <= remark_rank (get_performance_remark (marks_val t)))
  /\ (forall s,
        py_float s = None ->
        get_performance_remark (marks_val s)
        = "Poor - Requires Support"%string).
Proof.
  assert (M : forall a b,
             fle a b ->
             remark_rank (get_performance_remark a)
             <= remark_rank (get_performance_remark b)).
  { intros a b H. unfold get_performance_remark.
    destruct a as [x| | |], b as [y| | |]; cbn [fle] in H; try contradiction;
      try (cbn; lia);
      change (fge PInf (Finite 90)) with true;
      change (fge NInf (Finite 90)) with false;
      change (fge NInf (Finite 80)) with false;
      change (fge NInf (Finite 70)) with false;
      change (fge NInf (Finite 60)) with false;
      change (fge NInf (Finite 40)) with false;
      thresholds; cbn; try lia; exfalso; lra. }
  split; [exact M|]. split.
  - intros s t x y Hs Ht H. apply M. unfold marks_val. rewrite Hs, Ht.
    now apply clamp_is_monotone.
  - intros s Hs. unfold marks_val. now rewrite Hs.
Qed.

(* ================================================================= *)
(** ** The month of the report *)

Lemma isspace_digit_char (n : Z) : 0 <= n <= 9 -> isspace (digit_char n) = false.
Proof.
  intros H.
  assert (I : In n (map (fun k => 0 + Z.of_nat k) (seq 0 10)))
    by (apply in_range; lia).
  clear H. each_of I; reflexivity.
Qed.

Lemma rstrip_no_space (s : string) :
  Forall (fun c => isspace c = false) (list_ascii_of_string s) ->
  rstrip s = s.
Proof.
  induction s as [|c s IH]; [reflexivity|]. simpl. intros H.
  inversion H as [|? ? Hc Hs]; subst. rewrite (IH Hs).
  destruct s; [now rewrite Hc|reflexivity].
Qed.

Lemma strip_no_space (s : string) :
  Forall (fun c => isspace c = false) (list_ascii_of_string s) ->
  strip s = s.
Proof.
  intros H. unfold strip.
  assert (E : lstrip s = s).
  { destruct s as [|c s]; [reflexivity|]. simpl.
    inversion H as [|? ? Hc Hs]; subst. now rewrite Hc. }
  rewrite E. now apply rstrip_no_space.
Qed.

Lemma string_of_digits_no_space (ds : list Z) :
  Forall (fun d => 0 <= d <= 9) ds ->
  Forall (fun c => isspace c = false)
         (list_ascii_of_string (string_of_digits ds)).
Proof.
  induction 1 as [|d ds Hd _ IH]; simpl; constructor; auto.
  now apply isspace_digit_char.
Qed.

Lemma digits_tail_digits (ds : list Z) :
  Forall (fun d => 0 <= d <= 9) ds ->
  digits_tail (string_of_digits ds) = (ds, EmptyString).
Proof.
  induction 1 as [|d ds Hd _ IH]; [reflexivity|].
  cbn [string_of_digits fold_right digits_tail].
  rewrite (digit_val_digit_char d Hd).
  change (fold_right (fun d s => String (digit_char d) s) EmptyString ds)
    with (string_of_digits ds).
  now rewrite IH.
Qed.

(** [int] reads a text of digits as the number they spell. *)
Lemma py_int_digits (d : Z) (ds : list Z) :
  Forall (fun d => 0 <= d <= 9) (d :: ds) ->
  Z.of_nat (List.length (d :: ds)) <= max_str_digits ->
  py_int (string_of_digits (d :: ds)) = Some (Z_of_digits (d :: ds)).
Proof.
  intros H Hlen. unfold py_int.
  rewrite (strip_no_space _ (string_of_digits_no_space _ H)).
  inversion H as [|? ? Hd Hds]; subst.
  cbn [string_of_digits fold_right opt_sign].
  rewrite (ord_digit_char d Hd).
  destruct (Z.eqb_spec (48 + d) 45); [lia|].
  destruct (Z.eqb_spec (48 + d) 43); [lia|].
  cbn [digitpart]. rewrite (digit_val_digit_char d Hd).
  change (fold_right (fun d s => String (digit_char d) s) EmptyString ds)
    with (string_of_digits ds).
  rewrite (digits_tail_digits ds Hds).
  destruct (Z.ltb_spec max_str_digits (Z.of_nat (List.length (d :: ds))));
    [lia|reflexivity].
Qed.

Lemma split_dash_digits (ds : list Z) :
  Forall (fun d => 0 <= d <= 9) ds ->
  (forall rest,
      split_dash (string_of_digits ds ++ String "-" rest)
      = string_of_digits ds :: split_dash rest)
  /\ split_dash (string_of_digits ds) = [string_of_digits ds].
Proof.
  induction 1 as [|d ds Hd _ [IH1 IH2]]; [split; reflexivity|].
  cbn [string_of_digits fold_right append split_dash].
  rewrite (ord_digit_char d Hd).
  destruct (Z.eqb_spec (48 + d) 45); [lia|].
  change (fold_right (fun d s => String (digit_char d) s) EmptyString ds)
    with (string_of_digits ds).
  split; [intros rest; now rewrite IH1|now rewrite IH2].
Qed.

Lemma pad4_digits (y : Z) :
  pad4 y = string_of_digits [y / 1000 mod 10; y / 100 mod 10;
                             y / 10 mod 10; y mod 10].
Proof. reflexivity. Qed.

Lemma pad2_digits (m : Z) : pad2 m = string_of_digits [m / 10 mod 10; m mod 10].
Proof. reflexivity. Qed.

(** X10: the month the report shows.  Its month number is in 1 to 12
    whenever today's is; a query of the form YYYY-MM with a month of 1 to
    12 selects that year and month; and without a query, with an empty
    one, with a month out of range or with anything that is not two
    integers around one dash, it is today's month. *)
Theorem report_month_is_selected :
  (forall today month_arg,
      1 <= month today <= 12 ->
      1 <= snd (select_month today month_arg) <= 12)
  /\ (forall today y m,
        0 <= y <= 9999 -> 1 <= m <= 12 ->
        select_month today (Some (pad4 y ++ "-" ++ pad2 m)%string) = (y, m))
  /\ (forall today,
        select_month today None = (year today, month today)
        /\ select_month today (Some EmptyString) = (year today, month today))
  /\ (forall today v y m,
        select_month today (Some v) = (y, m) ->
        (y, m) = (year today, month today)
        \/ (exists a b, split_dash v = [a; b]
                        /\ py_int a = Some y /\ py_int b = Some m
                        /\ 1 <= m <= 12)).
Proof.
  split; [|split; [|split]].
  - intros today month_arg H. unfold select_month.
    destruct (truthy _); [|cbn; destruct ((month today <? 1) || _); cbn; lia].
    destruct (split_dash _) as [|a [|b [|c l]]]; cbn [snd]; try lia.
    destruct (py_int a) as [y|]; cbn [snd]; try lia.
    destruct (py_int b) as [m|]; cbn [snd]; try lia.
    destruct (Z.ltb_spec m 1); cbn [orb snd]; [lia|].
    destruct (Z.ltb_spec 12 m); cbn [snd]; lia.
  - intros today y m Hy Hm. unfold select_month.
    assert (D4 : Forall (fun d => 0 <= d <= 9)
                   [y / 1000 mod 10; y / 100 mod 10; y / 10 mod 10; y mod 10])
      by (repeat constructor; apply mod10_range).
    assert (D2 : Forall (fun d => 0 <= d <= 9) [m / 10 mod 10; m mod 10])
      by (repeat constructor; apply mod10_range).
    rewrite pad4_digits, pad2_digits.
    cbn [append]. 
    change (truthy (string_of_digits [y / 1000 mod 10; y / 100 mod 10;
                                      y / 10 mod 10; y mod 10]
                    ++ String "-" (string_of_digits [m / 10 mod 10; m mod 10])))
      with true.
    rewrite (proj1 (split_dash_digits _ D4)), (proj2 (split_dash_digits _ D2)).
    rewrite (py_int_digits _ _ D4), (py_int_digits _ _ D2)
      by (unfold max_str_digits; cbn [List.length]; lia).
    assert (Ey : Z_of_digits [y / 1000 mod 10; y / 100 mod 10;
                              y / 10 mod 10; y mod 10] = y)
      by (unfold Z_of_digits; cbn [fold_left];
          Z.to_euclidean_division_equations; lia).
    assert (Em : Z_of_digits [m / 10 mod 10; m mod 10] = m)
      by (unfold Z_of_digits; cbn [fold_left];
          Z.to_euclidean_division_equations; lia).
    rewrite Ey, Em.
    destruct (Z.ltb_spec m 1); [lia|]. destruct (Z.ltb_spec 12 m); [lia|].
    reflexivity.
  - intros today. unfold select_month. cbn.
    destruct ((month today <? 1) || (12 <? month today)); now split.
  - intros today v y m. unfold select_month.
    destruct (truthy v).
    + destruct (split_dash v) as [|a [|b [|c l]]] eqn:Es;
        try (intros E; left; now symmetry).
      destruct (py_int a) as [y'|] eqn:Ea;
        try (intros E; left; now symmetry).
      destruct (py_int b) as [m'|] eqn:Eb;
        try (intros E; left; now symmetry).
      destruct (Z.ltb_spec m' 1); cbn [orb];
        [intros E; left; now symmetry|].
      destruct (Z.ltb_spec 12 m'); [intros E; left; now symmetry|].
      intros E. injection E as <- <-. right. exists a, b.
      split; [reflexivity|]. split; [exact Ea|]. split; [exact Eb|]. lia.
    + destruct ((month today <? 1) || (12 <? month today));
        intros E; left; now symmetry.
Qed.

(* ================================================================= *)
(** ** The columns of the report *)

Lemma valid_day_of_month (y m : Z) (k : nat) :
  1 <= y <= 9999 -> 1 <= m <= 12 ->
  (1 <= k <= Z.to_nat (days_in_month y m))%nat ->
  valid_date (mkdate y m (Z.of_nat k)).
Proof.
  intros Hy Hm Hk. unfold valid_date. cbn [year month day]. lia.
Qed.

(** X11: from the year 1000 on, the columns of the monthly matrix are the
    days of the month, each once and in calendar order: there are as many
    as the month has days (28 to 31), the k-th reads back, with
    [strptime], as day k of that month and year, and no two are the same
    text. *)
Theorem report_columns_are_the_days (y m : Z) :
  1000 <= y <= 9999 -> 1 <= m <= 12 ->
  Z.of_nat (List.length (dates_in_month y m)) = days_in_month y m
  /\ 28 <= days_in_month y m <= 31
  /\ map strptime (dates_in_month y m)
     = map (fun k => Some (mkdate y m (Z.of_nat k)))
           (seq 1 (Z.to_nat (days_in_month y m)))
  /\ NoDup (dates_in_month y m).
Proof.
  intros Hy0 Hm. assert (Hy : 1 <= y <= 9999) by lia.
  pose proof (days_in_month_le y m) as Hn.
  assert (E : map strptime (dates_in_month y m)
              = map (fun k => Some (mkdate y m (Z.of_nat k)))
                    (seq 1 (Z.to_nat (days_in_month y m)))).
  { unfold dates_in_month. rewrite map_map. apply map_ext_in.
    intros k Hk. apply in_seq in Hk. apply strptime_strftime.
    apply valid_day_of_month; auto. lia. }
  split; [|split; [exact Hn|split; [exact E|]]].
  - unfold dates_in_month. rewrite length_map, length_seq. lia.
  - apply (NoDup_map_inv strptime). rewrite E.
    assert (Hinj : forall l : list nat,
               NoDup l ->
               NoDup (map (fun k => Some (mkdate y m (Z.of_nat k))) l)).
    { induction 1 as [|k l Hk Hl IH]; simpl; constructor; auto.
      intros Hin. apply in_map_iff in Hin. destruct Hin as [j [Ej Hj]].
      injection Ej as Ej. apply Nat2Z.inj in Ej. now subst. }
    apply Hinj, seq_NoDup.
Qed.

Lemma report_columns_are_the_days_witness :
  1000 <= 2024 <= 9999 /\ 1 <= 2 <= 12
  /\ Z.of_nat (List.length (dates_in_month 2024 2)) = days_in_month 2024 2.
Proof.
  assert (H1 : 1000 <= 2024 <= 9999) by lia.
  assert (H2 : 1 <= 2 <= 12) by lia.
  split; [exact H1|]. split; [exact H2|].
  exact (proj1 (report_columns_are_the_days 2024 2 H1 H2)).
Defined.

(* ================================================================= *)
(** ** When the report is produced *)

Lemma dates_in_month_ends (y m : Z) :
  hd EmptyString (dates_in_month y m) = strftime_ymd (mkdate y m 1)
  /\ last (dates_in_month y m) EmptyString
     = strftime_ymd (mkdate y m (days_in_month y m)).
Proof.
  pose proof (days_in_month_le y m) as Hn. unfold dates_in_month.
  destruct (Z.to_nat (days_in_month y m)) as [|n] eqn:En; [lia|].
  split; [reflexivity|].
  rewrite seq_S, map_app. cbn [map]. rewrite last_last.
  do 2 f_equal. lia.
Qed.

Lemma date_compare_of_leb (a b : date) :
  valid_date a -> valid_date b ->
  String.leb (strftime_ymd a) (strftime_ymd b) = true ->
  date_compare a b <> Gt.
Proof.
  intros Ha Hb. unfold String.leb. rewrite (compare_strftime a b Ha Hb).
  destruct (date_compare a b); congruence.
Qed.

(** An ISO date that sorts between the first and the last day of a month
    is a day of that month. *)
Lemma iso_date_in_month (y m : Z) (dt : date) :
  1 <= y <= 9999 -> 1 <= m <= 12 -> valid_date dt ->
  String.leb (hd EmptyString (dates_in_month y m)) (strftime_ymd dt)
  && String.leb (strftime_ymd dt) (last (dates_in_month y m) EmptyString)
  = true ->
  In (strftime_ymd dt) (dates_in_month y m).
Proof.
  intros Hy Hm Hv H. pose proof (days_in_month_le y m) as Hn.
  destruct (dates_in_month_ends y m) as [E1 E2]. rewrite E1, E2 in H.
  apply andb_true_iff in H. destruct H as [H1 H2].
  assert (V1 : valid_date (mkdate y m 1))
    by (unfold valid_date; cbn [year month day]; lia).
  assert (V2 : valid_date (mkdate y m (days_in_month y m)))
    by (unfold valid_date; cbn [year month day]; lia).
  apply (date_compare_of_leb _ _ V1 Hv) in H1.
  apply (date_compare_of_leb _ _ Hv V2) in H2.
  unfold date_compare in H1, H2. cbn [year month day] in H1, H2.
  destruct dt as [y' m' d']. cbn [year month day] in *.
  assert (Ey : y' = y).
  { destruct (Z.compare_spec y y'); destruct (Z.compare_spec y' y);
      try lia; congruence. }
  subst y'. rewrite Z.compare_refl in H1, H2.
  assert (Em : m' = m).
  { destruct (Z.compare_spec m m'); destruct (Z.compare_spec m' m);
      try lia; congruence. }
  subst m'. rewrite Z.compare_refl in H1, H2.
  change (1 <= d') in H1. change (d' <= days_in_month y m) in H2.
  unfold dates_in_month. apply in_map_iff. exists (Z.to_nat d'). split.
  - do 2 f_equal. lia.
  - apply in_seq. lia.
Qed.

Lemma dict_key_kept {V} (k k' : string) (v : V) (dct : list (string * V)) :
  dict_get String.eqb k' dct <> None ->
  dict_get String.eqb k' (dict_set String.eqb k v dct) <> None.
Proof.
  rewrite (dict_get_set String.eqb string_eqb_eq).
  destruct (k =? k')%string; [discriminate|auto].
Qed.

Lemma empty_map_keys (dates : list string) (dt : string) :
  forall am : attendance_map_t,
    dict_get String.eqb dt am <> None \/ In dt dates ->
    dict_get String.eqb dt
      (fold_left (fun am dt => dict_set String.eqb dt [] am) dates am)
    <> None.
Proof.
  induction dates as [|x dates IH]; intros am H; simpl.
  - destruct H as [H|[]]. exact H.
  - apply IH. destruct H as [H|[->|H]].
    + left. now apply dict_key_kept.
    + left. rewrite (dict_get_set String.eqb string_eqb_eq).
      now rewrite String.eqb_refl.
    + now right.
Qed.

(** The loop over the records goes through when every date is a key. *)
Lemma fold_map_record_some (rs : list attendance_record) :
  forall am : attendance_map_t,
    (forall r, In r rs -> dict_get String.eqb (ar_date r) am <> None) ->
    fold_left map_record rs (Some am) <> None.
Proof.
  induction rs as [|r rs IH]; intros am H; [discriminate|].
  simpl fold_left. cbn [map_record].
  destruct (dict_get String.eqb (ar_date r) am) as [inner|] eqn:E.
  - apply IH. intros r' Hr'. apply dict_key_kept. apply H. simpl. auto.
  - exfalso. apply (H r); simpl; auto.
Qed.

(** X12: the monthly report is produced, for every year of 1000 to 9999
    and month of 1 to 12, when every stored date is a calendar day in ISO
    form; only a date of another form can make it raise. *)
Theorem report_is_produced_over_iso_dates (y m : Z) (d : db) :
  1000 <= y <= 9999 -> 1 <= m <= 12 ->
  Forall (fun r => exists dt, valid_date dt /\ ar_date r = strftime_ymd dt)
         (attendance_records d) ->
  exists rep, attendance_report y m d = Some rep
              /\ rep_dates rep = dates_in_month y m
              /\ rep_students rep = select_students d.
Proof.
  intros Hy0 Hm Hiso. assert (Hy : 1 <= y <= 9999) by lia.
  unfold attendance_report.
  assert (Hr : (1 <=? y) && (y <=? 9999) && (1 <=? m) && (m <=? 12) = true).
  { rewrite !andb_true_iff, !Z.leb_le. lia. }
  rewrite Hr. cbn [negb].
  destruct (fold_left map_record _ _) as [am|] eqn:Hf.
  - eexists. split; [reflexivity|]. split; reflexivity.
  - exfalso. revert Hf. apply fold_map_record_some.
    intros r Hin. apply empty_map_keys. right.
    unfold select_between in Hin. apply filter_In in Hin.
    destruct Hin as [Hin Hb].
    rewrite Forall_forall in Hiso. destruct (Hiso r Hin) as [dt [Hv E]].
    rewrite E in *. now apply (iso_date_in_month y m dt).
Qed.

Lemma iso_dates_scenario :
  Forall (fun r => exists dt, valid_date dt /\ ar_date r = strftime_ymd dt)
         (attendance_records scenario_db).
Proof.
  assert (V : forall k, 1 <= k <= 31 -> valid_date (mkdate 2025 1 k))
    by (intros k Hk; unfold valid_date; cbn; lia).
  repeat constructor.
  - exists (mkdate 2025 1 6). split; [apply V; lia|reflexivity].
  - exists (mkdate 2025 1 7). split; [apply V; lia|reflexivity].
  - exists (mkdate 2025 1 8). split; [apply V; lia|reflexivity].
  - exists (mkdate 2025 1 9). split; [apply V; lia|reflexivity].
Qed.

Lemma report_is_produced_over_iso_dates_witness :
  1000 <= 2025 <= 9999 /\ 1 <= 1 <= 12
  /\ Forall (fun r => exists dt, valid_date dt /\ ar_date r = strftime_ymd dt)
            (attendance_records scenario_db)
  /\ exists rep, attendance_report 2025 1 scenario_db = Some rep
                 /\ rep_dates rep = dates_in_month 2025 1
                 /\ rep_students rep = select_students scenario_db.
Proof.
  assert (H1 : 1000 <= 2025 <= 9999) by lia.
  assert (H2 : 1 <= 1 <= 12) by lia.
  split; [exact H1|]. split; [exact H2|]. split; [exact iso_dates_scenario|].
  exact (report_is_produced_over_iso_dates 2025 1 scenario_db H1 H2
           iso_dates_scenario).
Defined.

(* ================================================================= *)
(** ** Sample students *)

Lemma cs_roll_ok_all :
  forallb (fun k => cs_roll_ok (1000 + Z.of_nat k)) (seq 0 (Z.to_nat 9000))
  = true.
Proof. vm_compute. reflexivity. Qed.

Lemma cs_roll_ok_range (n : Z) : 1000 <= n <= 9999 -> cs_roll_ok n = true.
Proof.
  intros H.
  pose proof (proj1 (forallb_forall _ _) cs_roll_ok_all (Z.to_nat (n - 1000)))
    as C.
  cbv beta in C. replace (1000 + Z.of_nat (Z.to_nat (n - 1000))) with n in C
    by lia.
  apply C. apply in_seq. lia.
Qed.

Lemma cs_roll_well_formed (n : Z) :
  1000 <= n <= 9999 ->
  roll_pattern (cs_roll n) /\ upper (cs_roll n) = cs_roll n
  /\ validate_roll_number (cs_roll n) = (true, "Valid roll number."%string).
Proof.
  intros H. pose proof (cs_roll_ok_range n H) as C. unfold cs_roll_ok in C.
  apply andb_true_iff in C. destruct C as [C C3].
  apply andb_true_iff in C. destruct C as [C1 C2].
  apply String.eqb_eq in C2, C3.
  assert (P : roll_pattern (cs_roll n)).
  { rewrite <- C3. apply re_match_roll_strip. now rewrite C3. }
  split; [exact P|]. split; [exact C2|].
  unfold validate_roll_number. rewrite C3, C1. reflexivity.
Qed.

Lemma cs_roll_inj (n n' : Z) : cs_roll n = cs_roll n' -> n = n'.
Proof.
  unfold cs_roll, str_of_int. cbn [append]. intros E. injection E as E.
  apply DecimalZ.to_int_inj.
  pose proof (NilEmpty.isi (Z.to_int n)) as I1.
  pose proof (NilEmpty.isi (Z.to_int n')) as I2.
  rewrite E in I1. congruence.
Qed.

Lemma draw_roll_some (used : list string) (draws : list Z) :
  forall roll_no rest,
    draw_roll used draws = Some (roll_no, rest) ->
    existsb (String.eqb roll_no) used = false
    /\ (exists n, In n draws /\ roll_no = cs_roll n)
    /\ incl rest draws.
Proof.
  induction draws as [|n draws IH]; intros roll_no rest; [discriminate|].
  cbn [draw_roll]. fold (cs_roll n).
  destruct (existsb (String.eqb (cs_roll n)) used) eqn:E.
  - intros H. destruct (IH _ _ H) as (H1 & [k [Hk Ek]] & H3).
    split; [exact H1|]. split.
    + exists k. split; [now right|exact Ek].
    + intros x Hx. right. now apply H3.
  - intros H. injection H as <- <-. split; [exact E|]. split.
    + exists n. split; [now left|reflexivity].
    + intros x Hx. now right.
Qed.

Lemma generate_from_some (count : nat) :
  forall used rolls names sems sample,
    generate_from count used rolls names sems = Some sample ->
    List.length sample = count
    /\ NoDup (map row_roll sample)
    /\ Forall (fun row =>
                 existsb (String.eqb (row_roll row)) used = false
                 /\ (exists n, In n rolls /\ row_roll row = cs_roll n)
                 /\ In (snd row) sems)
              sample.
Proof.
  induction count as [|count IH]; intros used rolls names sems sample.
  - intros H. injection H as <-. repeat split; constructor.
  - cbn [generate_from].
    destruct (draw_roll used rolls) as [[roll_no rolls']|] eqn:Ed;
      [|discriminate].
    destruct names as [|name names']; [discriminate|].
    destruct sems as [|sem sems']; [discriminate|].
    destruct (generate_from count (roll_no :: used) rolls' names' sems')
      as [rows|] eqn:Eg; [|discriminate].
    intros H. injection H as <-.
    destruct (draw_roll_some _ _ _ _ Ed) as (D1 & D2 & D3).
    destruct (IH _ _ _ _ _ Eg) as (G1 & G2 & G3).
    rewrite Forall_forall in G3.
    split; [simpl; now rewrite G1|]. split.
    + simpl. constructor; [|exact G2].
      intros Hin. apply in_map_iff in Hin. destruct Hin as [row [Er Hr]].
      destruct (G3 row Hr) as (Hu & _). cbn [existsb] in Hu.
      rewrite Er, String.eqb_refl in Hu. discriminate.
    + constructor.
      * cbn [row_roll fst snd]. split; [exact D1|]. split; [exact D2|].
        now left.
      * apply Forall_forall. intros row Hr.
        destruct (G3 row Hr) as (Hu & [n [Hn En]] & Hs).
        cbn [existsb] in Hu. apply orb_false_iff in Hu.
        split; [apply Hu|]. split.
        -- exists n. split; [now apply D3|exact En].
        -- now right.
Qed.

(** X13: what [generate_sample_students] returns.  Given roll draws of
    1000 to 9999 and semester draws of 1 to 8, the sample has as many
    rows as asked, no roll number twice, and every row carries a roll
    number the add-form accepts and stores unchanged (CS and a drawn
    number) and a semester of 1 to 8. *)
Theorem generated_sample_is_well_formed (count : Z) (rolls : list Z)
  (names : list string) (sems : list Z) (sample : list (string * string * Z)) :
  Forall (fun n => 1000 <= n <= 9999) rolls ->
  Forall (fun n => 1 <= n <= 8) sems ->
  generate_sample_students count rolls names sems = Some sample ->
  List.length sample = Z.to_nat count
  /\ NoDup (map row_roll sample)
  /\ Forall (fun row =>
               well_formed_row row
               /\ validate_roll_number (row_roll row)
                  = (true, "Valid roll number."%string)
               /\ exists n, In n rolls /\ row_roll row = cs_roll n)
            sample.
Proof.
  intros Hr Hs H. unfold generate_sample_students in H.
  destruct (generate_from_some _ _ _ _ _ _ H) as (G1 & G2 & G3).
  split; [exact G1|]. split; [exact G2|].
  rewrite Forall_forall in Hr, Hs, G3 |- *. intros row Hrow.
  destruct (G3 row Hrow) as (_ & [n [Hn En]] & Hsem).
  destruct (cs_roll_well_formed n (Hr n Hn)) as (P & U & V).
  unfold well_formed_row. rewrite En.
  split; [split; [exact P|split; [exact U|exact (Hs _ Hsem)]]|].
  split; [exact V|]. exists n. now split.
Qed.

Lemma generated_sample_is_well_formed_witness :
  Forall (fun n => 1000 <= n <= 9999) [1234; 1234; 1000]
  /\ Forall (fun n => 1 <= n <= 8) [3; 8]
  /\ generate_sample_students 2 [1234; 1234; 1000] ["a"; "b"]%string [3; 8]
     = Some [("CS1234", "a", 3); ("CS1000", "b", 8)]%string
  /\ NoDup (map row_roll [("CS1234", "a", 3); ("CS1000", "b", 8)]%string).
Proof.
  assert (H1 : Forall (fun n => 1000 <= n <= 9999) [1234; 1234; 1000])
    by (repeat constructor; lia).
  assert (H2 : Forall (fun n => 1 <= n <= 8) [3; 8])
    by (repeat constructor; lia).
  split; [exact H1|]. split; [exact H2|]. split; [reflexivity|].
  exact (proj1 (proj2
           (generated_sample_is_well_formed 2 [1234; 1234; 1000]
              ["a"; "b"]%string [3; 8] _ H1 H2 eq_refl))).
Defined.

Lemma draw_roll_fresh (used : list string) (n : Z) (rest : list Z) :
  existsb (String.eqb (cs_roll n)) used = false ->
  draw_roll used (n :: rest) = Some (cs_roll n, rest).
Proof.
  intros H. cbn [draw_roll]. fold (cs_roll n). now rewrite H.
Qed.

Lemma generate_from_returns (count : nat) :
  forall used rolls names sems,
    NoDup rolls ->
    (forall n, In n rolls -> existsb (String.eqb (cs_roll n)) used = false) ->
    (count <= List.length rolls)%nat ->
    (count <= List.length names)%nat ->
    (count <= List.length sems)%nat ->
    exists sample, generate_from count used rolls names sems = Some sample.
Proof.
  induction count as [|count IH]; intros used rolls names sems Hn Hu L1 L2 L3.
  - exists []. reflexivity.
  - destruct rolls as [|n rolls]; [simpl in L1; lia|].
    destruct names as [|name names]; [simpl in L2; lia|].
    destruct sems as [|sem sems]; [simpl in L3; lia|].
    cbn [generate_from].
    rewrite (draw_roll_fresh used n rolls) by (apply Hu; now left).
    inversion Hn as [|? ? Hnotin Hn']; subst.
    destruct (IH (cs_roll n :: used) rolls names sems Hn') as [rows Hrows].
    + intros k Hk. cbn [existsb]. apply orb_false_iff. split.
      * apply String.eqb_neq. intros E. apply cs_roll_inj in E.
        subst. contradiction.
      * apply Hu. now right.
    + simpl in L1. lia.
    + simpl in L2. lia.
    + simpl in L3. lia.
    + exists ((cs_roll n, name, sem) :: rows). now rewrite Hrows.
Qed.

(** X14: [generate_sample_students] returns as soon as the Faker hands out
    enough values and no roll draw comes twice: the loop that re-draws a
    used roll number then never runs. *)
Theorem generator_returns_on_fresh_draws (count : Z) (rolls : list Z)
  (names : list string) (sems : list Z) :
  NoDup rolls ->
  count <= Z.of_nat (List.length rolls) ->
  count <= Z.of_nat (List.length names) ->
  count <= Z.of_nat (List.length sems) ->
  exists sample,
    generate_sample_students count rolls names sems = Some sample
    /\ map row_roll sample = map cs_roll (firstn (Z.to_nat count) rolls).
Proof.
  intros Hn L1 L2 L3. unfold generate_sample_students.
  assert (G : forall c used rs ns ss,
             NoDup rs ->
             (forall n, In n rs ->
                        existsb (String.eqb (cs_roll n)) used = false) ->
             (c <= List.length rs)%nat -> (c <= List.length ns)%nat ->
             (c <= List.length ss)%nat ->
             forall sample,
               generate_from c used rs ns ss = Some sample ->
               map row_roll sample = map cs_roll (firstn c rs)).
  { induction c as [|c IH]; intros used rs ns ss Hd Hu K1 K2 K3 sample.
    - intros H. injection H as <-. reflexivity.
    - destruct rs as [|n rs]; [simpl in K1; lia|].
      destruct ns as [|name ns]; [simpl in K2; lia|].
      destruct ss as [|sem ss]; [simpl in K3; lia|].
      cbn [generate_from].
      rewrite (draw_roll_fresh used n rs) by (apply Hu; now left).
      destruct (generate_from c (cs_roll n :: used) rs ns ss) as [rows|] eqn:Eg;
        [|discriminate].
      intros H. injection H as <-. cbn [map firstn row_roll fst]. f_equal.
      inversion Hd as [|? ? Hnotin Hd']; subst.
      apply (IH (cs_roll n :: used) rs ns ss Hd'); try (simpl in *; lia);
        [|exact Eg].
      intros k Hk. cbn [existsb]. apply orb_false_iff. split.
      + apply String.eqb_neq. intros E. apply cs_roll_inj in E.
        subst. contradiction.
      + apply Hu. now right. }
  destruct (generate_from_returns (Z.to_nat count) [] rolls names sems Hn)
    as [sample Hs]; try lia; [intros n _; reflexivity|].
  exists sample. split; [exact Hs|].
  apply (G (Z.to_nat count) [] rolls names sems Hn); try lia;
    [intros n _; reflexivity|exact Hs].
Qed.

Lemma generator_returns_on_fresh_draws_witness :
  NoDup [1234; 1000]
  /\ 2 <= Z.of_nat (List.length [1234; 1000])
  /\ 2 <= Z.of_nat (List.length ["a"; "b"]%string)
  /\ 2 <= Z.of_nat (List.length [3; 8])
  /\ exists sample,
       generate_sample_students 2 [1234; 1000] ["a"; "b"]%string [3; 8]
       = Some sample
       /\ map row_roll sample = map cs_roll (firstn (Z.to_nat 2) [1234; 1000]).
Proof.
  assert (H0 : NoDup [1234; 1000]).
  { constructor; [intros [e|[]]; discriminate e|].
    constructor; [intros []|constructor]. }
  assert (H1 : 2 <= Z.of_nat (List.length [1234; 1000])) by (cbn; lia).
  assert (H2 : 2 <= Z.of_nat (List.length ["a"; "b"]%string)) by (cbn; lia).
  assert (H3 : 2 <= Z.of_nat (List.length [3; 8])) by (cbn; lia).
  split; [exact H0|]. split; [exact H1|]. split; [exact H2|].
  split; [exact H3|].
  exact (generator_returns_on_fresh_draws 2 [1234; 1000] ["a"; "b"]%string
           [3; 8] H0 H1 H2 H3).
Defined.

Lemma roll_taken_insert (roll_no name : string) (semester : Z) (d d' : db)
  (r : string) :
  insert_student roll_no name semester d = Some d' ->
  roll_taken d' r = roll_taken d r || (roll_no =? r)%string.
Proof.
  unfold insert_student. fold (roll_taken d roll_no).
  destruct (roll_taken d roll_no); [discriminate|].
  intros E. injection E as <-. unfold roll_taken. cbn [students].
  rewrite existsb_app. cbn. now rewrite orb_false_r.
Qed.

Lemma generate_fold_effect (sample : list (string * string * Z)) :
  forall (d : db) (k : nat),
    NoDup (map row_roll sample) ->
    exists d',
      fold_left (fun (acc : db * nat) row =>
                   match row with
                   | (roll_no, name, semester) =>
                       match insert_student roll_no name semester (fst acc) with
                       | Some acc' => (acc', S (snd acc))
                       | None => acc
                       end
                   end) sample (d, k)
      = (d', (k + List.length (fresh_rows d sample))%nat)
      /\ map row_of (students d') = map row_of (students d) ++ fresh_rows d sample
      /\ firstn (List.length (students d)) (students d') = students d
      /\ attendance_records d' = attendance_records d
      /\ seq_students d'
         = seq_students d + Z.of_nat (List.length (fresh_rows d sample)).
Proof.
  induction sample as [|[[roll name] sem] sample IH]; intros d k Hn.
  - exists d. cbn [fold_left fresh_rows filter List.length].
    rewrite Nat.add_0_r, app_nil_r, firstn_all. repeat split. lia.
  - simpl map in Hn. inversion Hn as [|? ? Hnotin Hn']; subst.
    cbn [fold_left fst snd]. unfold fresh_rows. cbn [filter row_roll fst].
    fold (fresh_rows d sample).
    destruct (insert_student roll name sem d) as [d1|] eqn:Ei.
    + assert (Ht : roll_taken d roll = false).
      { unfold insert_student in Ei. fold (roll_taken d roll) in Ei.
        destruct (roll_taken d roll); [discriminate|reflexivity]. }
      rewrite Ht. cbn [negb].
      assert (Ef : fresh_rows d1 sample = fresh_rows d sample).
      { unfold fresh_rows. apply filter_ext_in. intros row Hrow.
        rewrite (roll_taken_insert _ _ _ _ _ _ Ei).
        destruct (String.eqb_spec roll (row_roll row)) as [e|]; 
          [|now rewrite orb_false_r].
        exfalso. apply Hnotin. cbn [row_roll fst]. rewrite e.
        now apply (in_map row_roll). }
      destruct (IH d1 (S k) Hn') as (d' & F1 & F2 & F3 & F4 & F5).
      rewrite Ef in *.
      assert (Es : students d1
                   = students d ++ [mkstudent (seq_students d + 1) roll name
                                      sem (Finite 0) 0 0]
                   /\ attendance_records d1 = attendance_records d
                   /\ seq_students d1 = seq_students d + 1).
      { unfold insert_student in Ei.
        destruct (existsb _ (students d)); [discriminate|].
        injection Ei as <-. repeat split. }
      destruct Es as (S1 & S2 & S3).
      exists d'. split; [rewrite F1; f_equal; cbn [List.length]; lia|].
      split; [|split; [|split]].
      * rewrite F2, S1, map_app, <- app_assoc. reflexivity.
      * rewrite S1 in F3.
        apply (f_equal (firstn (List.length (students d)))) in F3.
        rewrite firstn_firstn, length_app in F3.
        rewrite Nat.min_l in F3 by lia.
        rewrite F3, firstn_app, firstn_all, Nat.sub_diag. cbn [firstn].
        now rewrite app_nil_r.
      * now rewrite F4.
      * rewrite F5, S3. cbn [List.length]. lia.
    + assert (Ht : roll_taken d roll = true).
      { unfold insert_student in Ei. fold (roll_taken d roll) in Ei.
        destruct (roll_taken d roll); [reflexivity|discriminate]. }
      rewrite Ht. cbn [negb]. apply IH. exact Hn'.
Qed.

(** The effect of the insert loop of the sample handler. *)
Lemma sample_rows_are_added_core
  (sample : list (string * string * Z)) (d : db) :
  NoDup (map row_roll sample) ->
  map row_of (students (fst (ai_generate_sample sample d)))
  = map row_of (students d) ++ fresh_rows d sample
  /\ firstn (List.length (students d))
            (students (fst (ai_generate_sample sample d)))
     = students d
  /\ attendance_records (fst (ai_generate_sample sample d))
     = attendance_records d
  /\ seq_students (fst (ai_generate_sample sample d))
     = seq_students d + Z.of_nat (List.length (fresh_rows d sample)).
Proof.
  intros Hn. unfold ai_generate_sample.
  destruct (generate_fold_effect sample d O Hn) as (d' & F1 & F2 & F3 & F4 & F5).
  rewrite F1. cbn [fst snd Nat.add]. repeat split; assumption.
Qed.

(** X15: what POST [/ai/generate-sample] does with a sample of distinct
    roll numbers.  The rows whose roll number is not in the table are
    appended in order, the others are skipped; the students already
    there, the attendance records and nothing else change; the sequence
    moves by the number added, and the message reports that number. *)
Theorem sample_rows_are_added_unless_taken
  (sample : list (string * string * Z)) (d : db) :
  NoDup (map row_roll sample) ->
  let after := fst (ai_generate_sample sample d) in
  map row_of (students after) = map row_of (students d) ++ fresh_rows d sample
  /\ firstn (List.length (students d)) (students after) = students d
  /\ attendance_records after = attendance_records d
  /\ seq_students after
     = seq_students d + Z.of_nat (List.length (fresh_rows d sample))
  /\ snd (ai_generate_sample sample d)
     = Flash ("Generated and added "
              ++ NilEmpty.string_of_uint
                   (Nat.to_uint (List.length (fresh_rows d sample)))
              ++ " sample student(s).") "success".
Proof.
  intros Hn. cbv zeta. unfold ai_generate_sample.
  destruct (generate_fold_effect sample d O Hn) as (d' & F1 & F2 & F3 & F4 & F5).
  rewrite F1. cbn [fst snd Nat.add]. repeat split; assumption.
Qed.

Lemma sample_rows_are_added_unless_taken_witness :
  NoDup (map row_roll [("CS1", "x", 2); ("CS1234", "y", 3)]%string)
  /\ map row_of
       (students (fst (ai_generate_sample
                         [("CS1", "x", 2); ("CS1234", "y", 3)]%string late_db)))
     = map row_of (students late_db)
       ++ fresh_rows late_db [("CS1", "x", 2); ("CS1234", "y", 3)]%string.
Proof.
  assert (H : NoDup (map row_roll [("CS1", "x", 2); ("CS1234", "y", 3)]%string)).
  { constructor; [intros [e|[]]; discriminate e|].
    constructor; [intros []|constructor]. }
  split; [exact H|].
  exact (proj1 (sample_rows_are_added_unless_taken
                  [("CS1", "x", 2); ("CS1234", "y", 3)]%string late_db H)).
Defined.

Lemma sample_count_range (count_field : option string) :
  1 <= sample_count count_field <= 10.
Proof.
  unfold sample_count. destruct count_field as [v|]; [|lia].
  destruct (py_int v); lia.
Qed.

(** X16: POST [/ai/generate-sample] as a whole.  Whatever count the form
    asks for, with roll draws of 1000 to 9999 and semester draws of 1 to
    8 the request appends at most ten students, each with a roll number
    that was not in the table, differs from the others, has the shape the
    add-form accepts and stores unchanged, and a semester of 1 to 8; the
    attendance records stay as they were. *)
Theorem sample_request_adds_valid_students (count_field : option string)
  (rolls : list Z) (names : list string) (sems : list Z) (d d' : db)
  (resp : response) :
  Forall (fun n => 1000 <= n <= 9999) rolls ->
  Forall (fun n => 1 <= n <= 8) sems ->
  ai_generate_sample_post count_field rolls names sems d = Some (d', resp) ->
  exists added,
    map row_of (students d') = map row_of (students d) ++ added
    /\ (List.length added <= 10)%nat
    /\ NoDup (map row_roll added)
    /\ Forall (fun row => well_formed_row row
                          /\ roll_taken d (row_roll row) = false) added
    /\ attendance_records d' = attendance_records d.
Proof.
  intros Hr Hs H. unfold ai_generate_sample_post in H.
  destruct (generate_sample_students _ rolls names sems) as [sample|] eqn:Eg;
    [|discriminate].
  injection H as H.
  unfold generate_sample_students in Eg.
  destruct (generate_from_some _ _ _ _ _ _ Eg) as (G1 & G2 & G3).
  destruct (sample_rows_are_added_core sample d G2) as (F2 & _ & F4 & _).
  rewrite H in F2, F4. cbn [fst] in F2, F4.
  exists (fresh_rows d sample). split; [exact F2|]. split; [|split; [|split]].
  - pose proof (sample_count_range count_field).
    pose proof (filter_length_le
                  (fun row => negb (roll_taken d (row_roll row))) sample).
    unfold fresh_rows. lia.
  - unfold fresh_rows. now apply NoDup_map_filter.
  - apply Forall_forall. intros row Hrow. unfold fresh_rows in Hrow.
    apply filter_In in Hrow. destruct Hrow as [Hrow Ht].
    apply negb_true_iff in Ht. split; [|exact Ht].
    rewrite Forall_forall in Hr, Hs, G3.
    destruct (G3 row Hrow) as (_ & [n [Hn En]] & Hsem).
    destruct (cs_roll_well_formed n (Hr n Hn)) as (P & U & _).
    unfold well_formed_row. rewrite En.
    split; [exact P|split; [exact U|exact (Hs _ Hsem)]].
  - exact F4.
Qed.

Lemma sample_request_adds_valid_students_witness :
  Forall (fun n => 1000 <= n <= 9999) [1234; 1234; 1000]
  /\ Forall (fun n => 1 <= n <= 8) [3; 8]
  /\ ai_generate_sample_post (Some "2"%string) [1234; 1234; 1000]
       ["a"; "b"]%string [3; 8] late_db
     = Some (ai_generate_sample
               [("CS1234", "a", 3); ("CS1000", "b", 8)]%string late_db)
  /\ exists added,
       map row_of (students (fst (ai_generate_sample
                    [("CS1234", "a", 3); ("CS1000", "b", 8)]%string late_db)))
       = map row_of (students late_db) ++ added
       /\ (List.length added <= 10)%nat
       /\ NoDup (map row_roll added)
       /\ Forall (fun row => well_formed_row row
                             /\ roll_taken late_db (row_roll row) = false)
                 added
       /\ attendance_records (fst (ai_generate_sample
             [("CS1234", "a", 3); ("CS1000", "b", 8)]%string late_db))
          = attendance_records late_db.
Proof.
  assert (H1 : Forall (fun n => 1000 <= n <= 9999) [1234; 1234; 1000])
    by (repeat constructor; lia).
  assert (H2 : Forall (fun n => 1 <= n <= 8) [3; 8])
    by (repeat constructor; lia).
  split; [exact H1|]. split; [exact H2|]. split; [reflexivity|].
  exact (sample_request_adds_valid_students (Some "2"%string)
           [1234; 1234; 1000] ["a"; "b"]%string [3; 8] late_db
           (fst (ai_generate_sample
                   [("CS1234", "a", 3); ("CS1000", "b", 8)]%string late_db))
           (snd (ai_generate_sample
                   [("CS1234", "a", 3); ("CS1000", "b", 8)]%string late_db))
           H1 H2 eq_refl).
Defined.

(* ================================================================= *)
(** ** The order of the listings *)

Lemma insert_by_roll_head (x s : student) (l : list student) :
  roll_order x s -> Sorted.HdRel roll_order x l ->
  Sorted.HdRel roll_order x (insert_by_roll s l).
Proof.
  intros Hs Hl. destruct l as [|y l]; simpl; [now constructor|].
  destruct (String.leb (st_roll_no s) (st_roll_no y)); constructor; auto.
  now inversion Hl.
Qed.

Lemma insert_by_roll_sorted (s : student) (l : list student) :
  Sorted.Sorted roll_order l -> Sorted.Sorted roll_order (insert_by_roll s l).
Proof.
  induction 1 as [|x l Hl IH Hx]; simpl.
  - repeat constructor.
  - destruct (String.leb (st_roll_no s) (st_roll_no x)) eqn:E.
    + constructor; [now constructor|]. constructor. exact E.
    + constructor; [exact IH|]. apply insert_by_roll_head; [|exact Hx].
      unfold roll_order.
      destruct (String.leb_total (st_roll_no s) (st_roll_no x)) as [H|H];
        [congruence|exact H].
Qed.

(** X17: the listings ([ORDER BY roll_no]) show the students in ascending
    roll-number order, every row of the table once; the rows a committed
    day inserts follow that order too. *)
Theorem students_are_listed_in_roll_order (d : db) :
  Sorted.Sorted roll_order (select_students d)
  /\ Permutation (select_students d) (students d)
  /\ forall D form,
       map ar_student_id
           (filter (fun r => (ar_date r =? D)%string)
                   (attendance_records (apply_day D form d)))
       = map st_id (select_students d).
Proof.
  split; [|split; [apply select_students_perm|]].
  - unfold select_students. induction (students d) as [|s l IH]; simpl.
    + constructor.
    + now apply insert_by_roll_sorted.
  - intros D form.
    pose proof (select_existing_apply_day D form d) as H.
    unfold select_existing in H.
    apply (f_equal (map fst)) in H. rewrite !map_map in H.
    cbn [fst] in H. exact H.
Qed.

(* ================================================================= *)
(** ** The shape of the stored students *)

Lemma roll_char_upper (c : ascii) :
  roll_char c = true -> roll_char (upper_char c) = true.
Proof.
  intros H. destruct c as [[] [] [] [] [] [] [] []];
    try discriminate H; reflexivity.
Qed.

Lemma upper_char_idempotent (c : ascii) :
  upper_char (upper_char c) = upper_char c.
Proof. destruct c as [[] [] [] [] [] [] [] []]; reflexivity. Qed.

Lemma upper_idempotent (s : string) : upper (upper s) = upper s.
Proof.
  induction s as [|c s IH]; [reflexivity|]. simpl.
  now rewrite upper_char_idempotent, IH.
Qed.

Lemma roll_pattern_upper (s : string) :
  roll_pattern s -> roll_pattern (upper s).
Proof.
  intros [Hl Hc]. split.
  - assert (E : String.length (upper s) = String.length s)
      by (clear; induction s as [|c s IH]; simpl; [reflexivity|now rewrite IH]).
    now rewrite E.
  - clear Hl. induction s as [|c s IH]; simpl; [constructor|].
    simpl in Hc. inversion Hc as [|? ? H1 H2]; subst.
    constructor; [now apply roll_char_upper|now apply IH].
Qed.

Lemma well_formed_insert (roll_no name : string) (semester : Z) (d d' : db) :
  well_formed_row (roll_no, name, semester) ->
  insert_student roll_no name semester d = Some d' ->
  Forall (fun s => well_formed_row (row_of s)) (students d) ->
  Forall (fun s => well_formed_row (row_of s)) (students d').
Proof.
  intros Hw. unfold insert_student.
  destruct (existsb _ (students d)); [discriminate|].
  intros E H. injection E as <-. cbn [students].
  apply Forall_app. split; [exact H|]. constructor; [exact Hw|constructor].
Qed.

Lemma well_formed_same (d d' : db) :
  map identity_of (students d') = map identity_of (students d) ->
  Forall (fun s => well_formed_row (row_of s)) (students d) ->
  Forall (fun s => well_formed_row (row_of s)) (students d').
Proof.
  intros E H.
  assert (R : forall l : list student,
             Forall (fun s => well_formed_row (row_of s)) l
             <-> Forall (fun i => well_formed_row
                                    (snd (fst (fst i)), snd (fst i), snd i))
                        (map identity_of l)).
  { intros l. rewrite Forall_map. reflexivity. }
  apply R. rewrite E. now apply R.
Qed.

(** X18: every student in the table has a roll number of 3 to 15 letters,
    digits and hyphens, in upper case, and a semester of 1 to 8, whatever
    requests came, as long as the sample rows came from the generator. *)
Theorem stored_students_are_well_formed (rs : list request) :
  Forall from_generator rs ->
  Forall (fun s => well_formed_row (row_of s)) (students (run rs init_db)).
Proof.
  assert (G : forall rs d,
             Forall from_generator rs ->
             Forall (fun s => well_formed_row (row_of s)) (students d) ->
             Forall (fun s => well_formed_row (row_of s)) (students (run rs d))).
  { clear rs. induction rs as [|r rs IH]; intros d Hg H; [exact H|].
    inversion Hg as [|? ? Hr Hrs]; subst.
    unfold run. simpl fold_left. apply (IH _ Hrs). clear IH Hrs Hg.
    destruct r as [roll name sem|id|fault today df form|form|sample];
      simpl handle.
    - unfold students_post.
      destruct (validate_roll_number (strip roll)) as [valid msg] eqn:Ev.
      destruct valid; simpl; [|exact H].
      destruct (py_int sem) as [n|]; [|exact H].
      destruct (Z.ltb_spec n 1); cbn [orb]; [exact H|].
      destruct (Z.ltb_spec 8 n); [exact H|].
      destruct (truthy (strip name)); simpl; [|exact H].
      destruct (insert_student (upper (strip roll)) (strip name) n d) eqn:E;
        simpl; [|exact H].
      refine (well_formed_insert _ _ _ _ _ _ E H).
      assert (Hv : fst (validate_roll_number (strip roll)) = true)
        by now rewrite Ev.
      apply validate_roll_number_accepts in Hv. destruct Hv as [_ Hp].
      rewrite strip_idempotent in Hp.
      split; [now apply roll_pattern_upper|].
      split; [apply upper_idempotent|cbn; lia].
    - unfold delete_student. cbn. apply Forall_forall. intros s Hs.
      apply filter_In in Hs. rewrite Forall_forall in H. now apply H.
    - destruct (attendance_post_cases fault today df form d) as [E|E];
        rewrite E; [exact H|].
      apply (well_formed_same d); [|exact H].
      rewrite apply_day_students. apply identity_of_add_counters.
    - apply (well_formed_same d); [|exact H].
      apply marks_post_identities.
    - destruct Hr as (count & rolls & names & sems & R1 & R2 & Eg).
      unfold generate_sample_students in Eg.
      destruct (generate_from_some _ _ _ _ _ _ Eg) as (_ & _ & G3).
      assert (Hw : Forall well_formed_row sample).
      { rewrite Forall_forall in R1, R2, G3 |- *. intros row Hrow.
        destruct (G3 row Hrow) as (_ & [n [Hn En]] & Hsem).
        destruct (cs_roll_well_formed n (R1 n Hn)) as (P & U & _).
        unfold well_formed_row. rewrite En.
        split; [exact P|split; [exact U|exact (R2 _ Hsem)]]. }
      unfold ai_generate_sample.
      assert (F : forall acc : db * nat,
                Forall (fun s => well_formed_row (row_of s))
                       (students (fst acc)) ->
                Forall (fun s => well_formed_row (row_of s))
                  (students (fst (fold_left (fun (acc : db * nat) row =>
                     match row with
                     | (roll_no, name, semester) =>
                         match insert_student roll_no name semester
                                 (fst acc) with
                         | Some acc' => (acc', S (snd acc))
                         | None => acc
                         end
                     end) sample acc)))).
      { clear Eg G3. induction Hw as [|[[r n] sem] sample Hrow _ IH];
          intros acc Ha; [exact Ha|].
        simpl fold_left. apply IH.
        destruct (insert_student r n sem (fst acc)) eqn:E; [|exact Ha].
        simpl. exact (well_formed_insert _ _ _ _ _ Hrow E Ha). }
      specialize (F (d, O) H).
      destruct (fold_left _ sample (d, O)) as [d' added]. exact F. }
  intros Hg. apply (G rs init_db Hg). constructor.
Qed.

Lemma stored_students_are_well_formed_witness :
  Forall from_generator
    [PostStudents " cs-1 " "A" "8";
     PostGenerateSample [("CS1234", "a", 3)]%string]
  /\ Forall (fun s => well_formed_row (row_of s))
       (students (run [PostStudents " cs-1 " "A" "8";
                       PostGenerateSample [("CS1234", "a", 3)]%string]
                      init_db)).
Proof.
  assert (H : Forall from_generator
                [PostStudents " cs-1 " "A" "8";
                 PostGenerateSample [("CS1234", "a", 3)]%string]).
  { constructor; [exact I|]. constructor; [|constructor].
    exists 1, [1234], ["a"%string], [3].
    split; [repeat constructor; lia|].
    split; [repeat constructor; lia|reflexivity]. }
  split; [exact H|].
  exact (stored_students_are_well_formed _ H).
Defined.

(* ================================================================= *)
(** ** Where the stored days come from *)

Lemma attendance_post_commits (fault : nat -> bool) (today_str : string)
  (date_field : option string) (form : list (Z * string)) (d : db) :
  let date_str := match date_field with Some v => v | None => today_str end in
  fst (attendance_post fault today_str date_field form d) = d
  \/ (fst (attendance_post fault today_str date_field form d)
      = apply_day date_str form d
      /\ String.ltb today_str date_str = false
      /\ forall dt, strptime date_str = Some dt -> weekday dt <> 6).
Proof.
  intros date_str. unfold attendance_post. fold date_str.
  destruct (String.ltb today_str date_str) eqn:E1; [now left|].
  destruct (match strptime date_str with
            | Some dt => weekday dt =? 6
            | None => false
            end) eqn:E2; [now left|].
  destruct (execute_all_cases fault (attendance_stmts date_str form d) 0 d)
    as [E|E]; rewrite E; [right|now left].
  split; [reflexivity|]. split; [reflexivity|].
  intros dt Hdt. rewrite Hdt in E2. now apply Z.eqb_neq.
Qed.

Lemma marks_post_records (form : list (Z * string)) (d : db) :
  attendance_records (fst (marks_post form d)) = attendance_records d.
Proof.
  unfold marks_post. cbn [fst]. generalize (select_students d).
  intros l. revert d. induction l as [|s l IH]; intros d; [reflexivity|].
  simpl fold_left. now rewrite IH.
Qed.

Lemma sample_records (sample : list (string * string * Z)) (d : db) :
  attendance_records (fst (ai_generate_sample sample d)) = attendance_records d.
Proof.
  unfold ai_generate_sample.
  assert (G : forall acc : db * nat,
             attendance_records
               (fst (fold_left (fun (acc : db * nat) row =>
                  match row with
                  | (roll_no, name, semester) =>
                      match insert_student roll_no name semester (fst acc) with
                      | Some acc' => (acc', S (snd acc))
                      | None => acc
                      end
                  end) sample acc))
             = attendance_records (fst acc)).
  { induction sample as [|[[r n] sem] sample IH]; intros acc; [reflexivity|].
    simpl fold_left. rewrite IH. unfold insert_student.
    destruct (existsb _ (students (fst acc))); reflexivity. }
  specialize (G (d, O)).
  destruct (fold_left _ sample (d, O)) as [d' added]. exact G.
Qed.

(** The records a request leaves: those that were there, or those of the
    day an attendance request committed. *)
Lemma handle_records (r : request) (d : db) (rec : attendance_record) :
  In rec (attendance_records (fst (handle r d))) ->
  In rec (attendance_records d)
  \/ exists today_str,
       In (today_str, ar_date rec) (submitted_days [r])
       /\ String.ltb today_str (ar_date rec) = false
       /\ forall dt, strptime (ar_date rec) = Some dt -> weekday dt <> 6.
Proof.
  destruct r as [roll name sem|id|fault today df form|form|sample];
    simpl handle.
  - unfold students_post.
    destruct (validate_roll_number (strip roll)) as [valid msg].
    destruct valid; simpl; [|now left].
    destruct (py_int sem) as [n|]; [|now left].
    destruct ((n <? 1) || (8 <? n)); [now left|].
    destruct (truthy (strip name)); simpl; [|now left].
    unfold insert_student.
    destruct (existsb _ (students d)); simpl; now left.
  - cbn. intros H. apply filter_In in H. left. apply H.
  - destruct (attendance_post_commits fault today df form d)
      as [E|(E & E1 & E2)]; rewrite E; [now left|].
    rewrite apply_day_records. intros H. apply in_app_or in H.
    destruct H as [H|H].
    + apply filter_In in H. left. apply H.
    + apply in_new_records in H. destruct H as (s & _ & _ & Hd & _).
      right. exists today. rewrite Hd. split; [now left|]. split; assumption.
  - rewrite marks_post_records. now left.
  - rewrite sample_records. now left.
Qed.

Lemma submitted_days_app (rs rs' : list request) :
  submitted_days (rs ++ rs') = submitted_days rs ++ submitted_days rs'.
Proof. unfold submitted_days. apply flat_map_app. Qed.

Lemma run_app (rs rs' : list request) (d : db) :
  run (rs ++ rs') d = run rs' (run rs d).
Proof. unfold run. apply fold_left_app. Qed.

(** X19: where the stored days come from.  Every attendance record in the
    table carries the date string of an attendance request that was sent,
    that string is not after the [today] of that request in string order,
    and, when it reads as a date, that date is not a Sunday. *)
Theorem stored_days_were_let_through (rs : list request) :
  Forall (fun rec =>
            (exists today_str,
                In (today_str, ar_date rec) (submitted_days rs)
                /\ String.ltb today_str (ar_date rec) = false)
            /\ forall dt, strptime (ar_date rec) = Some dt -> weekday dt <> 6)
         (attendance_records (run rs init_db)).
Proof.
  induction rs as [|r rs IH] using rev_ind; [constructor|].
  rewrite run_app, submitted_days_app. apply Forall_forall. intros rec H.
  change (run [r] (run rs init_db)) with (fst (handle r (run rs init_db))) in H.
  apply handle_records in H. destruct H as [H|(today & H1 & H2 & H3)].
  - rewrite Forall_forall in IH. destruct (IH rec H) as ((today & H1 & H2) & H3).
    split; [|exact H3]. exists today. split; [|exact H2].
    apply in_or_app. now left.
  - split; [|exact H3]. exists today. split; [|exact H2].
    apply in_or_app. now right.
Qed.

(* ================================================================= *)
(** ** The validation endpoint and the add-form *)


